(** * NewAPI check-in script: a shallow embedding of [checkin.py]

    The script reads an account list from the environment, performs one
    check-in request per account, formats a report and exits with a status
    code.  This development embeds its functions in Rocq and proves the
    properties its specification states about them.

    Layout: the interpreter's data (text as code points, dynamically typed
    values, exceptions, binary64 numbers), the library calls the script
    relies on ([json.loads], [base64.b64decode], [bytes.decode], [re.search],
    [str.split], [str.strip]), then the script's own functions in the order
    of the source file, then the theorems. *)

From Stdlib Require Import ZArith NArith List String Ascii Bool Lia.
From Stdlib Require Import Floats.SpecFloat.
Import ListNotations.

Local Open Scope N_scope.

(* ================================================================== *)
(** * Text *)

(** A Python [str] is a sequence of Unicode code points; [bytes] is a
    sequence of octets. *)
Definition pystr := list N.
Definition pybytes := list N.

Definition is_continuation (b : N) : bool := (0x80 <=? b) && (b <=? 0xBF).

(** [bytes.decode('utf-8', errors='ignore')]: CPython's decoder, which on
    an ill-formed sequence drops the offending prefix (one byte for a bad
    start byte, the well-formed part of a sequence whose continuation is
    bad, everything left for a sequence cut by the end of input) and goes
    on with the next byte. *)
Fixpoint utf8_decode_ignore (bs : pybytes) : pystr :=
  match bs with
  | [] => []
  | b0 :: r0 =>
    if b0 <? 0x80 then b0 :: utf8_decode_ignore r0
    else if b0 <? 0xC2 then utf8_decode_ignore r0
    else if b0 <? 0xE0 then
      match r0 with
      | [] => []
      | b1 :: r1 =>
        if is_continuation b1
        then ((b0 - 0xC0) * 64 + (b1 - 0x80)) :: utf8_decode_ignore r1
        else utf8_decode_ignore r0
      end
    else if b0 <? 0xF0 then
      match r0 with
      | [] => []
      | b1 :: r1 =>
        if negb (is_continuation b1)
           || (if b1 <? 0xA0 then b0 =? 0xE0 else b0 =? 0xED)
        then utf8_decode_ignore r0
        else
          match r1 with
          | [] => []
          | b2 :: r2 =>
            if is_continuation b2
            then ((b0 - 0xE0) * 4096 + (b1 - 0x80) * 64 + (b2 - 0x80))
                   :: utf8_decode_ignore r2
            else utf8_decode_ignore r1
          end
      end
    else if b0 <? 0xF5 then
      match r0 with
      | [] => []
      | b1 :: r1 =>
        if negb (is_continuation b1)
           || (if b1 <? 0x90 then b0 =? 0xF0 else b0 =? 0xF4)
        then utf8_decode_ignore r0
        else
          match r1 with
          | [] => []
          | b2 :: r2 =>
            if negb (is_continuation b2) then utf8_decode_ignore r1
            else
              match r2 with
              | [] => []
              | b3 :: r3 =>
                if is_continuation b3
                then ((b0 - 0xF0) * 262144 + (b1 - 0x80) * 4096
                      + (b2 - 0x80) * 64 + (b3 - 0x80))
                       :: utf8_decode_ignore r3
                else utf8_decode_ignore r2
              end
          end
      end
    else utf8_decode_ignore r0
  end.

Fixpoint bytes_of_string (s : string) : pybytes :=
  match s with
  | EmptyString => []
  | String a r => N_of_ascii a :: bytes_of_string r
  end.

(** A literal of the source, written in this file as UTF-8 text. *)
Definition py (s : string) : pystr := utf8_decode_ignore (bytes_of_string s).
Arguments py s%_string.

Fixpoint pystr_eqb (a b : pystr) : bool :=
  match a, b with
  | [], [] => true
  | x :: a', y :: b' => (x =? y) && pystr_eqb a' b'
  | _, _ => false
  end.

(** The double quote, which a literal of this file cannot hold. *)
Definition dquote : N := 34.

(** Decimal digits of a natural number, most significant first. *)
Fixpoint digits_fuel (fuel : nat) (n : N) (acc : pystr) : pystr :=
  match fuel with
  | O => acc
  | S f =>
    let acc' := (48 + n mod 10) :: acc in
    if n / 10 =? 0 then acc' else digits_fuel f (n / 10) acc'
  end.

Definition N_to_pystr (n : N) : pystr :=
  digits_fuel (S (N.to_nat (N.size n))) n [].

(** [str(i)] of an [int]. *)
Definition Z_to_pystr (z : Z) : pystr :=
  match z with
  | Zneg p => 45 :: N_to_pystr (Npos p)
  | _ => N_to_pystr (Z.to_N z)
  end.

(** [s[:n]] *)
Definition slice_to (n : nat) (s : pystr) : pystr := firstn n s.

(** [c in s] for a single character, and [a in b] for text. *)
Definition has_char (c : N) (s : pystr) : bool := existsb (N.eqb c) s.

Fixpoint starts_with (p s : pystr) : bool :=
  match p, s with
  | [], _ => true
  | _, [] => false
  | a :: p', b :: s' => (a =? b) && starts_with p' s'
  end.

Fixpoint contains (p s : pystr) : bool :=
  starts_with p s ||
  match s with
  | [] => false
  | _ :: s' => contains p s'
  end.

(** Code points for which [str.isspace] holds (Unicode 14, as CPython 3.11
    ships it); the regular expression class [\s] is the same set. *)
Definition is_space (c : N) : bool :=
  ((9 <=? c) && (c <=? 13)) || ((28 <=? c) && (c <=? 32))
  || (c =? 133) || (c =? 160) || (c =? 5760)
  || ((8192 <=? c) && (c <=? 8202)) || (c =? 8232) || (c =? 8233)
  || (c =? 8239) || (c =? 8287) || (c =? 12288).

Fixpoint lstrip (s : pystr) : pystr :=
  match s with
  | c :: r => if is_space c then lstrip r else s
  | [] => []
  end.

Definition rstrip (s : pystr) : pystr := rev (lstrip (rev s)).

(** [s.strip()] *)
Definition strip (s : pystr) : pystr := rstrip (lstrip s).

(** [s.rstrip('/')] *)
Fixpoint lstrip_char (ch : N) (s : pystr) : pystr :=
  match s with
  | c :: r => if c =? ch then lstrip_char ch r else s
  | [] => []
  end.

Definition rstrip_char (ch : N) (s : pystr) : pystr :=
  rev (lstrip_char ch (rev s)).

(** [s.split(sep)] for a one-character separator: never empty, one more
    piece than there are separators. *)
Fixpoint split_on (sep : N) (s : pystr) : list pystr :=
  match s with
  | [] => [[]]
  | c :: r =>
    if c =? sep then [] :: split_on sep r
    else match split_on sep r with
         | p :: ps => (c :: p) :: ps
         | [] => [[c]]
         end
  end.

(** [s.split(sep, 1)] when [sep] occurs in [s]: the text before the first
    occurrence and the text after it. *)
Fixpoint split_first (sep : N) (s : pystr) : option (pystr * pystr) :=
  match s with
  | [] => None
  | c :: r =>
    if c =? sep then Some ([], r)
    else match split_first sep r with
         | Some (a, b) => Some (c :: a, b)
         | None => None
         end
  end.

(** ['\n'.join(lines)] and friends. *)
Fixpoint join (sep : pystr) (parts : list pystr) : pystr :=
  match parts with
  | [] => []
  | [p] => p
  | p :: ps => p ++ sep ++ join sep ps
  end.

(* ================================================================== *)
(** * Exceptions *)

(** The exception classes the script can meet.  [JSONDecodeError] derives
    from [ValueError] and [Timeout] from [RequestException]; every class
    listed derives from [Exception]. *)
Inductive exn_class :=
| AttributeError
| TypeError
| KeyError
| ValueError
| OverflowError
| JSONDecodeError
| BinasciiError
| RequestTimeout
| RequestException
| OtherException.

(** A raised exception: its class and [str(e)]. *)
Record exn := mk_exn { exn_cls : exn_class; exn_text : pystr }.

(** [isinstance(e, requests.exceptions.RequestException)] *)
Definition is_request_exception (e : exn) : bool :=
  match exn_cls e with
  | RequestTimeout | RequestException => true
  | _ => false
  end.

Definition is_timeout (e : exn) : bool :=
  match exn_cls e with
  | RequestTimeout => true
  | _ => false
  end.

Definition is_json_decode_error (e : exn) : bool :=
  match exn_cls e with
  | JSONDecodeError => true
  | _ => false
  end.

(** The outcome of evaluating an expression or running a statement. *)
Inductive result (A : Type) :=
| Ok (a : A)
| Raise (e : exn).
Arguments Ok {A} a.
Arguments Raise {A} e.

Definition bind {A B} (r : result A) (k : A -> result B) : result B :=
  match r with
  | Ok a => k a
  | Raise e => Raise e
  end.

(** [try: body  except Exception as e: handler(e)] *)
Definition try_except {A} (body : result A) (handler : exn -> result A)
  : result A :=
  match body with
  | Ok a => Ok a
  | Raise e => handler e
  end.

Declare Scope py_scope.
Delimit Scope py_scope with py.
Notation "x <- c ;; k" := (bind c (fun x => k))
  (at level 61, c at next level, right associativity) : py_scope.

(* ================================================================== *)
(** * Binary64 numbers *)

(** A Python [float] is an IEEE 754 binary64 number.  The operations are
    those of the Standard Library's specification of floating point
    arithmetic at precision 53 and maximal exponent 1024. *)
Definition pyfloat := spec_float.
Definition prec64 : Z := 53.
Definition emax64 : Z := 1024.

(** The binary64 number nearest to [(-1)^neg * m * 10^e] (ties to even):
    what [float(text)] returns for a decimal literal.  A literal far out
    of range is settled without building the power of ten. *)
Definition float_of_decimal (neg : bool) (m : N) (e : Z) : pyfloat :=
  match m with
  | N0 => S754_zero neg
  | Npos p =>
    let nd := Z.of_nat (List.length (N_to_pystr m)) in
    if (400 <? e)%Z then S754_infinity neg
    else if (e + nd <? -400)%Z then S754_zero neg
    else if (0 <=? e)%Z
    then binary_round prec64 emax64 neg (p * Z.to_pos (10 ^ e)) 0
    else SFdiv prec64 emax64 (S754_finite neg p 0)
                             (S754_finite false (Z.to_pos (10 ^ (- e))) 0)
  end.

(** [float(i)] for an [int] that a binary64 number holds exactly. *)
Definition float_of_Z (z : Z) : pyfloat :=
  binary_normalize prec64 emax64 z 0 false.

(** [a / b] on two [int]s, [b] positive: the quotient rounded once. *)
Definition int_truediv (a : Z) (b : positive) : result pyfloat :=
  match a with
  | Z0 => Ok (S754_zero false)
  | Zpos p | Zneg p =>
    match SFdiv prec64 emax64 (S754_finite (a <? 0)%Z p 0)
                              (S754_finite false b 0) with
    | S754_infinity _ =>
      Raise (mk_exn OverflowError
                    (py "integer division result too large for a float"))
    | q => Ok q
    end
  end.

(** [x / b] on a [float] and a positive [int] constant. *)
Definition float_truediv (x : pyfloat) (b : positive) : pyfloat :=
  SFdiv prec64 emax64 x (float_of_Z (Zpos b)).

(** [x >= k] for a [float] and an [int] constant that a binary64 number
    holds exactly; it is false when [x] is not a number. *)
Definition float_ge_int (x : pyfloat) (k : Z) : bool :=
  match SFcompare x (float_of_Z k) with
  | Some Gt | Some Eq => true
  | _ => false
  end.

(** Nearest integer to [n / d], ties to even. *)
Definition round_half_even (n d : Z) : Z :=
  let q := (n / d)%Z in
  let r := (n mod d)%Z in
  match (2 * r ?= d)%Z with
  | Lt => q
  | Gt => (q + 1)%Z
  | Eq => if Z.even q then q else (q + 1)%Z
  end.

Definition pad2 (n : N) : pystr :=
  if n <? 10 then 48 :: N_to_pystr n else N_to_pystr n.

(** [f"{x:.2f}"] *)
Definition format_2f (x : pyfloat) : pystr :=
  match x with
  | S754_nan => py "nan"
  | S754_infinity s => if s then py "-inf" else py "inf"
  | S754_zero s => if s then py "-0.00" else py "0.00"
  | S754_finite s m e =>
    let h := (if (0 <=? e)%Z
              then Zpos m * 2 ^ e * 100
              else round_half_even (Zpos m * 100) (2 ^ (- e)))%Z in
    (if s then [45] else [])
      ++ N_to_pystr (Z.to_N (h / 100)) ++ [46] ++ pad2 (Z.to_N (h mod 100))
  end.

(** ** [repr] of a float: the shortest decimal that reads back as it *)

(** The value [m * 2^e] as a fraction. *)
Definition fraction_of (m : positive) (e : Z) : Z * Z :=
  if (0 <=? e)%Z then (Zpos m * 2 ^ e, 1)%Z else (Zpos m, 2 ^ (- e))%Z.

(** The decimal point position [k] of a positive fraction:
    [10^(k-1) <= n/d < 10^k]. *)
Fixpoint small_point (fuel : nat) (n d : Z) (j : Z) : Z :=
  match fuel with
  | O => j
  | S f => if (d <=? n * 10)%Z then j else small_point f (n * 10)%Z d (j - 1)%Z
  end.

Definition decimal_point (n d : Z) : Z :=
  if (d <=? n)%Z
  then Z.of_nat (List.length (N_to_pystr (Z.to_N (n / d))))
  else small_point 400 n d 0.

(** The candidates with [nd] digits around [n/d] that read back as
    [S754_finite false m e], nearest first; a candidate is its digits as a
    number together with the decimal point position. *)
Definition candidates (m : positive) (e : Z) (n d k : Z) (nd : Z)
  : list (N * Z) :=
  let sh := (nd - k)%Z in
  let P := (if (0 <=? sh)%Z then n * 10 ^ sh else n)%Z in
  let Q := (if (0 <=? sh)%Z then d else d * 10 ^ (- sh))%Z in
  let lo := (P / Q)%Z in
  let r := (P mod Q)%Z in
  let back (c : Z) :=
      match float_of_decimal false (Z.to_N c) (- sh) with
      | S754_finite false m' e' => Pos.eqb m m' && Z.eqb e e'
      | _ => false
      end in
  let norm (c : Z) : N * Z :=
      if (c =? 10 ^ nd)%Z then (1, (k + 1)%Z) else (Z.to_N c, k) in
  if (r =? 0)%Z then [norm lo]
  else
    let order := (match (2 * r ?= Q)%Z with
                  | Lt => [lo; lo + 1]
                  | Gt => [lo + 1; lo]
                  | Eq => if Z.even lo then [lo; lo + 1] else [lo + 1; lo]
                  end)%Z in
    map norm (filter back order).

Fixpoint shortest_from (fuel : nat) (m : positive) (e : Z) (n d k : Z)
         (nd : Z) : N * Z :=
  match fuel with
  | O => (Npos m, k)
  | S f =>
    match candidates m e n d k nd with
    | c :: _ => c
    | [] => shortest_from f m e n d k (nd + 1)%Z
    end
  end.

Definition shortest_digits (m : positive) (e : Z) : N * Z :=
  let '(n, d) := fraction_of m e in
  shortest_from 17 m e n d (decimal_point n d) 1.

Definition zeros (n : Z) : pystr := repeat 48 (Z.to_nat n).

(** [repr(x)], which is also [str(x)]: fixed notation while the decimal
    point lies within the digits or close to them, exponent notation
    otherwise. *)
Definition float_repr (x : pyfloat) : pystr :=
  match x with
  | S754_nan => py "nan"
  | S754_infinity s => if s then py "-inf" else py "inf"
  | S754_zero s => if s then py "-0.0" else py "0.0"
  | S754_finite s m e =>
    let '(dn, k) := shortest_digits m e in
    let ds := N_to_pystr dn in
    let n := Z.of_nat (List.length ds) in
    (if s then [45] else []) ++
    (if ((k <=? -4) || (16 <? k))%Z
     then
       let x10 := (k - 1)%Z in
       firstn 1 ds
         ++ (if (1 <? n)%Z then 46 :: skipn 1 ds else [])
         ++ [101] ++ (if (x10 <? 0)%Z then [45] else [43])
         ++ pad2 (Z.to_N (Z.abs x10))
     else if (k <=? 0)%Z then py "0." ++ zeros (- k) ++ ds
     else if (k <? n)%Z
     then firstn (Z.to_nat k) ds ++ [46] ++ skipn (Z.to_nat k) ds
     else ds ++ zeros (k - n) ++ py ".0")
  end.

(* ================================================================== *)
(** * Values *)

(** The values [json.loads] builds, which are all the values the script
    handles: [None], [bool], [int], [float], [str], [list] and [dict] with
    text keys, in insertion order. *)
#[warnings="-register-all"]
Inductive pyval :=
| PNone
| PBool (b : bool)
| PInt (z : Z)
| PFloat (x : pyfloat)
| PStr (s : pystr)
| PList (l : list pyval)
| PDict (d : list (pystr * pyval)).

(** [bool(v)], the test of [if v:]. *)
Definition truthy (v : pyval) : bool :=
  match v with
  | PNone => false
  | PBool b => b
  | PInt z => negb (z =? 0)%Z
  | PFloat (S754_zero _) => false
  | PFloat _ => true
  | PStr s => negb (Nat.eqb (List.length s) 0)
  | PList l => negb (Nat.eqb (List.length l) 0)
  | PDict d => negb (Nat.eqb (List.length d) 0)
  end.

(** [type(v).__name__] *)
Definition type_name (v : pyval) : pystr :=
  match v with
  | PNone => py "NoneType"
  | PBool _ => py "bool"
  | PInt _ => py "int"
  | PFloat _ => py "float"
  | PStr _ => py "str"
  | PList _ => py "list"
  | PDict _ => py "dict"
  end.

(** ** Dictionaries *)

Fixpoint lookup (k : pystr) (d : list (pystr * pyval)) : option pyval :=
  match d with
  | [] => None
  | (k', v) :: r => if pystr_eqb k k' then Some v else lookup k r
  end.

(** [d[k] = v]: an existing key keeps its place. *)
Fixpoint dict_set (k : pystr) (v : pyval) (d : list (pystr * pyval))
  : list (pystr * pyval) :=
  match d with
  | [] => [(k, v)]
  | (k', v') :: r =>
    if pystr_eqb k k' then (k, v) :: r else (k', v') :: dict_set k v r
  end.

Definition has_key (k : pystr) (d : list (pystr * pyval)) : bool :=
  match lookup k d with
  | Some _ => true
  | None => false
  end.

Definition no_attribute (v : pyval) (attr : pystr) : exn :=
  mk_exn AttributeError
         (py "'" ++ type_name v ++ py "' object has no attribute '"
             ++ attr ++ py "'").

(** [v.get(k, default)]: defined on dictionaries only. *)
Definition py_get (v : pyval) (k : pystr) (default : pyval) : result pyval :=
  match v with
  | PDict d =>
    Ok (match lookup k d with
        | Some x => x
        | None => default
        end)
  | _ => Raise (no_attribute v (py "get"))
  end.

(** [k in v] for a text [k]: a key of a dictionary, a piece of a text, an
    element of a list; other values are not containers. *)
Definition py_in (k : pystr) (v : pyval) : result bool :=
  match v with
  | PDict d => Ok (has_key k d)
  | PStr s => Ok (contains k s)
  | PList l =>
    Ok (existsb (fun x => match x with
                          | PStr s => pystr_eqb k s
                          | _ => false
                          end) l)
  | _ => Raise (mk_exn TypeError
                       (py "argument of type '" ++ type_name v
                           ++ py "' is not iterable"))
  end.

(** [v[k]] for a text [k]. *)
Definition py_item (v : pyval) (k : pystr) : result pyval :=
  match v with
  | PDict d =>
    match lookup k d with
    | Some x => Ok x
    | None => Raise (mk_exn KeyError (py "'" ++ k ++ py "'"))
    end
  | PStr _ => Raise (mk_exn TypeError (py "string indices must be integers"))
  | PList _ =>
    Raise (mk_exn TypeError
                  (py "list indices must be integers or slices, not str"))
  | _ => Raise (mk_exn TypeError
                       (py "'" ++ type_name v
                           ++ py "' object is not subscriptable"))
  end.

(** ** [repr] and [str] *)

Definition in_ranges (tbl : list (N * N)) (c : N) : bool :=
  existsb (fun r => (fst r <=? c) && (c <=? snd r)) tbl.

(** Code points above U+007F for which [str.isprintable] fails
    (Unicode 14). *)
Definition nonprintable_ranges : list (N * N) :=
  [(128, 160); (173, 173); (888, 889); (896, 899); (907, 907); (909, 909);
   (930, 930); (1328, 1328); (1367, 1368); (1419, 1420); (1424, 1424);
   (1480, 1487); (1515, 1518); (1525, 1541); (1564, 1564); (1757, 1757);
   (1806, 1807); (1867, 1868); (1970, 1983); (2043, 2044); (2094, 2095);
   (2111, 2111); (2140, 2141); (2143, 2143); (2155, 2159); (2191, 2199);
   (2274, 2274); (2436, 2436); (2445, 2446); (2449, 2450); (2473, 2473);
   (2481, 2481); (2483, 2485); (2490, 2491); (2501, 2502); (2505, 2506);
   (2511, 2518); (2520, 2523); (2526, 2526); (2532, 2533); (2559, 2560);
   (2564, 2564); (2571, 2574); (2577, 2578); (2601, 2601); (2609, 2609);
   (2612, 2612); (2615, 2615); (2618, 2619); (2621, 2621); (2627, 2630);
   (2633, 2634); (2638, 2640); (2642, 2648); (2653, 2653); (2655, 2661);
   (2679, 2688); (2692, 2692); (2702, 2702); (2706, 2706); (2729, 2729);
   (2737, 2737); (2740, 2740); (2746, 2747); (2758, 2758); (2762, 2762);
   (2766, 2767); (2769, 2783); (2788, 2789); (2802, 2808); (2816, 2816);
   (2820, 2820); (2829, 2830); (2833, 2834); (2857, 2857); (2865, 2865);
   (2868, 2868); (2874, 2875); (2885, 2886); (2889, 2890); (2894, 2900);
   (2904, 2907); (2910, 2910); (2916, 2917); (2936, 2945); (2948, 2948);
   (2955, 2957); (2961, 2961); (2966, 2968); (2971, 2971); (2973, 2973);
   (2976, 2978); (2981, 2983); (2987, 2989); (3002, 3005); (3011, 3013);
   (3017, 3017); (3022, 3023); (3025, 3030); (3032, 3045); (3067, 3071);
   (3085, 3085); (3089, 3089); (3113, 3113); (3130, 3131); (3141, 3141);
   (3145, 3145); (3150, 3156); (3159, 3159); (3163, 3164); (3166, 3167);
   (3172, 3173); (3184, 3190); (3213, 3213); (3217, 3217); (3241, 3241);
   (3252, 3252); (3258, 3259); (3269, 3269); (3273, 3273); (3278, 3284);
   (3287, 3292); (3295, 3295); (3300, 3301); (3312, 3312); (3315, 3327);
   (3341, 3341); (3345, 3345); (3397, 3397); (3401, 3401); (3408, 3411);
   (3428, 3429); (3456, 3456); (3460, 3460); (3479, 3481); (3506, 3506);
   (3516, 3516); (3518, 3519); (3527, 3529); (3531, 3534); (3541, 3541);
   (3543, 3543); (3552, 3557); (3568, 3569); (3573, 3584); (3643, 3646);
   (3676, 3712); (3715, 3715); (3717, 3717); (3723, 3723); (3748, 3748);
   (3750, 3750); (3774, 3775); (3781, 3781); (3783, 3783); (3790, 3791);
   (3802, 3803); (3808, 3839); (3912, 3912); (3949, 3952); (3992, 3992);
   (4029, 4029); (4045, 4045); (4059, 4095); (4294, 4294); (4296, 4300);
   (4302, 4303); (4681, 4681); (4686, 4687); (4695, 4695); (4697, 4697);
   (4702, 4703); (4745, 4745); (4750, 4751); (4785, 4785); (4790, 4791);
   (4799, 4799); (4801, 4801); (4806, 4807); (4823, 4823); (4881, 4881);
   (4886, 4887); (4955, 4956); (4989, 4991); (5018, 5023); (5110, 5111);
   (5118, 5119); (5760, 5760); (5789, 5791); (5881, 5887); (5910, 5918);
   (5943, 5951); (5972, 5983); (5997, 5997); (6001, 6001); (6004, 6015);
   (6110, 6111); (6122, 6127); (6138, 6143); (6158, 6158); (6170, 6175);
   (6265, 6271); (6315, 6319); (6390, 6399); (6431, 6431); (6444, 6447);
   (6460, 6463); (6465, 6467); (6510, 6511); (6517, 6527); (6572, 6575);
   (6602, 6607); (6619, 6621); (6684, 6685); (6751, 6751); (6781, 6782);
   (6794, 6799); (6810, 6815); (6830, 6831); (6863, 6911); (6989, 6991);
   (7039, 7039); (7156, 7163); (7224, 7226); (7242, 7244); (7305, 7311);
   (7355, 7356); (7368, 7375); (7419, 7423); (7958, 7959); (7966, 7967);
   (8006, 8007); (8014, 8015); (8024, 8024); (8026, 8026); (8028, 8028);
   (8030, 8030); (8062, 8063); (8117, 8117); (8133, 8133); (8148, 8149);
   (8156, 8156); (8176, 8177); (8181, 8181); (8191, 8207); (8232, 8239);
   (8287, 8303); (8306, 8307); (8335, 8335); (8349, 8351); (8385, 8399);
   (8433, 8447); (8588, 8591); (9255, 9279); (9291, 9311); (11124, 11125);
   (11158, 11158); (11508, 11512); (11558, 11558); (11560, 11564);
   (11566, 11567); (11624, 11630); (11633, 11646); (11671, 11679);
   (11687, 11687); (11695, 11695); (11703, 11703); (11711, 11711);
   (11719, 11719); (11727, 11727); (11735, 11735); (11743, 11743);
   (11870, 11903); (11930, 11930); (12020, 12031); (12246, 12271);
   (12284, 12288); (12352, 12352); (12439, 12440); (12544, 12548);
   (12592, 12592); (12687, 12687); (12772, 12783); (12831, 12831);
   (42125, 42127); (42183, 42191); (42540, 42559); (42744, 42751);
   (42955, 42959); (42962, 42962); (42964, 42964); (42970, 42993);
   (43053, 43055); (43066, 43071); (43128, 43135); (43206, 43213);
   (43226, 43231); (43348, 43358); (43389, 43391); (43470, 43470);
   (43482, 43485); (43519, 43519); (43575, 43583); (43598, 43599);
   (43610, 43611); (43715, 43738); (43767, 43776); (43783, 43784);
   (43791, 43792); (43799, 43807); (43815, 43815); (43823, 43823);
   (43884, 43887); (44014, 44015); (44026, 44031); (55204, 55215);
   (55239, 55242); (55292, 63743); (64110, 64111); (64218, 64255);
   (64263, 64274); (64280, 64284); (64311, 64311); (64317, 64317);
   (64319, 64319); (64322, 64322); (64325, 64325); (64451, 64466);
   (64912, 64913); (64968, 64974); (64976, 65007); (65050, 65055);
   (65107, 65107); (65127, 65127); (65132, 65135); (65141, 65141);
   (65277, 65280); (65471, 65473); (65480, 65481); (65488, 65489);
   (65496, 65497); (65501, 65503); (65511, 65511); (65519, 65531);
   (65534, 65535); (65548, 65548); (65575, 65575); (65595, 65595);
   (65598, 65598); (65614, 65615); (65630, 65663); (65787, 65791);
   (65795, 65798); (65844, 65846); (65935, 65935); (65949, 65951);
   (65953, 65999); (66046, 66175); (66205, 66207); (66257, 66271);
   (66300, 66303); (66340, 66348); (66379, 66383); (66427, 66431);
   (66462, 66462); (66500, 66503); (66518, 66559); (66718, 66719);
   (66730, 66735); (66772, 66775); (66812, 66815); (66856, 66863);
   (66916, 66926); (66939, 66939); (66955, 66955); (66963, 66963);
   (66966, 66966); (66978, 66978); (66994, 66994); (67002, 67002);
   (67005, 67071); (67383, 67391); (67414, 67423); (67432, 67455);
   (67462, 67462); (67505, 67505); (67515, 67583); (67590, 67591);
   (67593, 67593); (67638, 67638); (67641, 67643); (67645, 67646);
   (67670, 67670); (67743, 67750); (67760, 67807); (67827, 67827);
   (67830, 67834); (67868, 67870); (67898, 67902); (67904, 67967);
   (68024, 68027); (68048, 68049); (68100, 68100); (68103, 68107);
   (68116, 68116); (68120, 68120); (68150, 68151); (68155, 68158);
   (68169, 68175); (68185, 68191); (68256, 68287); (68327, 68330);
   (68343, 68351); (68406, 68408); (68438, 68439); (68467, 68471);
   (68498, 68504); (68509, 68520); (68528, 68607); (68681, 68735);
   (68787, 68799); (68851, 68857); (68904, 68911); (68922, 69215);
   (69247, 69247); (69290, 69290); (69294, 69295); (69298, 69375);
   (69416, 69423); (69466, 69487); (69514, 69551); (69580, 69599);
   (69623, 69631); (69710, 69713); (69750, 69758); (69821, 69821);
   (69827, 69839); (69865, 69871); (69882, 69887); (69941, 69941);
   (69960, 69967); (70007, 70015); (70112, 70112); (70133, 70143);
   (70162, 70162); (70207, 70271); (70279, 70279); (70281, 70281);
   (70286, 70286); (70302, 70302); (70314, 70319); (70379, 70383);
   (70394, 70399); (70404, 70404); (70413, 70414); (70417, 70418);
   (70441, 70441); (70449, 70449); (70452, 70452); (70458, 70458);
   (70469, 70470); (70473, 70474); (70478, 70479); (70481, 70486);
   (70488, 70492); (70500, 70501); (70509, 70511); (70517, 70655);
   (70748, 70748); (70754, 70783); (70856, 70863); (70874, 71039);
   (71094, 71095); (71134, 71167); (71237, 71247); (71258, 71263);
   (71277, 71295); (71354, 71359); (71370, 71423); (71451, 71452);
   (71468, 71471); (71495, 71679); (71740, 71839); (71923, 71934);
   (71943, 71944); (71946, 71947); (71956, 71956); (71959, 71959);
   (71990, 71990); (71993, 71994); (72007, 72015); (72026, 72095);
   (72104, 72105); (72152, 72153); (72165, 72191); (72264, 72271);
   (72355, 72367); (72441, 72703); (72713, 72713); (72759, 72759);
   (72774, 72783); (72813, 72815); (72848, 72849); (72872, 72872);
   (72887, 72959); (72967, 72967); (72970, 72970); (73015, 73017);
   (73019, 73019); (73022, 73022); (73032, 73039); (73050, 73055);
   (73062, 73062); (73065, 73065); (73103, 73103); (73106, 73106);
   (73113, 73119); (73130, 73439); (73465, 73647); (73649, 73663);
   (73714, 73726); (74650, 74751); (74863, 74863); (74869, 74879);
   (75076, 77711); (77811, 77823); (78895, 82943); (83527, 92159);
   (92729, 92735); (92767, 92767); (92778, 92781); (92863, 92863);
   (92874, 92879); (92910, 92911); (92918, 92927); (92998, 93007);
   (93018, 93018); (93026, 93026); (93048, 93052); (93072, 93759);
   (93851, 93951); (94027, 94030); (94088, 94094); (94112, 94175);
   (94181, 94191); (94194, 94207); (100344, 100351); (101590, 101631);
   (101641, 110575); (110580, 110580); (110588, 110588); (110591, 110591);
   (110883, 110927); (110931, 110947); (110952, 110959); (111356, 113663);
   (113771, 113775); (113789, 113791); (113801, 113807); (113818, 113819);
   (113824, 118527); (118574, 118575); (118599, 118607); (118724, 118783);
   (119030, 119039); (119079, 119080); (119155, 119162); (119275, 119295);
   (119366, 119519); (119540, 119551); (119639, 119647); (119673, 119807);
   (119893, 119893); (119965, 119965); (119968, 119969); (119971, 119972);
   (119975, 119976); (119981, 119981); (119994, 119994); (119996, 119996);
   (120004, 120004); (120070, 120070); (120075, 120076); (120085, 120085);
   (120093, 120093); (120122, 120122); (120127, 120127); (120133, 120133);
   (120135, 120137); (120145, 120145); (120486, 120487); (120780, 120781);
   (121484, 121498); (121504, 121504); (121520, 122623); (122655, 122879);
   (122887, 122887); (122905, 122906); (122914, 122914); (122917, 122917);
   (122923, 123135); (123181, 123183); (123198, 123199); (123210, 123213);
   (123216, 123535); (123567, 123583); (123642, 123646); (123648, 124895);
   (124903, 124903); (124908, 124908); (124911, 124911); (124927, 124927);
   (125125, 125126); (125143, 125183); (125260, 125263); (125274, 125277);
   (125280, 126064); (126133, 126208); (126270, 126463); (126468, 126468);
   (126496, 126496); (126499, 126499); (126501, 126502); (126504, 126504);
   (126515, 126515); (126520, 126520); (126522, 126522); (126524, 126529);
   (126531, 126534); (126536, 126536); (126538, 126538); (126540, 126540);
   (126544, 126544); (126547, 126547); (126549, 126550); (126552, 126552);
   (126554, 126554); (126556, 126556); (126558, 126558); (126560, 126560);
   (126563, 126563); (126565, 126566); (126571, 126571); (126579, 126579);
   (126584, 126584); (126589, 126589); (126591, 126591); (126602, 126602);
   (126620, 126624); (126628, 126628); (126634, 126634); (126652, 126703);
   (126706, 126975); (127020, 127023); (127124, 127135); (127151, 127152);
   (127168, 127168); (127184, 127184); (127222, 127231); (127406, 127461);
   (127491, 127503); (127548, 127551); (127561, 127567); (127570, 127583);
   (127590, 127743); (128728, 128732); (128749, 128751); (128765, 128767);
   (128884, 128895); (128985, 128991); (129004, 129007); (129009, 129023);
   (129036, 129039); (129096, 129103); (129114, 129119); (129160, 129167);
   (129198, 129199); (129202, 129279); (129620, 129631); (129646, 129647);
   (129653, 129655); (129661, 129663); (129671, 129679); (129709, 129711);
   (129723, 129727); (129734, 129743); (129754, 129759); (129768, 129775);
   (129783, 129791); (129939, 129939); (129995, 130031); (130042, 131071);
   (173792, 173823); (177977, 177983); (178206, 178207); (183970, 183983);
   (191457, 194559); (195102, 196607); (201547, 917759); (918000, 1114111)].

Definition hex_digit (n : N) : N := if n <? 10 then 48 + n else 87 + n.

(** [n] as [w] lower-case hexadecimal digits. *)
Fixpoint hex_fixed (w : nat) (n : N) : pystr :=
  match w with
  | O => []
  | S w' => hex_fixed w' (n / 16) ++ [hex_digit (n mod 16)]
  end.

Definition repr_char (quote c : N) : pystr :=
  if (c =? quote) || (c =? 92) then [92; c]
  else if c =? 9 then py "\t"
  else if c =? 10 then py "\n"
  else if c =? 13 then py "\r"
  else if (c <? 32) || (c =? 127) then py "\x" ++ hex_fixed 2 c
  else if c <? 127 then [c]
  else if in_ranges nonprintable_ranges c then
    if c <=? 0xFF then py "\x" ++ hex_fixed 2 c
    else if c <=? 0xFFFF then py "\u" ++ hex_fixed 4 c
    else py "\U" ++ hex_fixed 8 c
  else [c].

(** [repr(s)] of a text: single quotes unless the text holds one and no
    double quote. *)
Definition str_repr (s : pystr) : pystr :=
  let quote := if has_char 39 s && negb (has_char dquote s)
               then dquote else 39 in
  [quote] ++ flat_map (repr_char quote) s ++ [quote].

Fixpoint py_repr (v : pyval) : pystr :=
  match v with
  | PNone => py "None"
  | PBool b => if b then py "True" else py "False"
  | PInt z => Z_to_pystr z
  | PFloat x => float_repr x
  | PStr s => str_repr s
  | PList l => py "[" ++ join (py ", ") (map py_repr l) ++ py "]"
  | PDict d =>
    py "{"
       ++ join (py ", ")
               (map (fun kv => str_repr (fst kv) ++ py ": " ++ py_repr (snd kv))
                    d)
       ++ py "}"
  end.

(** [str(v)], which is what an f-string field [{v}] inserts. *)
Definition py_str (v : pyval) : pystr :=
  match v with
  | PStr s => s
  | _ => py_repr v
  end.

(** [len(v)] *)
Definition py_len (v : pyval) : result nat :=
  match v with
  | PStr s => Ok (List.length s)
  | PList l => Ok (List.length l)
  | PDict d => Ok (List.length d)
  | _ => Raise (mk_exn TypeError
                       (py "object of type '" ++ type_name v
                           ++ py "' has no len()"))
  end.

(** [v >= k] for an [int] constant [k] that a binary64 number holds
    exactly: numbers compare by value, [bool] counting as 0 and 1; other
    values do not compare with an [int]. *)
Definition py_ge_int (v : pyval) (k : Z) : result bool :=
  match v with
  | PBool b => Ok (k <=? (if b then 1 else 0))%Z
  | PInt z => Ok (k <=? z)%Z
  | PFloat x => Ok (float_ge_int x k)
  | _ => Raise (mk_exn TypeError
                       (py "'>=' not supported between instances of '"
                           ++ type_name v ++ py "' and 'int'"))
  end.

(** [v / k] for a positive [int] constant [k], [v] a number. *)
Definition py_truediv (v : pyval) (k : positive) : result pyfloat :=
  match v with
  | PBool b => int_truediv (if b then 1 else 0)%Z k
  | PInt z => int_truediv z k
  | PFloat x => Ok (float_truediv x k)
  | _ => Raise (mk_exn TypeError
                       (py "unsupported operand type(s) for /: '"
                           ++ type_name v ++ py "' and 'int'"))
  end.

(* ================================================================== *)
(** * [json.loads] *)

(** The decoder of CPython's [json] module on a text: its scanner, its
    string, number, array and object readers.  Every failure is a
    [JSONDecodeError]; the text of the error, which the script never
    reads, is kept short.  What is left out: the interpreter's bound on
    nesting depth and on the length of an integer literal. *)
Definition json_error (msg : string) : exn := mk_exn JSONDecodeError (py msg).

Definition is_json_ws (c : N) : bool :=
  (c =? 32) || (c =? 9) || (c =? 10) || (c =? 13).

Fixpoint skip_ws (s : pystr) : pystr :=
  match s with
  | c :: r => if is_json_ws c then skip_ws r else s
  | [] => []
  end.

Definition is_digit (c : N) : bool := (48 <=? c) && (c <=? 57).

Definition hex_value (c : N) : option N :=
  if is_digit c then Some (c - 48)
  else if (97 <=? c) && (c <=? 102) then Some (c - 87)
  else if (65 <=? c) && (c <=? 70) then Some (c - 55)
  else None.

Definition hex4 (a b c d : N) : option N :=
  match hex_value a, hex_value b, hex_value c, hex_value d with
  | Some x, Some y, Some z, Some w => Some (((x * 16 + y) * 16 + z) * 16 + w)
  | _, _, _, _ => None
  end.

Definition simple_escape (c : N) : option N :=
  if (c =? 34) || (c =? 92) || (c =? 47) then Some c
  else if c =? 98 then Some 8
  else if c =? 102 then Some 12
  else if c =? 110 then Some 10
  else if c =? 114 then Some 13
  else if c =? 116 then Some 9
  else None.

Definition cons_char {A} (c : N) (r : result (pystr * A)) : result (pystr * A) :=
  match r with
  | Ok (s, x) => Ok (c :: s, x)
  | Raise e => Raise e
  end.

(** The text of a string literal from just after its opening quote, and
    what follows its closing quote.  A [\uXXXX] escape of a high surrogate
    directly followed by one of a low surrogate is one code point. *)
Fixpoint scan_string (s : pystr) : result (pystr * pystr) :=
  match s with
  | [] => Raise (json_error "Unterminated string")
  | c :: r =>
    if c =? 34 then Ok ([], r)
    else if c =? 92 then
      match r with
      | [] => Raise (json_error "Unterminated string")
      | e :: r1 =>
        if e =? 117 then
          match r1 with
          | h1 :: h2 :: h3 :: h4 :: r2 =>
            match hex4 h1 h2 h3 h4 with
            | None => Raise (json_error "Invalid \uXXXX escape")
            | Some u =>
              if (0xD800 <=? u) && (u <=? 0xDBFF) then
                match r2 with
                | b :: u' :: l1 :: l2 :: l3 :: l4 :: r3 =>
                  if (b =? 92) && (u' =? 117) then
                    match hex4 l1 l2 l3 l4 with
                    | None => Raise (json_error "Invalid \uXXXX escape")
                    | Some u2 =>
                      if (0xDC00 <=? u2) && (u2 <=? 0xDFFF)
                      then cons_char (0x10000 + (u - 0xD800) * 1024
                                      + (u2 - 0xDC00))
                                     (scan_string r3)
                      else cons_char u (scan_string r2)
                    end
                  else cons_char u (scan_string r2)
                | _ => cons_char u (scan_string r2)
                end
              else cons_char u (scan_string r2)
            end
          | _ => Raise (json_error "Invalid \uXXXX escape")
          end
        else
          match simple_escape e with
          | Some x => cons_char x (scan_string r1)
          | None => Raise (json_error "Invalid \escape")
          end
      end
    else if c <? 32 then Raise (json_error "Invalid control character")
    else cons_char c (scan_string r)
  end.

Fixpoint take_digits (s : pystr) : pystr * pystr :=
  match s with
  | c :: r =>
    if is_digit c
    then let '(ds, rest) := take_digits r in (c :: ds, rest)
    else ([], s)
  | [] => ([], [])
  end.

Definition digits_value (ds : pystr) : N :=
  fold_left (fun acc c => acc * 10 + (c - 48)) ds 0.

(** The integer part of a number: a lone [0], or a non-zero digit and the
    digits after it. *)
Definition scan_integer (s : pystr) : option (pystr * pystr) :=
  match s with
  | c :: r =>
    if (49 <=? c) && (c <=? 57)
    then let '(ds, rest) := take_digits r in Some (c :: ds, rest)
    else if c =? 48 then Some ([c], r)
    else None
  | [] => None
  end.

(** A fraction: a point followed by at least one digit. *)
Definition scan_fraction (s : pystr) : option (pystr * pystr) :=
  match s with
  | p :: d :: r =>
    if (p =? 46) && is_digit d
    then let '(ds, rest) := take_digits r in Some (d :: ds, rest)
    else None
  | _ => None
  end.

(** An exponent: [e] or [E], an optional sign, at least one digit. *)
Definition scan_exponent (s : pystr) : option (Z * pystr) :=
  match s with
  | e :: r =>
    if (e =? 101) || (e =? 69) then
      let '(neg, r1) := match r with
                        | sg :: r' =>
                          if sg =? 45 then (true, r')
                          else if sg =? 43 then (false, r')
                          else (false, r)
                        | [] => (false, r)
                        end in
      match take_digits r1 with
      | ([], _) => None
      | (ds, rest) =>
        let v := Z.of_N (digits_value ds) in
        Some (if neg then (- v)%Z else v, rest)
      end
    else None
  | [] => None
  end.

(** A number: an [int] when it has neither fraction nor exponent, a
    [float] otherwise. *)
Definition scan_number (s : pystr) : option (pyval * pystr) :=
  let '(neg, s1) := match s with
                    | c :: r => if c =? 45 then (true, r) else (false, s)
                    | [] => (false, s)
                    end in
  match scan_integer s1 with
  | None => None
  | Some (ip, r1) =>
    let '(fp, r2) := match scan_fraction r1 with
                     | Some (ds, r) => (Some ds, r)
                     | None => (None, r1)
                     end in
    let '(ex, r3) := match scan_exponent r2 with
                     | Some (x, r) => (Some x, r)
                     | None => (None, r2)
                     end in
    match fp, ex with
    | None, None =>
      let v := Z.of_N (digits_value ip) in
      Some (PInt (if neg then (- v)%Z else v), r3)
    | _, _ =>
      let fd := match fp with Some ds => ds | None => [] end in
      let x := match ex with Some x => x | None => 0%Z end in
      Some (PFloat (float_of_decimal neg (digits_value (ip ++ fd))
                                     (x - Z.of_nat (List.length fd))),
            r3)
    end
  end.

Definition out_of_fuel : exn := mk_exn OtherException (py "RecursionError").

(** One JSON value at the head of the text, and the text after it. *)
Fixpoint scan_once (fuel : nat) (s : pystr) {struct fuel}
  : result (pyval * pystr) :=
  match fuel with
  | O => Raise out_of_fuel
  | S f =>
    match s with
    | [] => Raise (json_error "Expecting value")
    | c :: r =>
      if c =? 34 then
        match scan_string r with
        | Ok (t, rest) => Ok (PStr t, rest)
        | Raise e => Raise e
        end
      else if c =? 123 then
        match skip_ws r with
        | c' :: r' =>
          if c' =? 125 then Ok (PDict [], r') else scan_members f (c' :: r') []
        | [] => scan_members f [] []
        end
      else if c =? 91 then
        match skip_ws r with
        | c' :: r' =>
          if c' =? 93 then Ok (PList [], r') else scan_elements f (c' :: r') []
        | [] => scan_elements f [] []
        end
      else if starts_with (py "null") s then Ok (PNone, skipn 4 s)
      else if starts_with (py "true") s then Ok (PBool true, skipn 4 s)
      else if starts_with (py "false") s then Ok (PBool false, skipn 5 s)
      else if starts_with (py "NaN") s then Ok (PFloat S754_nan, skipn 3 s)
      else if starts_with (py "Infinity") s
      then Ok (PFloat (S754_infinity false), skipn 8 s)
      else if starts_with (py "-Infinity") s
      then Ok (PFloat (S754_infinity true), skipn 9 s)
      else
        match scan_number s with
        | Some vr => Ok vr
        | None => Raise (json_error "Expecting value")
        end
    end
  end

with scan_elements (fuel : nat) (s : pystr) (acc : list pyval) {struct fuel}
  : result (pyval * pystr) :=
  match fuel with
  | O => Raise out_of_fuel
  | S f =>
    match scan_once f s with
    | Raise e => Raise e
    | Ok (v, r) =>
      match skip_ws r with
      | c :: r' =>
        if c =? 93 then Ok (PList (rev (v :: acc)), r')
        else if c =? 44 then scan_elements f (skip_ws r') (v :: acc)
        else Raise (json_error "Expecting ',' delimiter")
      | [] => Raise (json_error "Expecting ',' delimiter")
      end
    end
  end

with scan_members (fuel : nat) (s : pystr) (acc : list (pystr * pyval))
       {struct fuel} : result (pyval * pystr) :=
  match fuel with
  | O => Raise out_of_fuel
  | S f =>
    match s with
    | q :: r =>
      if q =? 34 then
        match scan_string r with
        | Raise e => Raise e
        | Ok (k, r1) =>
          match skip_ws r1 with
          | c :: r2 =>
            if c =? 58 then
              match scan_once f (skip_ws r2) with
              | Raise e => Raise e
              | Ok (v, r3) =>
                match skip_ws r3 with
                | c' :: r4 =>
                  if c' =? 125 then Ok (PDict (dict_set k v acc), r4)
                  else if c' =? 44
                  then scan_members f (skip_ws r4) (dict_set k v acc)
                  else Raise (json_error "Expecting ',' delimiter")
                | [] => Raise (json_error "Expecting ',' delimiter")
                end
              end
            else Raise (json_error "Expecting ':' delimiter")
          | [] => Raise (json_error "Expecting ':' delimiter")
          end
        end
      else Raise (json_error "Expecting property name enclosed in double quotes")
    | [] =>
      Raise (json_error "Expecting property name enclosed in double quotes")
    end
  end.

(** [json.loads(s)]: one value, blanks allowed around it, nothing else. *)
Definition json_loads (s : pystr) : result pyval :=
  if starts_with [0xFEFF] s then Raise (json_error "Unexpected UTF-8 BOM")
  else
    match scan_once (2 * List.length s + 2) (skip_ws s) with
    | Raise e => Raise e
    | Ok (v, r) =>
      match skip_ws r with
      | [] => Ok v
      | _ :: _ => Raise (json_error "Extra data")
      end
    end.

(* ================================================================== *)
(** * [base64.b64decode] *)

Definition b64_index (c : N) : option N :=
  if (65 <=? c) && (c <=? 90) then Some (c - 65)
  else if (97 <=? c) && (c <=? 122) then Some (c - 71)
  else if is_digit c then Some (c + 4)
  else if c =? 43 then Some 62
  else if c =? 47 then Some 63
  else None.

Definition cons_byte (b : N) (r : result pybytes) : result pybytes :=
  match r with
  | Ok bs => Ok (b :: bs)
  | Raise e => Raise e
  end.

(** [binascii.a2b_base64] in its lenient mode: characters outside the
    alphabet are skipped; [quad_pos] counts the characters of the current
    group of four, [leftchar] holds the bits not yet written, [pads] the
    padding characters seen since the last data character.  Padding that
    completes a group ends the input; a group left incomplete at the end
    is an error. *)
Fixpoint a2b_base64 (s : pystr) (quad_pos leftchar pads : N)
  : result pybytes :=
  match s with
  | [] =>
    if quad_pos =? 0 then Ok []
    else if quad_pos =? 1
    then Raise (mk_exn BinasciiError (py "Invalid base64-encoded string"))
    else Raise (mk_exn BinasciiError (py "Incorrect padding"))
  | c :: r =>
    if c =? 61 then
      if (2 <=? quad_pos) && (4 <=? quad_pos + (pads + 1)) then Ok []
      else a2b_base64 r quad_pos leftchar
                      (if 2 <=? quad_pos then pads + 1 else pads)
    else
      match b64_index c with
      | None => a2b_base64 r quad_pos leftchar pads
      | Some v =>
        if quad_pos =? 0 then a2b_base64 r 1 v 0
        else if quad_pos =? 1
        then cons_byte (leftchar * 4 + v / 16) (a2b_base64 r 2 (v mod 16) 0)
        else if quad_pos =? 2
        then cons_byte (leftchar * 16 + v / 4) (a2b_base64 r 3 (v mod 4) 0)
        else cons_byte (leftchar * 64 + v) (a2b_base64 r 0 0 0)
      end
  end.

(** [base64.b64decode(s)] on a text: the text must be ASCII. *)
Definition b64decode (s : pystr) : result pybytes :=
  if forallb (fun c => c <? 128) s then a2b_base64 s 0 0 0
  else Raise (mk_exn ValueError
                     (py "string argument should contain only ASCII characters")).

(* ================================================================== *)
(** * [re.search] *)

(** Code points of category Nd (Unicode 14): the class [\d]. *)
Definition decimal_ranges : list (N * N) :=
  [(48, 57); (1632, 1641); (1776, 1785); (1984, 1993); (2406, 2415);
   (2534, 2543); (2662, 2671); (2790, 2799); (2918, 2927); (3046, 3055);
   (3174, 3183); (3302, 3311); (3430, 3439); (3558, 3567); (3664, 3673);
   (3792, 3801); (3872, 3881); (4160, 4169); (4240, 4249); (6112, 6121);
   (6160, 6169); (6470, 6479); (6608, 6617); (6784, 6793); (6800, 6809);
   (6992, 7001); (7088, 7097); (7232, 7241); (7248, 7257); (42528, 42537);
   (43216, 43225); (43264, 43273); (43472, 43481); (43504, 43513);
   (43600, 43609); (44016, 44025); (65296, 65305); (66720, 66729);
   (68912, 68921); (69734, 69743); (69872, 69881); (69942, 69951);
   (70096, 70105); (70384, 70393); (70736, 70745); (70864, 70873);
   (71248, 71257); (71360, 71369); (71472, 71481); (71904, 71913);
   (72016, 72025); (72784, 72793); (73040, 73049); (73120, 73129);
   (92768, 92777); (92864, 92873); (93008, 93017); (120782, 120831);
   (123200, 123209); (123632, 123641); (125264, 125273); (130032, 130041)].

(** The class [\d]. *)
Definition is_decimal (c : N) : bool := in_ranges decimal_ranges c.

Definition ascii_lower (c : N) : N :=
  if (65 <=? c) && (c <=? 90) then c + 32 else c.

(** Whether the text character [x] matches the ASCII literal [c] under
    [re.IGNORECASE]: the two letters of either case, and the few other
    letters that Unicode folds onto [i], [s] and [k]. *)
Definition matches_ignore_case (c x : N) : bool :=
  let l := ascii_lower c in
  (ascii_lower x =? l)
  || ((l =? 105) && ((x =? 0x130) || (x =? 0x131)))
  || ((l =? 115) && (x =? 0x17F))
  || ((l =? 107) && (x =? 0x212A)).

(** The pieces the script's patterns are made of. *)
Inductive regex_item :=
| RLit (c : N)
| RSet (f : N -> bool)
| RPlus (f : N -> bool).

(** After one character of the class: as many more as possible, giving
    them back one at a time while what follows fails. *)
Fixpoint plus_more {A} (f : N -> bool) (s : pystr)
         (k : pystr -> option A) : option A :=
  match s with
  | x :: r =>
    if f x
    then match plus_more f r k with
         | Some a => Some a
         | None => k s
         end
    else k s
  | [] => k s
  end.

(** The items matched at the head of [s], then [k] on what is left. *)
Fixpoint match_items {A} (items : list regex_item) (s : pystr)
         (k : pystr -> option A) : option A :=
  match items with
  | [] => k s
  | RLit c :: rest =>
    match s with
    | x :: r => if matches_ignore_case c x then match_items rest r k else None
    | [] => None
    end
  | RSet f :: rest =>
    match s with
    | x :: r => if f x then match_items rest r k else None
    | [] => None
    end
  | RPlus f :: rest =>
    match s with
    | x :: r =>
      if f x then plus_more f r (fun s' => match_items rest s' k) else None
    | [] => None
    end
  end.

(** A pattern with one group at its end: [prefix(group)]. *)
Record pattern := mk_pattern {
  pat_prefix : list regex_item;
  pat_group : list regex_item
}.

(** A match starting at the head of [s]: the text of group 1. *)
Definition match_at (p : pattern) (s : pystr) : option pystr :=
  match_items (pat_prefix p) s
    (fun s1 =>
       match_items (pat_group p) s1
         (fun s2 => Some (firstn (List.length s1 - List.length s2) s1))).

(** [re.search(p, s, re.IGNORECASE)]: the leftmost match; [m.group(1)]. *)
Fixpoint re_search (p : pattern) (s : pystr) : option pystr :=
  match match_at p s with
  | Some g => Some g
  | None =>
    match s with
    | _ :: r => re_search p r
    | [] => None
    end
  end.

Definition literal (s : string) : list regex_item := map RLit (py s).

Definition dash_or_underscore (c : N) : bool := (c =? 95) || (c =? 45).
Definition colon_or_space (c : N) : bool := (c =? 58) || is_space c.

(* ================================================================== *)
(** * The script: [NewAPICheckin._extract_user_id_from_session] *)

(** [linuxdo[_-](\d+)], ["id"[:\s]+(\d+)], [user[_-](\d+)],
    [userid[:\s]+(\d+)] *)
Definition patterns : list pattern :=
  [ mk_pattern (literal "linuxdo" ++ [RSet dash_or_underscore])
               [RPlus is_decimal];
    mk_pattern ([RLit dquote] ++ literal "id" ++ [RLit dquote]
                  ++ [RPlus colon_or_space])
               [RPlus is_decimal];
    mk_pattern (literal "user" ++ [RSet dash_or_underscore])
               [RPlus is_decimal];
    mk_pattern (literal "userid" ++ [RPlus colon_or_space])
               [RPlus is_decimal] ].

(** The loop over the patterns: the group of the first pattern that is
    found anywhere in the text. *)
Fixpoint first_match (ps : list pattern) (text : pystr) : option pystr :=
  match ps with
  | [] => None
  | p :: rest =>
    match re_search p text with
    | Some g => Some g
    | None => first_match rest text
    end
  end.

(** [session_cookie + '=='] *)
Definition add_padding (session_cookie : pyval) : result pystr :=
  match session_cookie with
  | PStr s => Ok (s ++ py "==")
  | _ => Raise (mk_exn TypeError
                       (py "unsupported operand type(s) for +: '"
                           ++ type_name session_cookie ++ py "' and 'str'"))
  end.

(** The body of the [try] block. *)
Definition extract_user_id_body (session_cookie : pyval)
  : result (option pystr) :=
  bind (add_padding session_cookie) (fun padded =>
  bind (b64decode padded) (fun decoded =>
  let decoded_str := utf8_decode_ignore decoded in
  Ok (first_match patterns decoded_str))).

(** [try: ... except Exception: pass] and the final [return None]. *)
Definition _extract_user_id_from_session (session_cookie : pyval)
  : result (option pystr) :=
  try_except (extract_user_id_body session_cookie) (fun _ => Ok None).

(* ================================================================== *)
(** * The network *)

Inductive http_method := GET | POST.

(** What the script sends: the fixed browser-like headers are left out,
    the [new-api-user] header is [req_user]. *)
Record request := mk_request {
  req_method : http_method;
  req_url : pystr;
  req_params : list (pystr * pystr);
  req_cookies : list (pystr * pyval);
  req_user : option pystr;
  req_json : option pyval
}.

(** What a call of [requests] comes back with: a response, of which the
    script reads [status_code], [text] and [json()] (the decoding of
    [text]), or an exception. *)
Inductive http_outcome :=
| Response (status_code : Z) (text : pystr)
| Failure (e : exn).

(** The outside world: how the network answers a request given the
    requests made so far, what month the clock shows, and the requests
    made so far. *)
Record world := mk_world {
  respond : list request -> request -> http_outcome;
  month_now : list request -> pystr;
  trace : list request
}.

(** Computations that talk to the world and may raise. *)
Definition io (A : Type) := world -> result A * world.

Definition io_ret {A} (a : A) : io A := fun w => (Ok a, w).

Definition io_raise {A} (e : exn) : io A := fun w => (Raise e, w).

Definition io_lift {A} (r : result A) : io A := fun w => (r, w).

Definition io_bind {A B} (c : io A) (k : A -> io B) : io B :=
  fun w =>
    match c w with
    | (Ok a, w') => k a w'
    | (Raise e, w') => (Raise e, w')
    end.

Declare Scope io_scope.
Delimit Scope io_scope with io.
Notation "x <- c ;; k" := (io_bind c (fun x => k))
  (at level 61, c at next level, right associativity) : io_scope.
Notation "c ;; k" := (io_bind c (fun _ => k))
  (at level 61, right associativity) : io_scope.

(** The world once [rq] has been sent. *)
Definition sent (w : world) (rq : request) : world :=
  mk_world (respond w) (month_now w) (trace w ++ [rq]).

(** One call of [requests]: the world answers and remembers. *)
Definition http (rq : request) : io http_outcome :=
  fun w => (Ok (respond w (trace w) rq), sent w rq).

(** [datetime.now().strftime('%Y-%m')] *)
Definition current_month : io pystr :=
  fun w => (Ok (month_now w (trace w)), w).

(** [resp.json()] *)
Definition response_json (text : pystr) : result pyval := json_loads text.

(* ================================================================== *)
(** * The script: notification *)

(** The inline block that scales a quota for display:
    [if q >= 1000000: f"{q / 1000000:.2f}M" elif q >= 1000:
    f"{q / 1000:.2f}K" else: str(q)]. *)
Definition format_quota (quota : pyval) : result pystr :=
  bind (py_ge_int quota 1000000) (fun millions =>
  if millions
  then bind (py_truediv quota 1000000) (fun x => Ok (format_2f x ++ py "M"))
  else
    bind (py_ge_int quota 1000) (fun thousands =>
    if thousands
    then bind (py_truediv quota 1000) (fun x => Ok (format_2f x ++ py "K"))
    else Ok (py_str quota))).

(** The characters MarkdownV2 reserves. *)
Definition escape_chars : pystr := py "_*[]()~`>#+-=|{}.!".

Definition escape_markdown (message : pystr) : pystr :=
  flat_map (fun c => if has_char c escape_chars then [92; c] else [c]) message.

Definition telegram_request (bot_token chat_id message : pystr) : request :=
  mk_request POST
    (py "https://api.telegram.org/bot" ++ bot_token ++ py "/sendMessage")
    [] [] None
    (Some (PDict [ (py "chat_id", PStr chat_id);
                   (py "text", PStr (escape_markdown message));
                   (py "parse_mode", PStr (py "MarkdownV2"));
                   (py "disable_web_page_preview", PBool true) ])).

(** [send_telegram_notification]: every exception is caught. *)
Definition send_telegram_notification (bot_token chat_id message : pystr)
  : io bool :=
  match bot_token, chat_id with
  | [], _ | _, [] => io_ret false
  | _, _ =>
    (o <- http (telegram_request bot_token chat_id message) ;;
     io_ret
       match o with
       | Failure _ => false
       | Response _ text =>
         match bind (response_json text)
                    (fun answer => py_get answer (py "ok") PNone) with
         | Ok ok => truthy ok
         | Raise _ => false
         end
       end)%io
  end.

(** The message of a failed account: [msg[:47] + "..."] when it is
    longer than 50. *)
Definition shorten_message (msg : pyval) : result pyval :=
  bind (py_len msg) (fun n =>
  if Nat.ltb 50 n then
    match msg with
    | PStr s => Ok (PStr (slice_to 47 s ++ py "..."))
    | PList _ =>
      Raise (mk_exn TypeError
                    (py "can only concatenate list (not 'str') to list"))
    | _ => Raise (mk_exn TypeError (py "unhashable type: 'slice'"))
    end
  else Ok msg).

(** The line of one account, [i] its position counted from 1. *)
Definition account_line (i : nat) (entry : pyval) : result pystr :=
  bind (py_get entry (py "name")
               (PStr (py "账号" ++ N_to_pystr (N.of_nat i)))) (fun name =>
  bind (py_get entry (py "success") (PBool false)) (fun success =>
  if truthy success then
    bind (py_get entry (py "message") (PStr (py "签到成功"))) (fun msg =>
    bind (py_get entry (py "quota_awarded") PNone) (fun quota =>
    let line := py "✅ *" ++ py_str name ++ py "*: " ++ py_str msg in
    bind (if truthy quota
          then bind (format_quota quota) (fun quota_str =>
               Ok (line ++ py " \(+" ++ quota_str ++ py "\)"))
          else Ok line) (fun line =>
    bind (py_get entry (py "checkin_count") PNone) (fun checkin_count =>
    match checkin_count with
    | PNone => Ok line
    | _ => Ok (line ++ py " 本月已签" ++ py_str checkin_count ++ py "天")
    end))))
  else
    bind (py_get entry (py "message") (PStr (py "签到失败"))) (fun msg =>
    bind (shorten_message msg) (fun msg =>
    Ok (py "❌ *" ++ py_str name ++ py "*: `" ++ py_str msg ++ py "`"))))).

Fixpoint account_lines (i : nat) (results : list pyval)
  : result (list pystr) :=
  match results with
  | [] => Ok []
  | r :: rest =>
    bind (account_line i r) (fun line =>
    bind (account_lines (S i) rest) (fun lines => Ok (line :: lines)))
  end.

(** [sum(1 for r in results if r.get('success'))] *)
Fixpoint count_success (results : list pyval) : result nat :=
  match results with
  | [] => Ok O
  | r :: rest =>
    bind (py_get r (py "success") PNone) (fun s =>
    bind (count_success rest) (fun n =>
    Ok (if truthy s then S n else n)))
  end.

(** [s.replace(' ', '_')] *)
Definition replace_space (s : pystr) : pystr :=
  map (fun c => if c =? 32 then 95 else c) s.

(** [format_telegram_message] *)
Definition format_telegram_message (results : list pyval)
           (execution_time : pystr) (total_accounts : nat) : result pystr :=
  bind (count_success results) (fun success_count =>
  let fail_count := (List.length results - success_count)%nat in
  let '(status_emoji, status_text) :=
      if Nat.eqb fail_count 0 then (py "✅", py "全部成功")
      else if Nat.eqb success_count 0 then (py "❌", py "全部失败")
      else (py "⚠️", py "部分成功") in
  let head :=
      [ status_emoji ++ py " *NewAPI 签到报告*";
        [];
        py "⏰ 执行时间: `" ++ execution_time ++ py "`";
        py "📊 总计: " ++ N_to_pystr (N.of_nat total_accounts)
           ++ py " 个账号 | 成功 " ++ N_to_pystr (N.of_nat success_count)
           ++ py " | 失败 " ++ N_to_pystr (N.of_nat fail_count);
        [] ] in
  bind (account_lines 1 results) (fun lines =>
  Ok (join [10] (head ++ lines ++ [[]; py "#" ++ replace_space status_text])))).

(* ================================================================== *)
(** * The script: [NewAPICheckin] *)

(** The fields of an instance that the methods read: the base address,
    the cookies of its session, the resolved user id and the
    [new-api-user] header that goes with it. *)
Record client := mk_client {
  base_url : pystr;
  cookies : list (pystr * pyval);
  user_id : pyval;
  user_header : option pystr
}.

(** [cookies.set(name, value)]: setting [None] sets nothing. *)
Definition cookie (name : pystr) (value : pyval) : list (pystr * pyval) :=
  match value with
  | PNone => []
  | _ => [(name, value)]
  end.

(** [__init__]: [base_url.rstrip('/')] needs a text; the user id is the
    one supplied when it is truthy, else the one derived from the session
    cookie when there is one. *)
Definition new_client (url session_cookie uid cf_clearance : pyval)
  : result client :=
  match url with
  | PStr u =>
    let jar := cookie (py "session") session_cookie
               ++ (if truthy cf_clearance
                   then cookie (py "cf_clearance") cf_clearance else []) in
    if truthy uid
    then Ok (mk_client (rstrip_char 47 u) jar uid (Some (py_str uid)))
    else
      bind (_extract_user_id_from_session session_cookie) (fun derived =>
      match derived with
      | Some d =>
        if truthy (PStr d)
        then Ok (mk_client (rstrip_char 47 u) jar (PStr d) (Some d))
        else Ok (mk_client (rstrip_char 47 u) jar (PStr d) None)
      | None => Ok (mk_client (rstrip_char 47 u) jar PNone None)
      end)
  | _ => Raise (no_attribute url (py "rstrip"))
  end.

Definition api_request (c : client) (m : http_method) (path : string)
           (params : list (pystr * pystr)) : request :=
  mk_request m (base_url c ++ py path) params (cookies c) (user_header c) None.

(** ** [get_user_info] *)

(** What the method does with the answer, inside its [try]: the value it
    returns and, when the profile carries an [id], the user id to adopt. *)
Definition profile_answer (o : http_outcome)
  : result (pyval * option pyval) :=
  match o with
  | Failure e => Raise e
  | Response status text =>
    if (status =? 401)%Z then Ok (PNone, None)
    else
      match response_json text with
      | Raise e => if is_json_decode_error e then Ok (PNone, None) else Raise e
      | Ok data =>
        if (status =? 200)%Z then
          bind (py_get data (py "success") PNone) (fun ok =>
          if truthy ok then
            bind (py_get data (py "data") PNone) (fun user_data =>
            bind (if truthy user_data then py_in (py "id") user_data
                  else Ok false) (fun has_id =>
            if has_id then
              bind (py_item user_data (py "id")) (fun uid =>
              Ok (user_data, Some uid))
            else Ok (user_data, None)))
          else Ok (PNone, None))
        else
          bind (py_get data (py "message") (PStr (py "未知错误"))) (fun _ =>
          Ok (PNone, None))
      end
  end.

(** [self.user_id = ...] and the header that follows it. *)
Definition adopt (c : client) (uid : option pyval) : client :=
  match uid with
  | Some u => mk_client (base_url c) (cookies c) u (Some (py_str u))
  | None => c
  end.

(** [get_user_info()]: whatever is raised, [None] comes back and the
    instance is as it was. *)
Definition get_user_info (c : client) : io (pyval * client) :=
  (o <- http (api_request c GET "/api/user/self" []) ;;
   io_ret match profile_answer o with
          | Ok (v, uid) => (v, adopt c uid)
          | Raise _ => (PNone, c)
          end)%io.

(** ** [checkin] *)

(** The dictionary [checkin] returns: always these four keys. *)
Record checkin_result := mk_result {
  success : bool;
  message : pyval;
  checkin_date : pyval;
  quota_awarded : pyval
}.

Definition set_success (b : bool) (r : checkin_result) : checkin_result :=
  mk_result b (message r) (checkin_date r) (quota_awarded r).
Definition set_message (m : pyval) (r : checkin_result) : checkin_result :=
  mk_result (success r) m (checkin_date r) (quota_awarded r).
Definition set_checkin_date (d : pyval) (r : checkin_result) : checkin_result :=
  mk_result (success r) (message r) d (quota_awarded r).
Definition set_quota_awarded (q : pyval) (r : checkin_result) : checkin_result :=
  mk_result (success r) (message r) (checkin_date r) q.

(** Statements that update [result] in place and may raise: the
    dictionary as it stands comes out either way. *)
Definition upd (A : Type) := checkin_result -> result A * checkin_result.

Definition upd_bind {A B} (c : upd A) (k : A -> upd B) : upd B :=
  fun r =>
    match c r with
    | (Ok a, r') => k a r'
    | (Raise e, r') => (Raise e, r')
    end.

Definition upd_eval {A} (x : result A) : upd A := fun r => (x, r).

Definition upd_set (f : checkin_result -> checkin_result) : upd unit :=
  fun r => (Ok tt, f r).

Declare Scope upd_scope.
Delimit Scope upd_scope with upd.
Notation "x <- c ;; k" := (upd_bind c (fun x => k))
  (at level 61, c at next level, right associativity) : upd_scope.
Notation "c ;; k" := (upd_bind c (fun _ => k))
  (at level 61, right associativity) : upd_scope.

(** The body of the [try] block once the response is there. *)
Definition checkin_on_response (status : Z) (text : pystr) : upd unit :=
  if (status =? 401)%Z
  then upd_set (set_message
                  (PStr (py "认证失败: Session 可能已过期，请重新获取")))
  else
    fun r =>
      match response_json text with
      | Raise e =>
        if is_json_decode_error e then
          let content_preview :=
              if truthy (PStr text) then slice_to 200 text
              else py "(空响应)" in
          upd_set (set_message
                     (PStr (py "响应格式错误 (HTTP " ++ Z_to_pystr status
                               ++ py "): " ++ content_preview))) r
        else (Raise e, r)
      | Ok data =>
        (if (status =? 200)%Z then
           (ok <- upd_eval (py_get data (py "success") PNone) ;;
            if truthy ok then
              (upd_set (set_success true) ;;
               m <- upd_eval (py_get data (py "message")
                                     (PStr (py "签到成功"))) ;;
               upd_set (set_message m) ;;
               checkin_data <- upd_eval (py_get data (py "data") (PDict [])) ;;
               d <- upd_eval (py_get checkin_data (py "checkin_date") PNone) ;;
               upd_set (set_checkin_date d) ;;
               q <- upd_eval (py_get checkin_data (py "quota_awarded") PNone) ;;
               upd_set (set_quota_awarded q))
            else
              (m <- upd_eval (py_get data (py "message")
                                     (PStr (py "签到失败"))) ;;
               upd_set (set_message m)))
         else
           (m <- upd_eval (py_get data (py "message")
                                  (PStr (py "未知错误"))) ;;
            upd_set (set_message
                       (PStr (py "HTTP " ++ Z_to_pystr status ++ py ": "
                                 ++ py_str m)))))%upd r
      end.

(** The three [except] clauses, in their order. *)
Definition checkin_handler (e : exn) : checkin_result -> checkin_result :=
  if is_timeout e then set_message (PStr (py "请求超时"))
  else if is_request_exception e
  then set_message (PStr (py "网络请求失败: " ++ exn_text e))
  else set_message (PStr (py "未知错误: " ++ exn_text e)).

(** [checkin] from the answer of the network on. *)
Definition checkin_result_of (o : http_outcome) : checkin_result :=
  let result0 := mk_result false (PStr []) PNone PNone in
  match o with
  | Failure e => checkin_handler e result0
  | Response status text =>
    match checkin_on_response status text result0 with
    | (Ok _, r) => r
    | (Raise e, r) => checkin_handler e r
    end
  end.

Definition checkin_request (c : client) : request :=
  api_request c POST "/api/user/checkin" [].

(** [checkin()] *)
Definition checkin (c : client) : io checkin_result :=
  (o <- http (checkin_request c) ;; io_ret (checkin_result_of o))%io.

(** ** [get_checkin_history] *)

Definition history_of (o : http_outcome) : result pyval :=
  match o with
  | Failure e => Raise e
  | Response status text =>
    if (status =? 200)%Z then
      bind (response_json text) (fun data =>
      bind (py_get data (py "success") PNone) (fun ok =>
      if truthy ok then py_get data (py "data") PNone else Ok PNone))
    else Ok PNone
  end.

(** [get_checkin_history()] for the current month: any exception gives
    [None]. *)
Definition get_checkin_history (c : client) : io pyval :=
  (month <- current_month ;;
   o <- http (api_request c GET "/api/user/checkin" [(py "month", month)]) ;;
   io_ret match history_of o with
          | Ok v => v
          | Raise _ => PNone
          end)%io.

(* ================================================================== *)
(** * The script: [parse_accounts] *)

(** An account is a dictionary with the keys [url], [session], [name]
    and, in the structured form only, [user_id] and [cf_clearance]. *)
Definition account := list (pystr * pyval).

Definition optional_key (k : pystr) (d : list (pystr * pyval)) : account :=
  match lookup k d with
  | Some v => [(k, v)]
  | None => []
  end.

(** One element of the JSON list: kept when it is a dictionary with
    [url] and [session]. *)
Definition structured_account (item : pyval) : option account :=
  match item with
  | PDict d =>
    match lookup (py "url") d, lookup (py "session") d with
    | Some u, Some s =>
      Some ([ (py "url", u);
              (py "session", s);
              (py "name", match lookup (py "name") d with
                          | Some n => n
                          | None => PStr []
                          end) ]
              ++ optional_key (py "user_id") d
              ++ optional_key (py "cf_clearance") d)
    | _, _ => None
    end
  | _ => None
  end.

(** One comma-separated part: kept when it holds a [#], cut at the
    first one. *)
Definition delimited_account (part : pystr) : option account :=
  let part := strip part in
  if has_char 35 part then
    match split_first 35 part with
    | Some (url, session) =>
      Some [ (py "url", PStr (strip url));
             (py "session", PStr (strip session));
             (py "name", PStr []) ]
    | None => None
    end
  else None.

Fixpoint keep {A B} (f : A -> option B) (l : list A) : list B :=
  match l with
  | [] => []
  | x :: r =>
    match f x with
    | Some y => y :: keep f r
    | None => keep f r
    end
  end.

Definition structured_accounts (items : list pyval) : list account :=
  keep structured_account items.

Definition delimited_accounts (accounts_str : pystr) : list account :=
  keep delimited_account (split_on 44 accounts_str).

(** [parse_accounts]: nothing for the empty text; the JSON list when the
    text decodes to a list; the delimited form when it does not decode or
    decodes to something else. *)
Definition parse_accounts (accounts_str : pystr) : result (list account) :=
  if negb (truthy (PStr accounts_str)) then Ok []
  else
    match json_loads accounts_str with
    | Ok (PList items) => Ok (structured_accounts items)
    | Ok _ => Ok (delimited_accounts accounts_str)
    | Raise e =>
      if is_json_decode_error e then Ok (delimited_accounts accounts_str)
      else Raise e
    end.

(* ================================================================== *)
(** * The script: [main] *)

(** What [main] reads besides the network: the environment variables,
    the start time as the report shows it, and the DingTalk notifier,
    which is there when its module could be imported. *)
Record environ := mk_environ {
  NEWAPI_ACCOUNTS : option pystr;
  TELEGRAM_BOT_TOKEN : option pystr;
  TELEGRAM_CHAT_ID : option pystr;
  execution_time : pystr;
  send_dingtalk_notification : option (list pyval -> pystr -> io unit)
}.

(** The counters and the list the loop builds. *)
Record run_state := mk_state {
  success_count : nat;
  fail_count : nat;
  checkin_results : list pyval
}.

(** [account_result] as the loop appends it. *)
Definition account_result (name : pyval) (ok : bool) (msg quota count : pyval)
  : pyval :=
  PDict [ (py "name", name);
          (py "success", PBool ok);
          (py "message", msg);
          (py "quota_awarded", quota);
          (py "checkin_count", count) ].

(** [username[:3] + '***' if len(username) > 3 else '***'] for the user
    name of the profile, which is printed. *)
Definition masked_username (user_info : pyval) : result pystr :=
  bind (py_get user_info (py "username") (PStr (py "未知"))) (fun username =>
  bind (py_len username) (fun n =>
  if Nat.ltb 3 n then
    match username with
    | PStr s => Ok (slice_to 3 s ++ py "***")
    | PList _ =>
      Raise (mk_exn TypeError
                    (py "can only concatenate list (not 'str') to list"))
    | _ => Raise (mk_exn TypeError (py "unhashable type: 'slice'"))
    end
  else Ok (py "***"))).

(** The monthly statistics of a successful account: the check-in count
    that goes into the report; the running total is scaled for display. *)
Definition monthly_count (history : pyval) : result pyval :=
  bind (if truthy history then py_get history (py "stats") PNone
        else Ok PNone) (fun stats =>
  if truthy history && truthy stats then
    bind (py_get stats (py "checkin_count") (PInt 0)) (fun checkin_count =>
    bind (py_get stats (py "total_quota") (PInt 0)) (fun total_quota =>
    bind (format_quota total_quota) (fun _ =>
    Ok checkin_count)))
  else Ok (PInt 0)).

(** The body of the loop for the [i]-th account. *)
Definition process_account (i : nat) (acc : account) (st : run_state)
  : io run_state :=
  (url <- io_lift (py_item (PDict acc) (py "url")) ;;
   session_cookie <- io_lift (py_item (PDict acc) (py "session")) ;;
   uid <- io_lift (py_get (PDict acc) (py "user_id") PNone) ;;
   cf_clearance <- io_lift (py_get (PDict acc) (py "cf_clearance") PNone) ;;
   given_name <- io_lift (py_get (PDict acc) (py "name") PNone) ;;
   let name := if truthy given_name then given_name
               else PStr (py "账号" ++ N_to_pystr (N.of_nat i)) in
   c <- io_lift (new_client url session_cookie uid cf_clearance) ;;
   uc <- get_user_info c ;;
   let '(user_info, c) := uc in
   io_lift (if truthy user_info then masked_username user_info
            else Ok []) ;;
   result <- checkin c ;;
   if success result then
     (io_lift (if truthy (quota_awarded result)
               then format_quota (quota_awarded result) else Ok []) ;;
      history <- get_checkin_history c ;;
      checkin_count <- io_lift (monthly_count history) ;;
      io_ret (mk_state (S (success_count st)) (fail_count st)
                       (checkin_results st
                          ++ [account_result name true (message result)
                                             (quota_awarded result)
                                             checkin_count])))
   else
     io_ret (mk_state (success_count st) (S (fail_count st))
                      (checkin_results st
                         ++ [account_result name false (message result)
                                            PNone PNone])))%io.

(** [for i, account in enumerate(accounts, 1)] *)
Fixpoint run_accounts (i : nat) (accounts : list account) (st : run_state)
  : io run_state :=
  match accounts with
  | [] => io_ret st
  | acc :: rest =>
    (st' <- process_account i acc st ;; run_accounts (S i) rest st')%io
  end.

Definition env_text (v : option pystr) : pystr :=
  match v with
  | Some s => s
  | None => []
  end.

(** The notifications after the loop. *)
Definition notify (env : environ) (accounts : list account) (st : run_state)
  : io unit :=
  ((if truthy (PStr (env_text (TELEGRAM_BOT_TOKEN env)))
       && truthy (PStr (env_text (TELEGRAM_CHAT_ID env)))
    then
      (tg_message <- io_lift (format_telegram_message
                                (checkin_results st) (execution_time env)
                                (List.length accounts)) ;;
       send_telegram_notification (env_text (TELEGRAM_BOT_TOKEN env))
                                  (env_text (TELEGRAM_CHAT_ID env))
                                  tg_message ;;
       io_ret tt)
    else io_ret tt) ;;
   match send_dingtalk_notification env with
   | Some send => send (checkin_results st) (execution_time env)
   | None => io_ret tt
   end)%io.

(** [main] up to the end of the process: the status passed to
    [sys.exit], or 0 when [main] returns. *)
Definition main_body (env : environ) : io Z :=
  let accounts_str := env_text (NEWAPI_ACCOUNTS env) in
  if negb (truthy (PStr accounts_str)) then io_ret 1%Z
  else
    (accounts <- io_lift (parse_accounts accounts_str) ;;
     match accounts with
     | [] => io_ret 1%Z
     | _ :: _ =>
       st <- run_accounts 1 accounts (mk_state 0 0 []) ;;
       notify env accounts st ;;
       if Nat.eqb (fail_count st) (List.length accounts)
       then io_ret 1%Z else io_ret 0%Z
     end)%io.

(** How the process ends: by [sys.exit] or the end of [main], or by an
    exception nothing caught. *)
Inductive termination :=
| Exited (code : Z)
| Crashed (e : exn).

Definition main (env : environ) (w : world) : termination * world :=
  match main_body env w with
  | (Ok code, w') => (Exited code, w')
  | (Raise e, w') => (Crashed e, w')
  end.

(** The exit status the shell sees: an uncaught exception gives 1. *)
Definition exit_status (t : termination) : Z :=
  match t with
  | Exited code => code
  | Crashed _ => 1%Z
  end.

(* ================================================================== *)
(** * Vocabulary of the statements *)

(** The exception is a [JSONDecodeError]. *)
Definition decode_error (e : exn) : Prop := is_json_decode_error e = true.

(** [part] occurs in [whole]. *)
Definition includes (part whole : pystr) : Prop :=
  exists pre post, whole = pre ++ part ++ post.

(** A text written with single quotes standing for double quotes, for
    JSON examples. *)
Definition quoted (s : string) : pystr :=
  map (fun c => if c =? 39 then dquote else c) (py s).
Arguments quoted s%_string.

(** [int], [float] and [bool], the types Python counts as numbers. *)
Definition is_number (v : pyval) : bool :=
  match v with
  | PBool _ | PInt _ | PFloat _ => true
  | _ => false
  end.

Definition no_raise {A} (r : result A) : bool :=
  match r with
  | Ok _ => true
  | Raise _ => false
  end.

(** A non-empty text of decimal digits. *)
Definition numeric (g : pystr) : Prop :=
  g <> [] /\ Forall (fun c => is_decimal c = true) g.

(** The [success] and [name] entries of an element of the report. *)
Definition succeeded (entry : pyval) : bool :=
  match py_get entry (py "success") PNone with
  | Ok v => truthy v
  | Raise _ => false
  end.

Definition entry_name (entry : pyval) : pyval :=
  match py_get entry (py "name") PNone with
  | Ok v => v
  | Raise _ => PNone
  end.

(** The name the report gives the [i]-th account: its own when it has
    one, its position otherwise. *)
Definition label (i : nat) (acc : account) : pyval :=
  match lookup (py "name") acc with
  | Some n => if truthy n then n
              else PStr (py "账号" ++ N_to_pystr (N.of_nat i))
  | None => PStr (py "账号" ++ N_to_pystr (N.of_nat i))
  end.

Fixpoint labels (i : nat) (accounts : list account) : list pyval :=
  match accounts with
  | [] => []
  | acc :: rest => label i acc :: labels (S i) rest
  end.

(** An account whose address is a text and that has a session entry, as
    every account of the delimited form is. *)
Definition addressable (acc : account) : bool :=
  match lookup (py "url") acc, lookup (py "session") acc with
  | Some (PStr _), Some _ => true
  | _, _ => false
  end.

(** An answer of the network on which none of the texts [main] builds
    for display raises, whichever request it answers: the masked user
    name of a profile, the scaled quota of a successful check-in, the
    scaled total of a history. *)
Definition benign (o : http_outcome) : bool :=
  (let p := match profile_answer o with
            | Ok (v, _) => v
            | Raise _ => PNone
            end in
   no_raise (if truthy p then masked_username p else Ok []))
  && (let r := checkin_result_of o in
      negb (success r)
      || no_raise (if truthy (quota_awarded r)
                   then format_quota (quota_awarded r) else Ok []))
  && no_raise (monthly_count match history_of o with
                             | Ok v => v
                             | Raise _ => PNone
                             end).

(** The answer is a response with status 200 whose body is a JSON
    object with a truthy [success]. *)
Definition claims_success (o : http_outcome) : bool :=
  match o with
  | Response status text =>
    (status =? 200)%Z
    && match response_json text with
       | Ok (PDict d) =>
         match lookup (py "success") d with
         | Some ok => truthy ok
         | None => false
         end
       | _ => false
       end
  | Failure _ => false
  end.

(** The account the delimited form builds from an address and a
    session. *)
Definition pair_account (url session : pystr) : account :=
  [ (py "url", PStr url); (py "session", PStr session); (py "name", PStr []) ].

(** An environment with nothing but the account list, and a world in
    which every request is answered by an empty JSON object. *)
Definition plain_environ (accounts_str : pystr) : environ :=
  mk_environ (Some accounts_str) None None (py "2024-01-01 08:00:00") None.

Definition quiet_world : world :=
  mk_world (fun _ _ => Response 200 (py "{}")) (fun _ => py "2024-01") [].

(** A world for examples: the check-in of an address with [a.example]
    succeeds with a quota of 150000, that of an address with [b.example]
    is answered 503 with a body that is no JSON, any other check-in is
    refused by the service; a profile request gives user 42, a history
    request three check-ins this month. *)
Definition mixed_world : world :=
  mk_world
    (fun _ rq =>
       match req_method rq with
       | POST =>
         if contains (py "a.example") (req_url rq)
         then Response 200
                (quoted "{'success': true, 'message': 'ok', 'data': {'checkin_date': '2024-01-01', 'quota_awarded': 150000}}")
         else if contains (py "b.example") (req_url rq)
         then Response 503 (py "Service Unavailable")
         else Response 200 (quoted "{'success': false, 'message': 'already checked in'}")
       | GET =>
         if contains (py "/api/user/self") (req_url rq)
         then Response 200
                (quoted "{'success': true, 'data': {'id': 42, 'username': 'alice'}}")
         else Response 200
                (quoted "{'success': true, 'data': {'stats': {'checkin_count': 3, 'total_quota': 450000}}}")
       end)
    (fun _ => py "2024-01")
    [].

Definition mixed_accounts : list account :=
  [ pair_account (py "https://a.example") (py "token-a");
    pair_account (py "https://b.example") (py "token-b");
    pair_account (py "https://c.example") (py "token-c") ].

Definition mixed_config : pystr :=
  py "https://a.example#token-a,https://b.example#token-b,https://c.example#token-c".

(** The line of a successful account up to its message. *)
Definition success_base (name msg : pyval) : pystr :=
  py "✅ *" ++ py_str name ++ py "*: " ++ py_str msg.

(** The text the line of a successful account ends with when the monthly
    count is known. *)
Definition count_suffix (count : pyval) : pystr :=
  match count with
  | PNone => []
  | _ => py " 本月已签" ++ py_str count ++ py "天"
  end.

(** The text does not decode to a JSON list: it does not decode, or it
    decodes to another value. *)
Definition not_json_list (s : pystr) : bool :=
  match json_loads s with
  | Ok (PList _) => false
  | _ => true
  end.


(* ================================================================== *)
(** * Vocabulary of the further properties *)

(** [p] is the beginning, or the end, of [s]. *)
Definition begins_with (p s : pystr) : Prop := exists r, s = p ++ r.
Definition ends_with (p s : pystr) : Prop := exists r, s = r ++ p.

(** Reading an escaped text back: a backslash that stands before a
    reserved character is dropped. *)
Fixpoint unescape_markdown (s : pystr) : pystr :=
  match s with
  | [] => []
  | a :: r =>
    match r with
    | c :: r' =>
      if (a =? 92) && has_char c escape_chars
      then c :: unescape_markdown r'
      else a :: unescape_markdown r
    | [] => [a]
    end
  end.

(** The number of reserved characters of a text. *)
Definition reserved_count (s : pystr) : nat :=
  List.length (filter (fun c => has_char c escape_chars) s).

(** The answer of the Telegram service is a JSON object with a truthy
    [ok]. *)
Definition telegram_ok (o : http_outcome) : bool :=
  match o with
  | Response _ text =>
    match response_json text with
    | Ok (PDict d) =>
      match lookup (py "ok") d with
      | Some ok => truthy ok
      | None => false
      end
    | _ => false
    end
  | Failure _ => false
  end.

(** The values [len] accepts. *)
Definition sized (v : pyval) : bool :=
  match v with
  | PStr _ | PList _ | PDict _ => true
  | _ => false
  end.

(** An element of the JSON list that [parse_accounts] keeps: an object
    with [url] and [session]. *)
Definition usable (item : pyval) : bool :=
  match item with
  | PDict d => has_key (py "url") d && has_key (py "session") d
  | _ => false
  end.

(** The account carries the fields of the element: [url], [session],
    [user_id] and [cf_clearance] as they are in it (the last two absent
    when it has none), and its [name] or the empty text. *)
Definition carries (item : pyval) (acc : account) : Prop :=
  exists d : list (pystr * pyval),
    item = PDict d
    /\ lookup (py "url") acc = lookup (py "url") d
    /\ lookup (py "session") acc = lookup (py "session") d
    /\ lookup (py "name") acc
       = Some match lookup (py "name") d with
              | Some n => n
              | None => PStr []
              end
    /\ lookup (py "user_id") acc = lookup (py "user_id") d
    /\ lookup (py "cf_clearance") acc = lookup (py "cf_clearance") d.

(** The keys [main] reads with a subscript or expects: [url], [session],
    [name]. *)
Definition complete (acc : account) : bool :=
  has_key (py "url") acc && has_key (py "session") acc
  && has_key (py "name") acc.

(** The requests of one iteration of the loop of [main]: the profile,
    the check-in and, after a check-in that succeeded, the history of
    [month]; [c] is the instance as created, [c'] the instance once the
    profile has been read. *)
Definition account_requests (c c' : client) (ok : bool) (month : pystr)
  : list request :=
  [ api_request c GET "/api/user/self" []; checkin_request c' ]
  ++ (if ok
      then [ api_request c' GET "/api/user/checkin" [(py "month", month)] ]
      else []).

(** The instance [main] creates for an account. *)
Definition client_of (acc : account) : result client :=
  bind (py_item (PDict acc) (py "url")) (fun url =>
  bind (py_item (PDict acc) (py "session")) (fun session_cookie =>
  bind (py_get (PDict acc) (py "user_id") PNone) (fun uid =>
  bind (py_get (PDict acc) (py "cf_clearance") PNone) (fun cf_clearance =>
  new_client url session_cookie uid cf_clearance)))).

(** The standard base64 alphabet, and the encoding of a byte string
    without the padding at its end (RFC 4648), which is how session
    tokens come. *)
Definition b64_char (v : N) : N :=
  if v <? 26 then v + 65
  else if v <? 52 then v + 71
  else if v <? 62 then v - 4
  else if v =? 62 then 43
  else 47.

Fixpoint b64_encode (bs : pybytes) : pystr :=
  match bs with
  | [] => []
  | a :: r1 =>
    match r1 with
    | [] => [ b64_char (a / 4); b64_char ((a mod 4) * 16) ]
    | b :: r2 =>
      match r2 with
      | [] => [ b64_char (a / 4); b64_char ((a mod 4) * 16 + b / 16);
                b64_char ((b mod 16) * 4) ]
      | c :: r3 =>
        b64_char (a / 4) :: b64_char ((a mod 4) * 16 + b / 16)
        :: b64_char ((b mod 16) * 4 + c / 64) :: b64_char (c mod 64)
        :: b64_encode r3
      end
    end
  end.

(** A byte string. *)
Definition octets (bs : pybytes) : Prop := Forall (fun b => b < 256) bs.

(** The requests [group] are those of one iteration of the loop for the
    account: made by the instance created for it, whose address and
    cookies are the same for the three calls. *)
Definition requests_of (acc : account) (group : list request) : Prop :=
  exists (c c' : client) (ok : bool) (month : pystr),
    client_of acc = Ok c
    /\ base_url c' = base_url c
    /\ cookies c' = cookies c
    /\ group = account_requests c c' ok month.

(** An environment with the account list and the two Telegram
    variables. *)
Definition telegram_environ (accounts_str : pystr) : environ :=
  mk_environ (Some accounts_str) (Some (py "123:abc")) (Some (py "42"))
             (py "2024-01-01 08:00:00") None.

(** A world in which every session has expired: each request is answered
    401. *)
Definition expired_world : world :=
  mk_world (fun _ _ => Response 401 (quoted "{'success': false}"))
           (fun _ => py "2024-01") [].

(** A world whose profiles have no user name: the profile request is
    answered with a [username] that is null, every other request with a
    plain success. *)
Definition nameless_world : world :=
  mk_world
    (fun _ rq =>
       if contains (py "/api/user/self") (req_url rq)
       then Response 200
              (quoted "{'success': true, 'data': {'id': 42, 'username': null}}")
       else Response 200 (quoted "{'success': true}"))
    (fun _ => py "2024-01")
    [].

(** The instance of the first example account. *)
Definition example_client : client :=
  mk_client (py "https://a.example") [(py "session", PStr (py "token-a"))]
            PNone None.

(** The beginnings that the patterns of the user id look for, written in
    lower case with one separator. *)
Definition id_prefixes : list pystr :=
  [ py "linuxdo_"; py "linuxdo-"; quoted "'id':"; quoted "'id' ";
    py "user_"; py "user-"; py "userid:"; py "userid " ].

(** A configuration in the structured form: four elements, of which the
    first and the last have both [url] and [session]. *)
Definition structured_config : pystr :=
  quoted "[{'url': 'https://a.example', 'session': 'ta', 'name': 'A', 'user_id': 7}, 5, {'url': 'https://c.example'}, {'session': 'tb', 'url': 'https://b.example'}]".

(** The answer to the check-in of scenario A. *)
Definition scenario_answer : pystr :=
  quoted "{'success': true, 'message': 'ok', 'data': {'checkin_date': '2024-01-01', 'quota_awarded': 150000}}".

(* ================================================================== *)
(** * Theorems: the JSON decoder never runs out of fuel *)

Lemma json_error_is_decode_error :
  forall msg : string, decode_error (json_error msg).
Proof. reflexivity. Qed.

Lemma skip_ws_length :
  forall s : pystr, (List.length (skip_ws s) <= List.length s)%nat.
Proof.
  induction s as [| c r IH]; [apply Nat.le_refl |].
  cbn [skip_ws]. destruct (is_json_ws c); cbn [List.length]; lia.
Qed.

Lemma cons_char_ok :
  forall (A : Type) (c : N) (x : result (pystr * A)) (t : pystr) (a : A),
    cons_char c x = Ok (t, a) -> exists t', x = Ok (t', a).
Proof.
  intros A c [[t' a'] | e] t a H; [| discriminate H].
  cbn in H. injection H as _ <-. exists t'. reflexivity.
Qed.

Lemma cons_char_raise :
  forall (A : Type) (c : N) (x : result (pystr * A)) (e : exn),
    cons_char c x = Raise e -> x = Raise e.
Proof.
  intros A c [[t' a'] | e'] e H; [discriminate H |].
  cbn in H. congruence.
Qed.

(** A string literal is shorter than the text it is read from, and
    reading it fails with a decoding error only. *)
Lemma scan_string_sound :
  forall (n : nat) (s : pystr),
    (List.length s <= n)%nat ->
    (forall t r, scan_string s = Ok (t, r) ->
                 (List.length r < List.length s)%nat)
    /\ (forall e, scan_string s = Raise e -> decode_error e).
Proof.
  induction n as [| n IH]; intros s Hlen.
  - destruct s; [| cbn in Hlen; lia].
    split; intros; [discriminate | ].
    cbn in H. injection H as <-. reflexivity.
  - assert (Hrec : forall (c : N) (r' : pystr),
               (List.length r' < List.length s)%nat ->
               (forall t r, cons_char c (scan_string r') = Ok (t, r) ->
                            (List.length r < List.length s)%nat)
               /\ (forall e, cons_char c (scan_string r') = Raise e ->
                             decode_error e)).
    { intros c r' Hr'. destruct (IH r' ltac:(lia)) as [Hok Hraise]. split.
      - intros t r H. apply cons_char_ok in H as [t' H].
        specialize (Hok t' r H). lia.
      - intros e H. apply cons_char_raise in H. exact (Hraise e H). }
    destruct s as [| c r].
    { split; intros; [discriminate |].
      cbn in H. injection H as <-. reflexivity. }
    cbn [scan_string].
    destruct (c =? 34).
    { split; intros; [| discriminate].
      injection H as _ <-. cbn [List.length]. lia. }
    destruct (c =? 92).
    + destruct r as [| e0 r1].
      { split; intros; [discriminate |]. injection H as <-. reflexivity. }
      destruct (e0 =? 117).
      * destruct r1 as [| h1 [| h2 [| h3 [| h4 r2]]]];
          try (split; intros; [discriminate |];
               injection H as <-; reflexivity).
        destruct (hex4 h1 h2 h3 h4) as [u |];
          [| split; intros; [discriminate |];
             injection H as <-; reflexivity].
        assert (Hlone : (forall t r0,
                            cons_char u (scan_string r2) = Ok (t, r0) ->
                            (List.length r0
                             < List.length (c :: e0 :: h1 :: h2 :: h3 :: h4 :: r2))%nat)
                        /\ (forall e,
                               cons_char u (scan_string r2) = Raise e ->
                               decode_error e)).
        { apply Hrec. cbn [List.length]. lia. }
        destruct ((0xD800 <=? u) && (u <=? 0xDBFF)); [| exact Hlone].
        destruct r2 as [| b [| u' [| l1 [| l2 [| l3 [| l4 r3]]]]]];
          try exact Hlone.
        destruct ((b =? 92) && (u' =? 117)); [| exact Hlone].
        destruct (hex4 l1 l2 l3 l4) as [u2 |];
          [| split; intros; [discriminate |];
             injection H as <-; reflexivity].
        destruct ((0xDC00 <=? u2) && (u2 <=? 0xDFFF)); [| exact Hlone].
        apply Hrec. cbn [List.length]. lia.
      * destruct (simple_escape e0);
          [| split; intros; [discriminate |];
             injection H as <-; reflexivity].
        apply Hrec. cbn [List.length]. lia.
    + destruct (c <? 32);
        [split; intros; [discriminate |]; injection H as <-; reflexivity |].
      apply Hrec. cbn [List.length]. lia.
Qed.

Lemma scan_string_shorter :
  forall s t r : pystr,
    scan_string s = Ok (t, r) -> (List.length r < List.length s)%nat.
Proof.
  intros s t r. apply (scan_string_sound (List.length s) s (Nat.le_refl _)).
Qed.

Lemma scan_string_raises :
  forall (s : pystr) (e : exn), scan_string s = Raise e -> decode_error e.
Proof.
  intros s e. apply (scan_string_sound (List.length s) s (Nat.le_refl _)).
Qed.

Lemma take_digits_length :
  forall s : pystr,
    (List.length (snd (take_digits s)) <= List.length s)%nat.
Proof.
  induction s as [| c r IH]; [apply Nat.le_refl |].
  cbn [take_digits]. destruct (is_digit c); [| apply Nat.le_refl].
  destruct (take_digits r) as [ds rest]. cbn [snd List.length] in *. lia.
Qed.

Lemma scan_integer_shorter :
  forall s ds r : pystr,
    scan_integer s = Some (ds, r) -> (List.length r < List.length s)%nat.
Proof.
  intros [| c s'] ds r H; [discriminate H |]. cbn [scan_integer] in H.
  destruct ((49 <=? c) && (c <=? 57)).
  - pose proof (take_digits_length s') as Hd.
    destruct (take_digits s') as [ds' rest]. injection H as _ <-.
    cbn [snd List.length] in *. lia.
  - destruct (c =? 48); [| discriminate H]. injection H as _ <-.
    cbn [List.length]. lia.
Qed.

Lemma scan_fraction_shorter :
  forall s ds r : pystr,
    scan_fraction s = Some (ds, r) -> (List.length r <= List.length s)%nat.
Proof.
  intros [| p [| d s']] ds r H; try discriminate H.
  cbn [scan_fraction] in H.
  destruct ((p =? 46) && is_digit d); [| discriminate H].
  pose proof (take_digits_length s') as Hd.
  destruct (take_digits s') as [ds' rest]. injection H as _ <-.
  cbn [snd List.length] in *. lia.
Qed.

Lemma scan_exponent_shorter :
  forall (s r : pystr) (x : Z),
    scan_exponent s = Some (x, r) -> (List.length r <= List.length s)%nat.
Proof.
  intros [| e s'] r x H; [discriminate H |]. cbn [scan_exponent] in H.
  destruct ((e =? 101) || (e =? 69)); [| discriminate H].
  destruct s' as [| sg r'].
  - cbn in H. discriminate H.
  - destruct (sg =? 45); [| destruct (sg =? 43)].
    + pose proof (take_digits_length r') as Hd.
      destruct (take_digits r') as [[| c ds] rest]; [discriminate H |].
      injection H as _ <-. cbn [snd List.length] in *. lia.
    + pose proof (take_digits_length r') as Hd.
      destruct (take_digits r') as [[| c ds] rest]; [discriminate H |].
      injection H as _ <-. cbn [snd List.length] in *. lia.
    + pose proof (take_digits_length (sg :: r')) as Hd.
      destruct (take_digits (sg :: r')) as [[| c ds] rest];
        [discriminate H |].
      injection H as _ <-. cbn [snd List.length] in *. lia.
Qed.

Lemma scan_number_shorter :
  forall (s r : pystr) (v : pyval),
    scan_number s = Some (v, r) -> (List.length r < List.length s)%nat.
Proof.
  intros s r v H. unfold scan_number in H.
  set (p := match s with
            | c :: r0 => if c =? 45 then (true, r0) else (false, s)
            | [] => (false, s)
            end) in H.
  assert (Hp : (List.length (snd p) <= List.length s)%nat).
  { subst p. destruct s as [| c r0]; [apply Nat.le_refl |].
    destruct (c =? 45); cbn [snd List.length]; lia. }
  destruct p as [neg s1]. cbn [snd] in Hp.
  destruct (scan_integer s1) as [[ip r1] |] eqn:Hint; [| discriminate H].
  apply scan_integer_shorter in Hint.
  destruct (scan_fraction r1) as [[fd r2] |] eqn:Hfrac.
  - apply scan_fraction_shorter in Hfrac.
    destruct (scan_exponent r2) as [[x r3] |] eqn:Hexp.
    + apply scan_exponent_shorter in Hexp. injection H as _ <-. lia.
    + injection H as _ <-. lia.
  - destruct (scan_exponent r1) as [[x r3] |] eqn:Hexp.
    + apply scan_exponent_shorter in Hexp. injection H as _ <-. lia.
    + injection H as _ <-. lia.
Qed.

(** What a reader may do on a text: give a value and a shorter text, or
    fail with a decoding error. *)
Definition consumes (x : result (pyval * pystr)) (s : pystr) : Prop :=
  match x with
  | Ok (_, r) => (List.length r < List.length s)%nat
  | Raise e => decode_error e
  end.

Lemma consumes_longer :
  forall (x : result (pyval * pystr)) (s' s : pystr),
    consumes x s' -> (List.length s' <= List.length s)%nat -> consumes x s.
Proof.
  intros [[v r] | e] s' s H Hlen; cbn [consumes] in *; [lia | exact H].
Qed.

Lemma consumes_literal :
  forall (v : pyval) (n : nat) (c : N) (r : pystr),
    (0 < n)%nat -> consumes (Ok (v, skipn n (c :: r))) (c :: r).
Proof.
  intros v n c r Hn. cbn [consumes]. rewrite length_skipn.
  cbn [List.length]. lia.
Qed.

(** With fuel above twice the length of the text, the three readers
    consume or fail with a decoding error: the fuel never runs out. *)
Lemma scan_sound :
  forall fuel : nat,
    (forall s : pystr,
        (2 * List.length s < fuel)%nat -> consumes (scan_once fuel s) s)
    /\ (forall (s : pystr) (acc : list pyval),
           (2 * List.length s + 1 < fuel)%nat ->
           consumes (scan_elements fuel s acc) s)
    /\ (forall (s : pystr) (acc : list (pystr * pyval)),
           (2 * List.length s + 1 < fuel)%nat ->
           consumes (scan_members fuel s acc) s).
Proof.
  induction fuel as [| f (IHonce & IHelements & IHmembers)].
  { repeat split; intros; lia. }
  split; [| split].
  - intros s Hfuel. cbn [scan_once].
    destruct s as [| c r]; [reflexivity |].
    cbn [List.length] in Hfuel. pose proof (skip_ws_length r) as Hws.
    destruct (c =? 34).
    { destruct (scan_string r) as [[t rest] |] eqn:Hs.
      - apply scan_string_shorter in Hs. cbn [consumes List.length]. lia.
      - exact (scan_string_raises r e Hs). }
    destruct (c =? 123).
    { destruct (skip_ws r) as [| c' r'].
      - apply (consumes_longer _ []); [apply IHmembers |];
          cbn [List.length]; lia.
      - cbn [List.length] in Hws. destruct (c' =? 125).
        + cbn [consumes List.length]. lia.
        + apply (consumes_longer _ (c' :: r')); [apply IHmembers |];
            cbn [List.length]; lia. }
    destruct (c =? 91).
    { destruct (skip_ws r) as [| c' r'].
      - apply (consumes_longer _ []); [apply IHelements |];
          cbn [List.length]; lia.
      - cbn [List.length] in Hws. destruct (c' =? 93).
        + cbn [consumes List.length]. lia.
        + apply (consumes_longer _ (c' :: r')); [apply IHelements |];
            cbn [List.length]; lia. }
    repeat match goal with
           | |- consumes (if ?b then _ else _) _ =>
             destruct b; [apply consumes_literal; lia |]
           end.
    destruct (scan_number (c :: r)) as [[v rest] |] eqn:Hn.
    + apply scan_number_shorter in Hn. exact Hn.
    + reflexivity.
  - intros s acc Hfuel. cbn [scan_elements].
    pose proof (IHonce s ltac:(lia)) as Hvalue.
    destruct (scan_once f s) as [[v r] |]; [| exact Hvalue].
    cbn [consumes] in Hvalue. pose proof (skip_ws_length r) as Hws.
    destruct (skip_ws r) as [| c r']; [reflexivity |].
    cbn [List.length] in Hws.
    destruct (c =? 93); [cbn [consumes]; lia |].
    destruct (c =? 44); [| reflexivity].
    pose proof (skip_ws_length r') as Hws'.
    apply (consumes_longer _ (skip_ws r')); [apply IHelements |]; lia.
  - intros s acc Hfuel. cbn [scan_members].
    destruct s as [| q r]; [reflexivity |].
    cbn [List.length] in Hfuel.
    destruct (q =? 34); [| reflexivity].
    destruct (scan_string r) as [[k r1] |] eqn:Hkey;
      [| exact (scan_string_raises r e Hkey)].
    apply scan_string_shorter in Hkey.
    pose proof (skip_ws_length r1) as Hws1.
    destruct (skip_ws r1) as [| c r2]; [reflexivity |].
    cbn [List.length] in Hws1.
    destruct (c =? 58); [| reflexivity].
    pose proof (skip_ws_length r2) as Hws2.
    pose proof (IHonce (skip_ws r2) ltac:(lia)) as Hvalue.
    destruct (scan_once f (skip_ws r2)) as [[v r3] |]; [| exact Hvalue].
    cbn [consumes] in Hvalue. pose proof (skip_ws_length r3) as Hws3.
    destruct (skip_ws r3) as [| c' r4]; [reflexivity |].
    cbn [List.length] in Hws3.
    destruct (c' =? 125); [cbn [consumes List.length]; lia |].
    destruct (c' =? 44); [| reflexivity].
    pose proof (skip_ws_length r4) as Hws4.
    apply (consumes_longer _ (skip_ws r4)); [apply IHmembers |];
      cbn [List.length]; lia.
Qed.

(** [json.loads] returns a value or raises [JSONDecodeError]. *)
Lemma json_loads_raises :
  forall (s : pystr) (e : exn), json_loads s = Raise e -> decode_error e.
Proof.
  intros s e H. unfold json_loads in H.
  destruct (starts_with [65279] s); [injection H as <-; reflexivity |].
  pose proof (skip_ws_length s) as Hws.
  pose proof (proj1 (scan_sound (2 * List.length s + 2)) (skip_ws s)
                    ltac:(lia)) as Hscan.
  destruct (scan_once (2 * List.length s + 2) (skip_ws s)) as [[v r] | e'].
  - destruct (skip_ws r); [discriminate H | injection H as <-; reflexivity].
  - injection H as <-. exact Hscan.
Qed.

(* ================================================================== *)
(** * Theorems: [checkin] *)

Lemma truthy_text : forall s : pystr, s <> [] -> truthy (PStr s) = true.
Proof. intros [| c r] H; [congruence | reflexivity]. Qed.

Lemma includes_middle : forall a b c : pystr, includes b (a ++ b ++ c).
Proof. intros a b c. exists a, c. reflexivity. Qed.

Lemma includes_nil : forall s : pystr, includes [] s.
Proof. intros s. exists [], s. reflexivity. Qed.

(** C1.  A response with status 200 whose JSON body has [success] true
    and [data] null: [checkin] marks the result as succeeded, then the
    lookup in [data] raises, and the last [except] clause replaces the
    message of the response by the text of the exception. *)
Theorem checkin_data_null :
  checkin_result_of
    (Response 200 (quoted "{'success': true, 'message': 'ok', 'data': null}"))
  = mk_result true
      (PStr (py "未知错误: 'NoneType' object has no attribute 'get'"))
      PNone PNone.
Proof. vm_compute. reflexivity. Qed.

(** What [checkin] returns on status 200 and a JSON object with a truthy
    [success], by the shape of [data]: absent or an object, the fields
    are those of the response. *)
Lemma checkin_success_object_data :
  forall (text : pystr) (d : list (pystr * pyval)) (ok : pyval),
    response_json text = Ok (PDict d) ->
    lookup (py "success") d = Some ok ->
    truthy ok = true ->
    forall dd : list (pystr * pyval),
      match lookup (py "data") d with
      | None => dd = []
      | Some v => v = PDict dd
      end ->
      checkin_result_of (Response 200 text)
      = mk_result true
          match lookup (py "message") d with
          | Some m => m
          | None => PStr (py "签到成功")
          end
          match lookup (py "checkin_date") dd with
          | Some v => v
          | None => PNone
          end
          match lookup (py "quota_awarded") dd with
          | Some v => v
          | None => PNone
          end.
Proof.
  intros text d ok Hjson Hok Htrue dd Hdata.
  unfold checkin_result_of, checkin_on_response.
  change (200 =? 401)%Z with false. cbv iota.
  rewrite Hjson. change (200 =? 200)%Z with true. cbv iota.
  unfold upd_bind, upd_eval, upd_set, py_get.
  rewrite Hok. cbv iota beta. rewrite Htrue. cbv iota beta.
  destruct (lookup (py "data") d) as [v |]; subst; reflexivity.
Qed.

(** ... and any other [data] (null, a number, a text, a list) leaves a
    result that says succeeded and carries the text of an exception. *)
Lemma checkin_success_other_data :
  forall (text : pystr) (d : list (pystr * pyval)) (ok v : pyval),
    response_json text = Ok (PDict d) ->
    lookup (py "success") d = Some ok ->
    truthy ok = true ->
    lookup (py "data") d = Some v ->
    match v with PDict _ => false | _ => true end = true ->
    checkin_result_of (Response 200 text)
    = mk_result true
        (PStr (py "未知错误: " ++ exn_text (no_attribute v (py "get"))))
        PNone PNone.
Proof.
  intros text d ok v Hjson Hok Htrue Hdata Hshape.
  unfold checkin_result_of, checkin_on_response.
  change (200 =? 401)%Z with false. cbv iota.
  rewrite Hjson. change (200 =? 200)%Z with true. cbv iota.
  unfold upd_bind, upd_eval, upd_set, py_get.
  rewrite Hok. cbv iota beta. rewrite Htrue. cbv iota beta.
  rewrite Hdata.
  destruct v; try discriminate Hshape; reflexivity.
Qed.



(* ================================================================== *)
(** * Theorems: the quota in the report *)

Lemma in_first_hundred :
  forall n : N, n < 100 -> In n (map N.of_nat (seq 0 100)).
Proof.
  intros n Hn. apply in_map_iff. exists (N.to_nat n). split.
  - apply N2Nat.id.
  - apply in_seq. lia.
Qed.

Lemma pad2_two_digits :
  forall n : N, n < 100 ->
    exists a b : N, pad2 n = [a; b] /\ is_digit a = true /\ is_digit b = true.
Proof.
  intros n Hn.
  assert (Hall : forallb (fun k => match pad2 k with
                                   | [a; b] => is_digit a && is_digit b
                                   | _ => false
                                   end)
                         (map N.of_nat (seq 0 100)) = true)
    by (vm_compute; reflexivity).
  rewrite forallb_forall in Hall.
  specialize (Hall n (in_first_hundred n Hn)).
  destruct (pad2 n) as [| a [| b [| c r]]]; try discriminate Hall.
  apply andb_prop in Hall. exists a, b. tauto.
Qed.

(** [f"{x:.2f}"] of a finite number ends in a point and two digits. *)
Lemma format_2f_two_decimals :
  forall (s : bool) (m : positive) (e : Z),
    exists (whole : pystr) (a b : N),
      format_2f (S754_finite s m e) = whole ++ [46; a; b]
      /\ is_digit a = true /\ is_digit b = true.
Proof.
  intros s m e. unfold format_2f.
  set (h := if (0 <=? e)%Z then _ else _).
  destruct (pad2_two_digits (Z.to_N (h mod 100))) as (a & b & Hp & Ha & Hb).
  - pose proof (Z.mod_pos_bound h 100 ltac:(lia)). lia.
  - rewrite Hp. eexists (_ ++ _), a, b. rewrite <- app_assoc.
    split; [reflexivity | tauto].
Qed.

Lemma format_quota_int :
  forall q : Z,
    format_quota (PInt q)
    = if (1000000 <=? q)%Z
      then bind (int_truediv q 1000000)
                (fun x => Ok (format_2f x ++ py "M"))
      else if (1000 <=? q)%Z
      then bind (int_truediv q 1000) (fun x => Ok (format_2f x ++ py "K"))
      else Ok (Z_to_pystr q).
Proof. reflexivity. Qed.

(** C8.  The quota shown in the report: below 1,000 the number as it is,
    from 1,000 on the number of thousands with suffix K, from 1,000,000
    on the number of millions with suffix M, each scaled number written
    with two decimals; 500, 1500 and 2,500,000 give "500", "1.50K" and
    "2.50M". *)
Theorem format_quota_thresholds :
  format_quota (PInt 500) = Ok (py "500")
  /\ format_quota (PInt 1500) = Ok (py "1.50K")
  /\ format_quota (PInt 2500000) = Ok (py "2.50M")
  /\ (forall q : Z, (q < 1000)%Z ->
        format_quota (PInt q) = Ok (Z_to_pystr q))
  /\ (forall q : Z, (1000 <= q < 1000000)%Z ->
        format_quota (PInt q)
        = bind (int_truediv q 1000) (fun x => Ok (format_2f x ++ py "K")))
  /\ (forall q : Z, (1000000 <= q)%Z ->
        format_quota (PInt q)
        = bind (int_truediv q 1000000) (fun x => Ok (format_2f x ++ py "M")))
  /\ (forall (s : bool) (m : positive) (e : Z),
        exists (whole : pystr) (a b : N),
          format_2f (S754_finite s m e) = whole ++ [46; a; b]
          /\ is_digit a = true /\ is_digit b = true).
Proof.
  split; [vm_compute; reflexivity |].
  split; [vm_compute; reflexivity |].
  split; [vm_compute; reflexivity |].
  repeat split.
  - intros q Hq. rewrite format_quota_int.
    destruct (Z.leb_spec 1000000 q); [lia |].
    destruct (Z.leb_spec 1000 q); [lia | reflexivity].
  - intros q Hq. rewrite format_quota_int.
    destruct (Z.leb_spec 1000000 q); [lia |].
    destruct (Z.leb_spec 1000 q); [reflexivity | lia].
  - intros q Hq. rewrite format_quota_int.
    destruct (Z.leb_spec 1000000 q); [reflexivity | lia].
  - apply format_2f_two_decimals.
Qed.

Lemma entry_get_name :
  forall (name msg quota count dflt : pyval) (ok : bool),
    py_get (account_result name ok msg quota count) (py "name") dflt = Ok name.
Proof. reflexivity. Qed.

Lemma entry_get_success :
  forall (name msg quota count dflt : pyval) (ok : bool),
    py_get (account_result name ok msg quota count) (py "success") dflt
    = Ok (PBool ok).
Proof. reflexivity. Qed.

Lemma entry_get_message :
  forall (name msg quota count dflt : pyval) (ok : bool),
    py_get (account_result name ok msg quota count) (py "message") dflt
    = Ok msg.
Proof. reflexivity. Qed.

Lemma entry_get_quota :
  forall (name msg quota count dflt : pyval) (ok : bool),
    py_get (account_result name ok msg quota count) (py "quota_awarded") dflt
    = Ok quota.
Proof. reflexivity. Qed.

Lemma entry_get_count :
  forall (name msg quota count dflt : pyval) (ok : bool),
    py_get (account_result name ok msg quota count) (py "checkin_count") dflt
    = Ok count.
Proof. reflexivity. Qed.

(** The line of a successful account, by its quota. *)
Lemma success_line :
  forall (i : nat) (name msg quota count : pyval),
    account_line i (account_result name true msg quota count)
    = bind (if truthy quota
            then bind (format_quota quota) (fun quota_str =>
                 Ok (success_base name msg
                       ++ py " \(+" ++ quota_str ++ py "\)"))
            else Ok (success_base name msg))
           (fun line =>
              match count with
              | PNone => Ok line
              | _ => Ok (line ++ py " 本月已签" ++ py_str count ++ py "天")
              end).
Proof.
  intros. unfold account_line.
  rewrite entry_get_name, entry_get_success, entry_get_message,
    entry_get_quota, entry_get_count.
  reflexivity.
Qed.

Lemma format_quota_non_number :
  forall quota : pyval,
    is_number quota = false -> exists e : exn, format_quota quota = Raise e.
Proof.
  intros [] H; try discriminate H; eexists; reflexivity.
Qed.

Lemma with_count_suffix :
  forall (line : pystr) (count : pyval),
    match count with
    | PNone => Ok line
    | _ => Ok (line ++ py " 本月已签" ++ py_str count ++ py "天")
    end
    = Ok (line ++ count_suffix count).
Proof.
  intros line count. destruct count; cbn [count_suffix];
    rewrite ?app_nil_r; reflexivity.
Qed.


(** The line of the specification's first scenario. *)
Example line_scenario_a :
  account_line 1 (account_result (PStr (py "main")) true (PStr (py "ok"))
                                 (PInt 150000) (PInt 3))
  = Ok (py "✅ *main*: ok \(+150.00K\) 本月已签3天").
Proof. vm_compute. reflexivity. Qed.

(* ================================================================== *)
(** * Theorems: text *)

Section Text.

Variable c : N.

Lemma has_char_app :
  forall a b : pystr, has_char c (a ++ b) = has_char c a || has_char c b.
Proof. intros a b. apply existsb_app. Qed.

Lemma has_char_rev : forall s : pystr, has_char c (rev s) = has_char c s.
Proof.
  induction s as [| x r IH]; [reflexivity |].
  cbn [rev]. rewrite has_char_app, IH. cbn [has_char existsb].
  rewrite orb_false_r. apply orb_comm.
Qed.

Lemma has_char_lstrip :
  forall s : pystr, has_char c s = false -> has_char c (lstrip s) = false.
Proof.
  induction s as [| x r IH]; intros H; [reflexivity |].
  cbn [lstrip]. destruct (is_space x); [| exact H].
  apply IH. cbn [has_char existsb] in H. apply orb_false_elim in H. tauto.
Qed.

Lemma has_char_strip :
  forall s : pystr, has_char c s = false -> has_char c (strip s) = false.
Proof.
  intros s H. unfold strip, rstrip.
  rewrite has_char_rev. apply has_char_lstrip.
  rewrite has_char_rev. apply has_char_lstrip. exact H.
Qed.

Lemma split_on_no_sep :
  forall s : pystr, has_char c s = false -> split_on c s = [s].
Proof.
  induction s as [| x r IH]; intros H; [reflexivity |].
  cbn [has_char existsb] in H. apply orb_false_elim in H as [Hx Hr].
  cbn [split_on]. rewrite N.eqb_sym, Hx, (IH Hr). reflexivity.
Qed.

Lemma split_on_app :
  forall a b : pystr,
    has_char c a = false -> split_on c (a ++ c :: b) = a :: split_on c b.
Proof.
  induction a as [| x r IH]; intros b H.
  - cbn [app split_on]. rewrite N.eqb_refl. reflexivity.
  - cbn [has_char existsb] in H. apply orb_false_elim in H as [Hx Hr].
    cbn [app split_on]. rewrite N.eqb_sym, Hx, (IH b Hr). reflexivity.
Qed.

Lemma split_first_app :
  forall a b : pystr,
    has_char c a = false -> split_first c (a ++ c :: b) = Some (a, b).
Proof.
  induction a as [| x r IH]; intros b H.
  - cbn [app split_first]. rewrite N.eqb_refl. reflexivity.
  - cbn [has_char existsb] in H. apply orb_false_elim in H as [Hx Hr].
    cbn [app split_first]. rewrite N.eqb_sym, Hx, (IH b Hr). reflexivity.
Qed.

(** Every piece of a text without [c] is without [c]. *)
Lemma split_on_pieces :
  forall (sep : N) (s : pystr),
    has_char c s = false ->
    Forall (fun p => has_char c p = false) (split_on sep s).
Proof.
  intros sep. induction s as [| x r IH]; intros H.
  - repeat constructor.
  - cbn [has_char existsb] in H. apply orb_false_elim in H as [Hx Hr].
    specialize (IH Hr). cbn [split_on].
    destruct (x =? sep).
    + constructor; [reflexivity | exact IH].
    + destruct (split_on sep r) as [| p ps].
      * repeat constructor. cbn [has_char existsb]. now rewrite Hx.
      * inversion IH; subst. constructor; [| assumption].
        cbn [has_char existsb]. rewrite Hx. assumption.
Qed.

End Text.

(** ** Stripping blanks *)

Lemma strip_rstrip_lstrip : forall s : pystr, strip s = rstrip (lstrip s).
Proof. reflexivity. Qed.

Lemma lstrip_app_solid :
  forall (a b : pystr) (x : N),
    is_space x = false -> lstrip (a ++ x :: b) = lstrip a ++ x :: b.
Proof.
  induction a as [| y r IH]; intros b x Hx.
  - cbn [app lstrip]. now rewrite Hx.
  - cbn [app lstrip]. destruct (is_space y); [apply IH; exact Hx | reflexivity].
Qed.

Lemma rstrip_app_solid :
  forall (a b : pystr) (x : N),
    is_space x = false -> rstrip (a ++ x :: b) = a ++ x :: rstrip b.
Proof.
  intros a b x Hx. unfold rstrip.
  rewrite rev_app_distr. cbn [rev]. rewrite <- app_assoc. cbn [app].
  rewrite (lstrip_app_solid _ _ _ Hx), rev_app_distr. cbn [rev].
  rewrite rev_involutive, <- app_assoc. reflexivity.
Qed.

Lemma lstrip_idempotent : forall s : pystr, lstrip (lstrip s) = lstrip s.
Proof.
  induction s as [| x r IH]; [reflexivity |].
  cbn [lstrip]. destruct (is_space x) eqn:Hx; [exact IH |].
  cbn [lstrip]. now rewrite Hx.
Qed.

Lemma lstrip_blank :
  forall s : pystr, forallb is_space s = true -> lstrip s = [].
Proof.
  induction s as [| x r IH]; intros H; [reflexivity |].
  cbn [forallb] in H. apply andb_prop in H as [Hx Hr].
  cbn [lstrip]. rewrite Hx. exact (IH Hr).
Qed.

Lemma rstrip_blank :
  forall s : pystr, forallb is_space s = true -> rstrip s = [].
Proof.
  intros s H. unfold rstrip. rewrite lstrip_blank; [reflexivity |].
  rewrite forallb_forall in *. intros x Hin. apply H, in_rev, Hin.
Qed.

(** A text is all blanks or has a first character that is not one. *)
Lemma blank_or_solid :
  forall s : pystr,
    forallb is_space s = true
    \/ exists (a b : pystr) (x : N),
        s = a ++ x :: b /\ is_space x = false.
Proof.
  induction s as [| y r IH]; [left; reflexivity |].
  destruct (is_space y) eqn:Hy.
  - destruct IH as [Hall | (a & b & x & Heq & Hx)].
    + left. cbn [forallb]. now rewrite Hy.
    + right. exists (y :: a), b, x. subst. split; [reflexivity | exact Hx].
  - right. exists [], r, y. split; [reflexivity | exact Hy].
Qed.

Lemma rstrip_cons_blank :
  forall (x : N) (s : pystr),
    is_space x = true -> lstrip (rstrip (x :: s)) = lstrip (rstrip s).
Proof.
  intros x s Hx.
  destruct (blank_or_solid s) as [Hall | (a & b & y & Heq & Hy)].
  - rewrite !rstrip_blank; [reflexivity | exact Hall |].
    cbn [forallb]. now rewrite Hx.
  - subst s. change (x :: a ++ y :: b) with ((x :: a) ++ y :: b).
    rewrite !(rstrip_app_solid _ _ _ Hy). cbn [app lstrip]. now rewrite Hx.
Qed.

Lemma lstrip_rstrip_comm :
  forall s : pystr, lstrip (rstrip s) = rstrip (lstrip s).
Proof.
  induction s as [| x r IH]; [reflexivity |].
  destruct (is_space x) eqn:Hx.
  - rewrite (rstrip_cons_blank _ _ Hx). cbn [lstrip]. rewrite Hx. exact IH.
  - cbn [lstrip]. rewrite Hx.
    change (x :: r) with ([] ++ x :: r).
    rewrite (rstrip_app_solid _ _ _ Hx). cbn [app lstrip]. now rewrite Hx.
Qed.

Lemma rstrip_idempotent : forall s : pystr, rstrip (rstrip s) = rstrip s.
Proof.
  intros s. unfold rstrip. rewrite rev_involutive, lstrip_idempotent.
  reflexivity.
Qed.

Lemma strip_lstrip : forall s : pystr, strip (lstrip s) = strip s.
Proof.
  intros s. rewrite !strip_rstrip_lstrip, lstrip_idempotent. reflexivity.
Qed.

Lemma strip_rstrip : forall s : pystr, strip (rstrip s) = strip s.
Proof.
  intros s. rewrite !strip_rstrip_lstrip, lstrip_rstrip_comm,
    rstrip_idempotent. reflexivity.
Qed.

(** Stripping a text cut by a character that is no blank strips the two
    sides. *)
Lemma strip_around :
  forall (a b : pystr) (x : N),
    is_space x = false -> strip (a ++ x :: b) = lstrip a ++ x :: rstrip b.
Proof.
  intros a b x Hx.
  rewrite strip_rstrip_lstrip, (lstrip_app_solid _ _ _ Hx).
  apply rstrip_app_solid. exact Hx.
Qed.

(* ================================================================== *)
(** * Theorems: [parse_accounts] *)

Lemma parse_accounts_json_list :
  forall (s : pystr) (items : list pyval),
    json_loads s = Ok (PList items) ->
    parse_accounts s
    = if negb (truthy (PStr s)) then Ok [] else Ok (structured_accounts items).
Proof.
  intros s items H. unfold parse_accounts. rewrite H. reflexivity.
Qed.

Lemma parse_accounts_delimited :
  forall s : pystr,
    s <> [] -> not_json_list s = true ->
    parse_accounts s = Ok (delimited_accounts s).
Proof.
  intros s Hs H. unfold parse_accounts, not_json_list in *.
  rewrite (truthy_text s Hs). cbn [negb].
  destruct (json_loads s) as [[] | e] eqn:Hjson;
    try reflexivity; try discriminate H.
  rewrite (json_loads_raises s e Hjson). reflexivity.
Qed.

(** Every account of the structured form comes from an element of the
    list, a dictionary whose [url] and [session] it carries. *)
Lemma structured_accounts_origin :
  forall (items : list pyval) (acc : account),
    In acc (structured_accounts items) ->
    exists (d : list (pystr * pyval)) (u k : pyval),
      In (PDict d) items
      /\ lookup (py "url") d = Some u /\ lookup (py "session") d = Some k
      /\ lookup (py "url") acc = Some u /\ lookup (py "session") acc = Some k.
Proof.
  induction items as [| item rest IH]; intros acc Hin; [contradiction |].
  unfold structured_accounts in Hin. cbn [keep] in Hin.
  destruct (structured_account item) as [a |] eqn:Ha.
  - destruct Hin as [<- | Hin].
    + destruct item as [| | | | | | d]; try discriminate Ha.
      cbn [structured_account] in Ha.
      destruct (lookup (py "url") d) as [u |] eqn:Hu; [| discriminate Ha].
      destruct (lookup (py "session") d) as [k |] eqn:Hk; [| discriminate Ha].
      injection Ha as <-. exists d, u, k.
      split; [left; reflexivity |]. repeat split; try assumption; reflexivity.
    + destruct (IH acc Hin) as (d & u & k & Hd & H). exists d, u, k.
      split; [right; exact Hd | exact H].
  - destruct (IH acc Hin) as (d & u & k & Hd & H). exists d, u, k.
    split; [right; exact Hd | exact H].
Qed.




Lemma delimited_account_none :
  forall part : pystr,
    has_char 35 part = false -> delimited_account part = None.
Proof.
  intros part H. unfold delimited_account.
  rewrite (has_char_strip 35 part H). reflexivity.
Qed.

Lemma keep_all_none :
  forall (A B : Type) (f : A -> option B) (l : list A),
    Forall (fun x => f x = None) l -> keep f l = [].
Proof.
  intros A B f l H. induction H as [| x r Hx _ IH]; [reflexivity |].
  cbn [keep]. rewrite Hx. exact IH.
Qed.

Lemma delimited_accounts_no_hash :
  forall s : pystr, has_char 35 s = false -> delimited_accounts s = [].
Proof.
  intros s H. unfold delimited_accounts. apply keep_all_none.
  eapply Forall_impl; [| apply (split_on_pieces 35 44 s H)].
  intros part Hp. apply delimited_account_none. exact Hp.
Qed.



Lemma delimited_account_pair :
  forall u k : pystr,
    has_char 35 u = false ->
    delimited_account (u ++ 35 :: k) = Some (pair_account (strip u) (strip k)).
Proof.
  intros u k Hu. unfold delimited_account.
  rewrite (strip_around u k 35 eq_refl).
  rewrite has_char_app. cbn [has_char existsb N.eqb Pos.eqb orb].
  rewrite orb_true_r.
  rewrite (split_first_app 35 _ _ (has_char_lstrip 35 u Hu)).
  rewrite strip_lstrip, strip_rstrip. reflexivity.
Qed.



(* ================================================================== *)
(** * Theorems: the user id of a session cookie *)

Section Matching.

Context {A : Type}.

Lemma plus_more_sound :
  forall (f : N -> bool) (s : pystr) (k : pystr -> option A) (a : A),
    plus_more f s k = Some a ->
    exists taken rest : pystr,
      s = taken ++ rest
      /\ Forall (fun x => f x = true) taken
      /\ k rest = Some a.
Proof.
  intros f. induction s as [| x r IH]; intros k a H.
  - exists [], []. cbn in H. repeat split; [constructor | exact H].
  - cbn [plus_more] in H. destruct (f x) eqn:Hx.
    + destruct (plus_more f r k) as [a' |] eqn:Hmore.
      * injection H as ->.
        destruct (IH k a Hmore) as (taken & rest & -> & Hall & Hk).
        exists (x :: taken), rest. repeat split; [| exact Hk].
        constructor; assumption.
      * exists [], (x :: r). repeat split; [constructor | exact H].
    + exists [], (x :: r). repeat split; [constructor | exact H].
Qed.

Lemma match_items_sound :
  forall (items : list regex_item) (s : pystr) (k : pystr -> option A)
         (a : A),
    match_items items s k = Some a ->
    exists consumed rest : pystr, s = consumed ++ rest /\ k rest = Some a.
Proof.
  induction items as [| item items IH]; intros s k a H.
  - exists [], s. split; [reflexivity | exact H].
  - destruct item as [c | f | f]; cbn [match_items] in H;
      destruct s as [| x r]; try discriminate H.
    + destruct (matches_ignore_case c x); [| discriminate H].
      destruct (IH r k a H) as (consumed & rest & -> & Hk).
      exists (x :: consumed), rest. split; [reflexivity | exact Hk].
    + destruct (f x); [| discriminate H].
      destruct (IH r k a H) as (consumed & rest & -> & Hk).
      exists (x :: consumed), rest. split; [reflexivity | exact Hk].
    + destruct (f x); [| discriminate H].
      destruct (plus_more_sound f r _ a H) as (taken & rest & -> & _ & Hk).
      destruct (IH rest k a Hk) as (consumed & rest' & -> & Hk').
      exists (x :: taken ++ consumed), rest'.
      split; [| exact Hk']. cbn [app]. now rewrite <- app_assoc.
Qed.

End Matching.

Lemma firstn_prefix :
  forall (g rest : pystr),
    firstn (List.length (g ++ rest) - List.length rest) (g ++ rest) = g.
Proof.
  intros g rest. rewrite length_app, Nat.add_sub.
  rewrite firstn_app, Nat.sub_diag, firstn_all. cbn [firstn].
  apply app_nil_r.
Qed.

(** What a group [(f+)] captures: a non-empty run of the class, at the
    head of the text it is matched on. *)
Lemma group_sound :
  forall (f : N -> bool) (s1 g : pystr),
    match_items [RPlus f] s1
      (fun s2 => Some (firstn (List.length s1 - List.length s2) s1))
    = Some g ->
    g <> [] /\ Forall (fun x => f x = true) g /\ exists rest, s1 = g ++ rest.
Proof.
  intros f s1 g H. cbn [match_items] in H.
  destruct s1 as [| x r]; [discriminate H |].
  destruct (f x) eqn:Hx; [| discriminate H].
  destruct (plus_more_sound f r _ g H) as (taken & rest & -> & Hall & Hk).
  change (x :: taken ++ rest) with ((x :: taken) ++ rest) in Hk.
  rewrite firstn_prefix in Hk. injection Hk as <-.
  split; [discriminate |]. split; [constructor; assumption |].
  exists rest. reflexivity.
Qed.

Lemma includes_cons :
  forall (x : N) (g s : pystr), includes g s -> includes g (x :: s).
Proof.
  intros x g s (pre & post & ->). exists (x :: pre), post. reflexivity.
Qed.

Lemma match_at_sound :
  forall (p : pattern) (f : N -> bool) (s g : pystr),
    pat_group p = [RPlus f] ->
    match_at p s = Some g ->
    g <> [] /\ Forall (fun x => f x = true) g /\ includes g s.
Proof.
  intros p f s g Hgroup H. unfold match_at in H. rewrite Hgroup in H.
  destruct (match_items_sound _ _ _ _ H) as (consumed & s1 & -> & Hg).
  destruct (group_sound f s1 g Hg) as (Hne & Hall & rest & ->).
  split; [exact Hne |]. split; [exact Hall |].
  exists consumed, rest. reflexivity.
Qed.

Lemma re_search_sound :
  forall (p : pattern) (f : N -> bool) (s g : pystr),
    pat_group p = [RPlus f] ->
    re_search p s = Some g ->
    g <> [] /\ Forall (fun x => f x = true) g /\ includes g s.
Proof.
  intros p f s g Hgroup. induction s as [| x r IH]; intros H.
  - cbn [re_search] in H. destruct (match_at p []) eqn:Hm; [| discriminate H].
    injection H as ->. exact (match_at_sound p f [] g Hgroup Hm).
  - cbn [re_search] in H. destruct (match_at p (x :: r)) eqn:Hm.
    + injection H as ->. exact (match_at_sound p f _ g Hgroup Hm).
    + destruct (IH H) as (Hne & Hall & Hin).
      split; [exact Hne |]. split; [exact Hall |].
      apply includes_cons. exact Hin.
Qed.

(** The loop over the patterns returns the group of the first pattern,
    in the order of the list, that is found in the text. *)
Lemma first_match_spec :
  forall (ps : list pattern) (text : pystr),
    match first_match ps text with
    | None => Forall (fun p => re_search p text = None) ps
    | Some g =>
      exists (before : list pattern) (p : pattern) (after : list pattern),
        ps = before ++ p :: after
        /\ Forall (fun q => re_search q text = None) before
        /\ re_search p text = Some g
    end.
Proof.
  induction ps as [| p rest IH]; intros text; cbn [first_match].
  - constructor.
  - destruct (re_search p text) as [g |] eqn:Hp.
    + exists [], p, rest. repeat split; [constructor | exact Hp].
    + specialize (IH text). destruct (first_match rest text) as [g |].
      * destruct IH as (before & q & after & -> & Hnone & Hq).
        exists (p :: before), q, after.
        repeat split; [constructor; assumption | exact Hq].
      * constructor; assumption.
Qed.

Lemma patterns_capture_digits :
  Forall (fun p => pat_group p = [RPlus is_decimal]) patterns.
Proof. repeat constructor. Qed.

Lemma first_match_numeric :
  forall (text g : pystr),
    first_match patterns text = Some g -> numeric g /\ includes g text.
Proof.
  intros text g H. pose proof (first_match_spec patterns text) as Hspec.
  rewrite H in Hspec. destruct Hspec as (before & p & after & Hps & _ & Hp).
  assert (Hgroup : pat_group p = [RPlus is_decimal]).
  { pose proof patterns_capture_digits as Hall. rewrite Hps in Hall.
    apply Forall_app in Hall as [_ Hall]. now inversion Hall. }
  destruct (re_search_sound p is_decimal text g Hgroup Hp) as (Hne & Hd & Hin).
  split; [split; assumption | exact Hin].
Qed.

(** The derivation returns for every value, text or not. *)
Lemma extract_user_id_returns :
  forall v : pyval,
    exists r : option pystr, _extract_user_id_from_session v = Ok r.
Proof.
  intros v. unfold _extract_user_id_from_session, try_except.
  destruct (extract_user_id_body v) as [r | e]; eexists; reflexivity.
Qed.

(** C6.  For every session token the derivation returns, without
    raising: when the token with [==] appended does not decode as
    base64 it returns no identifier; when it decodes, the bytes are read
    as UTF-8 with ill-formed parts dropped, and the result is the group
    of the first pattern, in the order of the list, that occurs in that
    text (a non-empty run of decimal digits of the text), or no
    identifier when none occurs. *)
Theorem extract_user_id_total :
  forall token : pystr,
    exists r : option pystr,
      _extract_user_id_from_session (PStr token) = Ok r
      /\ match b64decode (token ++ py "==") with
         | Raise _ => r = None
         | Ok decoded =>
           r = first_match patterns (utf8_decode_ignore decoded)
           /\ match r with
              | None =>
                Forall (fun p =>
                          re_search p (utf8_decode_ignore decoded) = None)
                       patterns
              | Some g =>
                numeric g
                /\ includes g (utf8_decode_ignore decoded)
                /\ exists (before : list pattern) (p : pattern)
                          (after : list pattern),
                    patterns = before ++ p :: after
                    /\ Forall (fun q =>
                                 re_search q (utf8_decode_ignore decoded)
                                 = None) before
                    /\ re_search p (utf8_decode_ignore decoded) = Some g
              end
         end.
Proof.
  intros token.
  unfold _extract_user_id_from_session, extract_user_id_body, try_except.
  cbn [add_padding bind].
  destruct (b64decode (token ++ py "==")) as [decoded | e].
  - cbn [bind]. eexists. split; [reflexivity |]. split; [reflexivity |].
    pose proof (first_match_spec patterns (utf8_decode_ignore decoded)) as H.
    destruct (first_match patterns (utf8_decode_ignore decoded)) as [g |] eqn:Hg.
    + destruct (first_match_numeric _ _ Hg) as [Hnum Hin].
      split; [exact Hnum |]. split; [exact Hin | exact H].
    + exact H.
  - cbn [bind]. exists None. split; reflexivity.
Qed.

(** The token of the source's comment: [linuxdo_988] decodes to 988; a
    token with one character too many does not decode and gives none. *)
Example extract_user_id_examples :
  _extract_user_id_from_session (PStr (py "eyJ1IjoibGludXhkb185ODgifQ"))
  = Ok (Some (py "988"))
  /\ b64decode (py "eyJ1IjoibGludXhkb185ODgifQ==")
     = Ok (bytes_of_string (String (ascii_of_N 123) (String (ascii_of_N 34)
            (String (ascii_of_N 117) (String (ascii_of_N 34)
            (String (ascii_of_N 58) (String (ascii_of_N 34)
            "linuxdo_988"%string))))))
          ++ [34; 125])
  /\ _extract_user_id_from_session (PStr (py "abcde")) = Ok None.
Proof. repeat split; vm_compute; reflexivity. Qed.

(* ================================================================== *)
(** * Theorems: the run over the accounts *)

Lemma io_bind_inv :
  forall (A B : Type) (c : io A) (k : A -> io B) (w w' : world)
         (r : result B),
    io_bind c k w = (r, w') ->
    (exists (a : A) (w1 : world), c w = (Ok a, w1) /\ k a w1 = (r, w'))
    \/ (exists e : exn, c w = (Raise e, w') /\ r = Raise e).
Proof.
  intros A B c k w w' r H. unfold io_bind in H.
  destruct (c w) as [[a | e] w1].
  - left. exists a, w1. split; [reflexivity | exact H].
  - right. exists e. injection H as <- <-. split; reflexivity.
Qed.

Lemma io_bind_ok :
  forall (A B : Type) (c : io A) (k : A -> io B) (w w1 : world) (a : A),
    c w = (Ok a, w1) -> io_bind c k w = k a w1.
Proof. intros A B c k w w1 a H. unfold io_bind. rewrite H. reflexivity. Qed.

Lemma get_user_info_run :
  forall (c : client) (w : world),
    get_user_info c w
    = (Ok match profile_answer
                  (respond w (trace w) (api_request c GET "/api/user/self" []))
          with
          | Ok (v, uid) => (v, adopt c uid)
          | Raise _ => (PNone, c)
          end,
       sent w (api_request c GET "/api/user/self" [])).
Proof. reflexivity. Qed.

Lemma checkin_run :
  forall (c : client) (w : world),
    checkin c w
    = (Ok (checkin_result_of (respond w (trace w) (checkin_request c))),
       sent w (checkin_request c)).
Proof. reflexivity. Qed.

Lemma get_checkin_history_run :
  forall (c : client) (w : world),
    get_checkin_history c w
    = (Ok match history_of
                  (respond w (trace w)
                     (api_request c GET "/api/user/checkin"
                                  [(py "month", month_now w (trace w))]))
          with
          | Ok v => v
          | Raise _ => PNone
          end,
       sent w (api_request c GET "/api/user/checkin"
                           [(py "month", month_now w (trace w))])).
Proof. reflexivity. Qed.

Ltac io_inv H :=
  let a := fresh "a" in
  let w1 := fresh "w" in
  let e := fresh "e" in
  let Hs := fresh "Hstep" in
  apply io_bind_inv in H;
  destruct H as [(a & w1 & Hs & H) | (e & Hs & H)]; [| discriminate H].

Ltac lift_inv H :=
  unfold io_lift in H; injection H as H <-.

Lemma label_unfold :
  forall (i : nat) (acc : account),
    (if truthy match lookup (py "name") acc with
               | Some x => x
               | None => PNone
               end
     then match lookup (py "name") acc with
          | Some x => x
          | None => PNone
          end
     else PStr (py "账号" ++ N_to_pystr (N.of_nat i)))
    = label i acc.
Proof.
  intros i acc. unfold label.
  destruct (lookup (py "name") acc); reflexivity.
Qed.

(** An iteration that completes appends one entry, under the label of
    the account, and counts it once, as a success or as a failure. *)
Lemma process_account_shape :
  forall (i : nat) (acc : account) (st st' : run_state) (w w' : world),
    process_account i acc st w = (Ok st', w') ->
    exists (ok : bool) (msg quota count : pyval),
      st' = mk_state
              (if ok then S (success_count st) else success_count st)
              (if ok then fail_count st else S (fail_count st))
              (checkin_results st
                 ++ [account_result (label i acc) ok msg quota count]).
Proof.
  intros i acc st st' w w' H. unfold process_account in H.
  io_inv H. io_inv H. io_inv H. io_inv H. io_inv H.
  lift_inv Hstep3. subst a3. rewrite label_unfold in H.
  io_inv H. io_inv H.
  match type of H with
  | context [let '(_, _) := ?uc in _] => destruct uc as [user_info c]
  end.
  io_inv H. io_inv H.
  match type of H with
  | context [if success ?r then _ else _] => destruct (success r)
  end.
  - io_inv H. io_inv H. io_inv H.
    unfold io_ret in H. injection H as <- <-.
    exists true. eexists. eexists. eexists. reflexivity.
  - unfold io_ret in H. injection H as <- <-.
    exists false. eexists. eexists. eexists. reflexivity.
Qed.

Lemma succeeded_entry :
  forall (name msg quota count : pyval) (ok : bool),
    succeeded (account_result name ok msg quota count) = ok.
Proof. reflexivity. Qed.

Lemma entry_name_entry :
  forall (name msg quota count : pyval) (ok : bool),
    entry_name (account_result name ok msg quota count) = name.
Proof. reflexivity. Qed.

(** The loop, when it completes: one entry per account, in the order of
    the accounts, each counted once. *)
Lemma run_accounts_entries :
  forall (accounts : list account) (i : nat) (st st' : run_state)
         (w w' : world),
    run_accounts i accounts st w = (Ok st', w') ->
    exists entries : list pyval,
      checkin_results st' = checkin_results st ++ entries
      /\ map entry_name entries = labels i accounts
      /\ success_count st'
         = (success_count st + List.length (filter succeeded entries))%nat
      /\ fail_count st'
         = (fail_count st
            + List.length (filter (fun e => negb (succeeded e)) entries))%nat.
Proof.
  induction accounts as [| acc rest IH]; intros i st st' w w' H.
  - cbn [run_accounts] in H. unfold io_ret in H. injection H as <- <-.
    exists []. rewrite app_nil_r. cbn. repeat split; lia.
  - cbn [run_accounts] in H. io_inv H.
    destruct (process_account_shape _ _ _ _ _ _ Hstep)
      as (ok & msg & quota & count & ->).
    destruct (IH _ _ _ _ _ H) as (entries & Hres & Hnames & Hs & Hf).
    cbn [checkin_results success_count fail_count] in Hres, Hs, Hf.
    exists (account_result (label i acc) ok msg quota count :: entries).
    split; [rewrite Hres, <- app_assoc; reflexivity |].
    split; [cbn [map labels]; rewrite entry_name_entry, Hnames; reflexivity |].
    cbn [filter]. rewrite succeeded_entry.
    destruct ok; cbn [negb List.length]; lia.
Qed.

Lemma labels_length :
  forall (accounts : list account) (i : nat),
    List.length (labels i accounts) = List.length accounts.
Proof.
  induction accounts as [| acc rest IH]; intros i; [reflexivity |].
  cbn [labels List.length]. now rewrite IH.
Qed.

Lemma filter_split_length :
  forall (A : Type) (f : A -> bool) (l : list A),
    (List.length (filter f l)
     + List.length (filter (fun x => negb (f x)) l))%nat
    = List.length l.
Proof.
  intros A f l. induction l as [| x r IH]; [reflexivity |].
  cbn [filter]. destruct (f x); cbn [negb List.length]; lia.
Qed.

Lemma no_success_iff :
  forall (A : Type) (f : A -> bool) (l : list A),
    List.length (filter (fun x => negb (f x)) l) = List.length l
    <-> existsb f l = false.
Proof.
  intros A f l. pose proof (filter_split_length A f l) as Hsplit.
  split; intros H.
  - assert (Hz : List.length (filter f l) = 0%nat) by lia.
    apply length_zero_iff_nil in Hz.
    destruct (existsb f l) eqn:He; [| reflexivity].
    apply existsb_exists in He as (x & Hin & Hx).
    assert (Hx' : In x (filter f l)) by (apply filter_In; tauto).
    rewrite Hz in Hx'. contradiction.
  - assert (Hz : filter f l = []).
    { destruct (filter f l) as [| x r] eqn:Hf; [reflexivity |].
      assert (Hx : In x (filter f l)) by (rewrite Hf; left; reflexivity).
      apply filter_In in Hx as [Hin Hx].
      assert (He : existsb f l = true) by (apply existsb_exists; eauto).
      congruence. }
    rewrite Hz in Hsplit. cbn in Hsplit. lia.
Qed.

(** The counters of a completed run. *)
Lemma run_accounts_counters :
  forall (accounts : list account) (st : run_state) (w w' : world),
    run_accounts 1 accounts (mk_state 0 0 []) w = (Ok st, w') ->
    (success_count st + fail_count st)%nat = List.length accounts
    /\ List.length (checkin_results st) = List.length accounts
    /\ map entry_name (checkin_results st) = labels 1 accounts
    /\ success_count st = List.length (filter succeeded (checkin_results st))
    /\ fail_count st
       = List.length (filter (fun e => negb (succeeded e))
                             (checkin_results st)).
Proof.
  intros accounts st w w' H.
  destruct (run_accounts_entries _ _ _ _ _ _ H)
    as (entries & Hres & Hnames & Hs & Hf).
  cbn [checkin_results success_count fail_count app] in Hres, Hs, Hf.
  rewrite Hres.
  assert (Hlen : List.length entries = List.length accounts).
  { rewrite <- (length_map entry_name entries), Hnames. apply labels_length. }
  pose proof (filter_split_length _ succeeded entries).
  repeat split; try assumption; lia.
Qed.

Lemma new_client_text :
  forall (u : pystr) (session_cookie uid cf_clearance : pyval),
    exists c : client,
      new_client (PStr u) session_cookie uid cf_clearance = Ok c.
Proof.
  intros u session_cookie uid cf_clearance. unfold new_client.
  destruct (truthy uid); [eexists; reflexivity |].
  destruct (extract_user_id_returns session_cookie) as [r ->]. cbn [bind].
  destruct r as [d |]; [destruct (truthy (PStr d)) |]; eexists; reflexivity.
Qed.

Lemma no_raise_ok :
  forall (A : Type) (r : result A),
    no_raise r = true -> exists a : A, r = Ok a.
Proof. intros A [a | e] H; [exists a; reflexivity | discriminate H]. Qed.

(** On an addressable account and a network whose answers are benign,
    an iteration completes, whatever the check-in gives. *)
Lemma process_account_total :
  forall (i : nat) (acc : account) (st : run_state) (w : world),
    addressable acc = true ->
    (forall tr rq, benign (respond w tr rq) = true) ->
    exists (st' : run_state) (w' : world),
      process_account i acc st w = (Ok st', w')
      /\ respond w' = respond w.
Proof.
  intros i acc st w Hacc Hnet. unfold addressable in Hacc.
  destruct (lookup (py "url") acc) as [[| | | | u | |] |] eqn:Hurl;
    try discriminate Hacc.
  destruct (lookup (py "session") acc) as [k |] eqn:Hsession;
    [| discriminate Hacc].
  unfold process_account, py_item, py_get.
  rewrite Hurl, Hsession.
  unfold io_bind, io_lift, io_ret. cbv beta iota.
  destruct (new_client_text u k
              match lookup (py "user_id") acc with
              | Some x => x
              | None => PNone
              end
              match lookup (py "cf_clearance") acc with
              | Some x => x
              | None => PNone
              end) as [c ->].
  rewrite get_user_info_run.
  set (rq1 := api_request c GET "/api/user/self" []).
  pose proof (Hnet (trace w) rq1) as Hb1.
  unfold benign in Hb1. apply andb_prop in Hb1 as [Hb1 _].
  apply andb_prop in Hb1 as [Hb1 _].
  set (o1 := respond w (trace w) rq1) in *.
  assert (Hgo : forall (user_info : pyval) (c' : client),
             no_raise (if truthy user_info then masked_username user_info
                       else Ok []) = true ->
             exists (st' : run_state) (w' : world),
               match (if truthy user_info then masked_username user_info
                      else Ok [], sent w rq1) with
               | (Ok _, w1) =>
                 match checkin c' w1 with
                 | (Ok result, w2) =>
                   (if success result
                    then
                      fun w3 =>
                        match (if truthy (quota_awarded result)
                               then format_quota (quota_awarded result)
                               else Ok [], w3) with
                        | (Ok _, w4) =>
                          match get_checkin_history c' w4 with
                          | (Ok history, w5) =>
                            match (monthly_count history, w5) with
                            | (Ok checkin_count, w6) =>
                              (Ok (mk_state (S (success_count st))
                                     (fail_count st)
                                     (checkin_results st
                                        ++ [account_result
                                              (label i acc) true
                                              (message result)
                                              (quota_awarded result)
                                              checkin_count])), w6)
                            | (Raise e, w6) => (Raise e, w6)
                            end
                          | (Raise e, w5) => (Raise e, w5)
                          end
                        | (Raise e, w4) => (Raise e, w4)
                        end
                    else
                      fun w3 =>
                        (Ok (mk_state (success_count st) (S (fail_count st))
                               (checkin_results st
                                  ++ [account_result (label i acc) false
                                        (message result) PNone PNone])), w3))
                     w2
                 | (Raise e, w2) => (Raise e, w2)
                 end
               | (Raise e, w1) => (Raise e, w1)
               end = (Ok st', w')
               /\ respond w' = respond w).
  { intros user_info c' Hshow.
    destruct (no_raise_ok _ _ Hshow) as [masked ->].
    rewrite checkin_run.
    set (w1 := sent w rq1). set (rq2 := checkin_request c').
    pose proof (Hnet (trace w1) rq2) as Hb2.
    unfold benign in Hb2. apply andb_prop in Hb2 as [Hb2 _].
    apply andb_prop in Hb2 as [_ Hb2].
    change (respond w (trace w1) rq2) with (respond w1 (trace w1) rq2) in Hb2.
    set (o2 := respond w1 (trace w1) rq2) in *.
    destruct (success (checkin_result_of o2)).
    - cbn [negb orb] in Hb2. destruct (no_raise_ok _ _ Hb2) as [shown ->].
      rewrite get_checkin_history_run.
      set (w2 := sent w1 rq2).
      set (rq3 := api_request c' GET "/api/user/checkin"
                              [(py "month", month_now w2 (trace w2))]).
      pose proof (Hnet (trace w2) rq3) as Hb3.
      unfold benign in Hb3. apply andb_prop in Hb3 as [_ Hb3].
      change (respond w (trace w2) rq3) with (respond w2 (trace w2) rq3) in Hb3.
      destruct (no_raise_ok _ _ Hb3) as [count ->].
      eexists. eexists. split; reflexivity.
    - eexists. eexists. split; reflexivity. }
  rewrite label_unfold.
  destruct (profile_answer o1) as [[user_info uid] | e1];
    apply Hgo; exact Hb1.
Qed.

Lemma run_accounts_total :
  forall (accounts : list account) (i : nat) (st : run_state) (w : world),
    forallb addressable accounts = true ->
    (forall tr rq, benign (respond w tr rq) = true) ->
    exists (st' : run_state) (w' : world),
      run_accounts i accounts st w = (Ok st', w')
      /\ respond w' = respond w.
Proof.
  induction accounts as [| acc rest IH]; intros i st w Hacc Hnet.
  - exists st, w. split; reflexivity.
  - cbn [forallb] in Hacc. apply andb_prop in Hacc as [Ha Hrest].
    destruct (process_account_total i acc st w Ha Hnet)
      as (st1 & w1 & Hstep & Hw1).
    destruct (IH (S i) st1 w1 Hrest) as (st' & w' & Hrun & Hw').
    { intros tr rq. rewrite Hw1. apply Hnet. }
    exists st', w'. split; [| congruence].
    cbn [run_accounts]. rewrite (io_bind_ok _ _ _ _ _ _ _ Hstep). exact Hrun.
Qed.


Lemma mixed_world_benign :
  forall tr rq, benign (respond mixed_world tr rq) = true.
Proof.
  intros tr rq. unfold mixed_world, respond.
  destruct (req_method rq);
    repeat match goal with
           | |- context [if ?b then _ else _] => destruct b
           end;
    vm_compute; reflexivity.
Qed.


Example run_accounts_mixed_counts :
  match run_accounts 1 mixed_accounts (mk_state 0 0 []) mixed_world with
  | (Ok st, w') =>
    success_count st = 1%nat /\ fail_count st = 2%nat
    /\ map succeeded (checkin_results st) = [true; false; false]
    /\ List.length (trace w') = 7%nat
  | (Raise _, _) => False
  end.
Proof. vm_compute. repeat split. Qed.

(* ================================================================== *)
(** * Theorems: the exit status *)

Lemma all_failed_test :
  forall (accounts : list account) (st : run_state) (w w' : world),
    run_accounts 1 accounts (mk_state 0 0 []) w = (Ok st, w') ->
    Nat.eqb (fail_count st) (List.length accounts)
    = negb (existsb succeeded (checkin_results st)).
Proof.
  intros accounts st w w' H.
  destruct (run_accounts_counters accounts st w w' H)
    as (_ & Hlen & _ & _ & Hfail).
  pose proof (no_success_iff _ succeeded (checkin_results st)) as Hiff.
  destruct (existsb succeeded (checkin_results st)); cbn [negb].
  - apply Nat.eqb_neq. intros Heq.
    assert (true = false) by (apply Hiff; lia). discriminate.
  - apply Nat.eqb_eq. rewrite Hfail, <- Hlen. apply Hiff. reflexivity.
Qed.

(** C2, as the code has it.  When the process ends by [sys.exit] or by
    the end of [main]: with no account list in the environment, or one
    that gives no account (it cannot be read, or it is a list without a
    usable element, the empty list included), the status is 1 and no
    request was sent; otherwise the loop ran over all accounts, and the
    status is 0 when at least one entry succeeded and 1 when none did. *)
Theorem exit_status_policy :
  forall (env : environ) (w w' : world) (code : Z),
    main env w = (Exited code, w') ->
    (env_text (NEWAPI_ACCOUNTS env) = [] /\ code = 1%Z /\ w' = w)
    \/ (env_text (NEWAPI_ACCOUNTS env) <> []
        /\ parse_accounts (env_text (NEWAPI_ACCOUNTS env)) = Ok []
        /\ code = 1%Z /\ w' = w)
    \/ exists (accounts : list account) (st : run_state) (w1 : world),
        accounts <> []
        /\ parse_accounts (env_text (NEWAPI_ACCOUNTS env)) = Ok accounts
        /\ run_accounts 1 accounts (mk_state 0 0 []) w = (Ok st, w1)
        /\ List.length (checkin_results st) = List.length accounts
        /\ code = if existsb succeeded (checkin_results st)
                  then 0%Z else 1%Z.
Proof.
  intros env w w' code H. unfold main in H.
  destruct (main_body env w) as [[c | e] w2] eqn:Hbody; [| discriminate H].
  injection H as -> ->. unfold main_body in Hbody.
  destruct (env_text (NEWAPI_ACCOUNTS env)) as [| ch s] eqn:Hs.
  - left. cbn in Hbody. unfold io_ret in Hbody. injection Hbody as <- <-.
    repeat split.
  - right. cbn [truthy List.length Nat.eqb negb] in Hbody.
    apply io_bind_inv in Hbody.
    destruct Hbody as [(accounts & w0 & Hparse & Hbody) | (e & _ & He)];
      [| discriminate He].
    unfold io_lift in Hparse. injection Hparse as Hparse <-.
    destruct accounts as [| acc rest].
    + left. unfold io_ret in Hbody. injection Hbody as <- <-.
      repeat split; [discriminate | exact Hparse].
    + right.
      apply io_bind_inv in Hbody.
      destruct Hbody as [(st & w1 & Hrun & Hbody) | (e & _ & He)];
        [| discriminate He].
      apply io_bind_inv in Hbody.
      destruct Hbody as [(u & w3 & _ & Hbody) | (e & _ & He)];
        [| discriminate He].
      exists (acc :: rest), st, w1.
      split; [discriminate |]. split; [exact Hparse |].
      split; [exact Hrun |].
      split; [apply (run_accounts_counters _ _ _ _ Hrun) |].
      rewrite (all_failed_test _ _ _ _ Hrun) in Hbody.
      destruct (existsb succeeded (checkin_results st)); cbn [negb] in Hbody;
        unfold io_ret in Hbody; injection Hbody as <- _; reflexivity.
Qed.

(** The list [[]] is valid JSON and holds no account: no request is
    sent, and the status is 1. *)
Lemma empty_list_exits_1 :
  json_loads (py "[]") = Ok (PList [])
  /\ parse_accounts (py "[]") = Ok []
  /\ main (plain_environ (py "[]")) quiet_world = (Exited 1, quiet_world)
  /\ exit_status (fst (main (plain_environ (py "[]")) quiet_world)) = 1%Z.
Proof. repeat split; vm_compute; reflexivity. Qed.

(** The three accounts of [mixed_world], one of which checks in: the
    run ends with status 0. *)
Lemma exit_status_mixed :
  main (plain_environ mixed_config) mixed_world
  = (Exited 0, snd (main (plain_environ mixed_config) mixed_world))
  /\ exists (accounts : list account) (st : run_state) (w1 : world),
      accounts <> []
      /\ parse_accounts
           (env_text (NEWAPI_ACCOUNTS (plain_environ mixed_config)))
         = Ok accounts
      /\ run_accounts 1 accounts (mk_state 0 0 []) mixed_world = (Ok st, w1)
      /\ List.length (checkin_results st) = List.length accounts
      /\ 0%Z = if existsb succeeded (checkin_results st) then 0%Z else 1%Z.
Proof.
  assert (Hrun : main (plain_environ mixed_config) mixed_world
                 = (Exited 0,
                    snd (main (plain_environ mixed_config) mixed_world)))
    by (vm_compute; reflexivity).
  split; [exact Hrun |].
  pose proof (exit_status_policy _ _ _ _ Hrun) as Hpolicy.
  destruct Hpolicy as [(_ & H & _) | [(_ & _ & H & _) | H]].
  - discriminate H.
  - discriminate H.
  - exact H.
Defined.

Example exit_status_examples :
  exit_status (fst (main (plain_environ mixed_config) mixed_world)) = 0%Z
  /\ exit_status
       (fst (main (plain_environ (py "https://b.example#token-b")) mixed_world))
     = 1%Z
  /\ exit_status (fst (main (mk_environ None None None [] None) mixed_world))
     = 1%Z.
Proof. repeat split; vm_compute; reflexivity. Qed.

(* ================================================================== *)
(** * Theorems: where the hypotheses of the run hold *)

Lemma delimited_account_addressable :
  forall (part : pystr) (acc : account),
    delimited_account part = Some acc -> addressable acc = true.
Proof.
  intros part acc H. unfold delimited_account in H.
  destruct (has_char 35 (strip part)); [| discriminate H].
  destruct (split_first 35 (strip part)) as [[u k] |]; [| discriminate H].
  injection H as <-. reflexivity.
Qed.

(** Every account of the delimited form is addressable. *)
Lemma delimited_accounts_addressable :
  forall s : pystr, forallb addressable (delimited_accounts s) = true.
Proof.
  intros s. unfold delimited_accounts.
  induction (split_on 44 s) as [| part rest IH]; [reflexivity |].
  cbn [keep]. destruct (delimited_account part) as [acc |] eqn:Hacc.
  - cbn [forallb]. rewrite (delimited_account_addressable part acc Hacc).
    exact IH.
  - exact IH.
Qed.

Lemma handler_keeps_success :
  forall (e : exn) (r : checkin_result),
    success (checkin_handler e r) = success r.
Proof.
  intros e r. unfold checkin_handler.
  destruct (is_timeout e); [reflexivity |].
  destruct (is_request_exception e); reflexivity.
Qed.

(** An answer that does not claim success, whatever else it is (an
    exception of the transport, a status other than 200, a body that is
    no JSON or no object, an object whose [success] is not truthy), is
    benign: only the payload of a success can make the display code of
    [main] raise. *)
Lemma benign_unless_success :
  forall o : http_outcome, claims_success o = false -> benign o = true.
Proof.
  intros [status text | e] H.
  - unfold claims_success in H. unfold benign.
    unfold profile_answer, checkin_result_of, checkin_on_response, history_of.
    destruct (status =? 401)%Z eqn:H401.
    + assert (H200 : (status =? 200)%Z = false).
      { apply Z.eqb_eq in H401. subst. reflexivity. }
      rewrite H200. reflexivity.
    + destruct (response_json text) as [data | e] eqn:Hjson.
      * destruct (status =? 200)%Z eqn:H200.
        -- cbn [andb] in H.
           destruct data as [| b | z | x | s | l | d];
             try reflexivity.
           unfold py_get, upd_bind, upd_eval, upd_set, bind.
           destruct (lookup (py "success") d) as [ok |] eqn:Hok.
           ++ rewrite H. destruct (lookup (py "message") d); reflexivity.
           ++ cbn [truthy].
              destruct (lookup (py "message") d); reflexivity.
        -- destruct data as [| b | z | x | s | l | d]; reflexivity.
      * destruct (is_json_decode_error e) eqn:Hcls.
        -- destruct (status =? 200)%Z; reflexivity.
        -- cbn [truthy no_raise andb].
           rewrite handler_keeps_success.
           destruct (status =? 200)%Z; reflexivity.
  - unfold benign. cbn [profile_answer truthy no_raise checkin_result_of
                          history_of andb].
    rewrite handler_keeps_success. reflexivity.
Qed.

(* ================================================================== *)
(** * Theorems: the Telegram notification *)

Lemma escape_markdown_cons :
  forall (c : N) (m : pystr),
    escape_markdown (c :: m)
    = (if has_char c escape_chars then [92; c] else [c]) ++ escape_markdown m.
Proof. reflexivity. Qed.

(** An escaped text never starts with a reserved character. *)
Lemma escape_markdown_head :
  forall (m : pystr) (c : N) (r : pystr),
    escape_markdown m = c :: r -> has_char c escape_chars = false.
Proof.
  intros [| x m] c r H; [discriminate H |].
  rewrite escape_markdown_cons in H.
  destruct (has_char x escape_chars) eqn:Hx.
  - injection H as <- _. reflexivity.
  - injection H as <- _. exact Hx.
Qed.

Lemma unescape_escape :
  forall m : pystr, unescape_markdown (escape_markdown m) = m.
Proof.
  induction m as [| c m IH]; [reflexivity |].
  rewrite escape_markdown_cons.
  destruct (has_char c escape_chars) eqn:Hc.
  - cbn [app unescape_markdown]. rewrite N.eqb_refl, Hc. cbn [andb].
    now rewrite IH.
  - cbn [app]. destruct (escape_markdown m) as [| x r] eqn:Hm.
    + destruct m as [| y m']; [reflexivity |].
      rewrite escape_markdown_cons in Hm.
      destruct (has_char y escape_chars); discriminate Hm.
    + change (unescape_markdown (c :: x :: r))
        with (if (c =? 92) && has_char x escape_chars
              then x :: unescape_markdown r
              else c :: unescape_markdown (x :: r)).
      rewrite (escape_markdown_head m x r Hm), andb_false_r.
      now rewrite IH.
Qed.

Lemma escape_markdown_length :
  forall m : pystr,
    List.length (escape_markdown m) = (List.length m + reserved_count m)%nat.
Proof.
  induction m as [| c m IH]; [reflexivity |].
  rewrite escape_markdown_cons, length_app, IH.
  unfold reserved_count. cbn [filter].
  destruct (has_char c escape_chars); cbn [List.length]; lia.
Qed.

Lemma escape_markdown_guarded :
  forall (m pre post : pystr) (c : N),
    escape_markdown m = pre ++ c :: post ->
    has_char c escape_chars = true ->
    exists pre' : pystr, pre = pre' ++ [92].
Proof.
  induction m as [| x m IH]; intros pre post c H Hc.
  - destruct pre; discriminate H.
  - rewrite escape_markdown_cons in H.
    destruct (has_char x escape_chars) eqn:Hx.
    + destruct pre as [| p0 pre].
      * injection H as <- _. vm_compute in Hc. discriminate Hc.
      * destruct pre as [| p1 pre].
        -- exists []. cbn [app] in H. injection H as <- _ _. reflexivity.
        -- cbn [app] in H. injection H as <- <- H.
           destruct (IH _ _ _ H Hc) as [pre' ->].
           exists (92 :: x :: pre'). reflexivity.
    + destruct pre as [| p0 pre].
      * cbn [app] in H. injection H as <- _. congruence.
      * cbn [app] in H. injection H as <- H.
        destruct (IH _ _ _ H Hc) as [pre' ->].
        exists (x :: pre'). reflexivity.
Qed.

(** X1.  The escaping of the Telegram text loses nothing and guards every
    reserved character: dropping the backslashes that stand before
    reserved characters gives the message back, the text grows by one
    character per reserved character, and wherever a reserved character
    stands in the escaped text, a backslash stands before it. *)
Theorem escape_markdown_round_trip :
  forall m : pystr,
    unescape_markdown (escape_markdown m) = m
    /\ List.length (escape_markdown m)
       = (List.length m + reserved_count m)%nat
    /\ forall (pre post : pystr) (c : N),
        escape_markdown m = pre ++ c :: post ->
        has_char c escape_chars = true ->
        ends_with [92] pre.
Proof.
  intros m. split; [apply unescape_escape |].
  split; [apply escape_markdown_length |].
  intros pre post c H Hc. unfold ends_with.
  exact (escape_markdown_guarded m pre post c H Hc).
Qed.

Lemma telegram_ok_spec :
  forall (status : Z) (text : pystr),
    match bind (response_json text)
               (fun answer => py_get answer (py "ok") PNone) with
    | Ok ok => truthy ok
    | Raise _ => false
    end = telegram_ok (Response status text).
Proof.
  intros status text. unfold telegram_ok.
  destruct (response_json text) as [[| b | z | x | s | l | d] | e];
    try reflexivity.
  cbn [bind py_get]. destruct (lookup (py "ok") d); reflexivity.
Qed.

(** X2.  [send_telegram_notification] never raises and sends at most
    one request.  With an empty bot token or an empty chat id it sends
    nothing; otherwise it sends the [sendMessage] call with the escaped
    text, once.  It returns [True] only when that call was made and the
    answer is a JSON object with a truthy [ok]: a transport failure or a
    body that is no JSON object gives [False]. *)
Theorem send_telegram_notification_outcome :
  forall (bot_token chat_id message : pystr) (w : world),
    exists (delivered : bool) (w' : world),
      send_telegram_notification bot_token chat_id message w
      = (Ok delivered, w')
      /\ trace w'
         = trace w
           ++ (if truthy (PStr bot_token) && truthy (PStr chat_id)
               then [telegram_request bot_token chat_id message]
               else [])
      /\ delivered
         = truthy (PStr bot_token) && truthy (PStr chat_id)
           && telegram_ok
                (respond w (trace w)
                   (telegram_request bot_token chat_id message)).
Proof.
  intros bot_token chat_id message w.
  destruct bot_token as [| t bot_token].
  { exists false, w. cbn [truthy List.length Nat.eqb negb andb].
    rewrite app_nil_r. repeat split. }
  destruct chat_id as [| c chat_id].
  { exists false, w. cbn [truthy List.length Nat.eqb negb andb].
    rewrite app_nil_r. repeat split. }
  cbn [truthy List.length Nat.eqb negb andb].
  unfold send_telegram_notification, io_bind, http, io_ret.
  destruct (respond w (trace w) (telegram_request (t :: bot_token)
                                   (c :: chat_id) message))
    as [status text | e] eqn:Ho.
  - rewrite (telegram_ok_spec status text). eexists. eexists.
    split; [reflexivity |]. split; reflexivity.
  - eexists. eexists. split; [reflexivity |]. split; reflexivity.
Qed.

(* ================================================================== *)
(** * Theorems: the report *)

Lemma count_success_filter :
  forall (results : list pyval) (n : nat),
    count_success results = Ok n ->
    n = List.length (filter succeeded results).
Proof.
  induction results as [| r rest IH]; intros n H.
  - injection H as <-. reflexivity.
  - cbn [count_success] in H. cbn [filter]. unfold succeeded.
    destruct (py_get r (py "success") PNone) as [s | e]; [| discriminate H].
    cbn [bind] in H.
    destruct (count_success rest) as [k | e]; [| discriminate H].
    cbn [bind] in H. injection H as <-. rewrite (IH k eq_refl).
    destruct (truthy s); reflexivity.
Qed.

Lemma account_lines_length :
  forall (results : list pyval) (i : nat) (lines : list pystr),
    account_lines i results = Ok lines ->
    List.length lines = List.length results.
Proof.
  induction results as [| r rest IH]; intros i lines H.
  - injection H as <-. reflexivity.
  - cbn [account_lines] in H.
    destruct (account_line i r) as [line | e]; [| discriminate H].
    cbn [bind] in H.
    destruct (account_lines (S i) rest) as [ls | e] eqn:Hrest;
      [| discriminate H].
    cbn [bind] in H. injection H as <-. cbn [List.length].
    now rewrite (IH _ _ Hrest).
Qed.

Lemma all_succeeded_iff :
  forall results : list pyval,
    (List.length results - List.length (filter succeeded results))%nat = 0%nat
    <-> forallb succeeded results = true.
Proof.
  intros results. pose proof (filter_split_length _ succeeded results) as Hs.
  split; intros H.
  - apply forallb_forall. intros x Hin.
    destruct (succeeded x) eqn:Hx; [reflexivity |].
    assert (Hf : In x (filter (fun e => negb (succeeded e)) results)).
    { apply filter_In. split; [exact Hin | now rewrite Hx]. }
    destruct (filter (fun e => negb (succeeded e)) results);
      [contradiction | cbn [List.length] in Hs; lia].
  - assert (Hz : filter (fun e => negb (succeeded e)) results = []).
    { destruct (filter (fun e => negb (succeeded e)) results) as [| x r] eqn:Hf;
        [reflexivity |].
      assert (Hx : In x (filter (fun e => negb (succeeded e)) results))
        by (rewrite Hf; left; reflexivity).
      apply filter_In in Hx as [Hin Hx].
      rewrite forallb_forall in H. rewrite (H x Hin) in Hx. discriminate Hx. }
    rewrite Hz in Hs. cbn [List.length] in Hs. lia.
Qed.

Lemma none_succeeded_iff :
  forall results : list pyval,
    List.length (filter succeeded results) = 0%nat
    <-> existsb succeeded results = false.
Proof.
  intros results.
  pose proof (filter_split_length _ succeeded results) as Hs.
  pose proof (no_success_iff _ succeeded results) as Hn.
  split; intros H.
  - apply Hn. lia.
  - apply Hn in H. lia.
Qed.

(** X3.  The report, when [format_telegram_message] returns one: five
    lines of heading, one line per entry in the order of the entries, an
    empty line and a tag.  The counts of the heading are the number of
    entries with a truthy [success] and the rest.  Marker and tag say
    "all succeeded" when no entry failed (also when there is no entry),
    "all failed" when some entry failed and none succeeded, "partly
    succeeded" otherwise. *)
Theorem format_telegram_message_shape :
  forall (results : list pyval) (time : pystr) (total : nat) (msg : pystr),
    format_telegram_message results time total = Ok msg ->
    exists (lines : list pystr) (status_emoji status_text : pystr),
      account_lines 1 results = Ok lines
      /\ List.length lines = List.length results
      /\ msg
         = join [10]
             ([ status_emoji ++ py " *NewAPI 签到报告*";
                [];
                py "⏰ 执行时间: `" ++ time ++ py "`";
                py "📊 总计: " ++ N_to_pystr (N.of_nat total)
                   ++ py " 个账号 | 成功 "
                   ++ N_to_pystr
                        (N.of_nat (List.length (filter succeeded results)))
                   ++ py " | 失败 "
                   ++ N_to_pystr
                        (N.of_nat
                           (List.length
                              (filter (fun e => negb (succeeded e)) results)));
                [] ]
              ++ lines ++ [ []; py "#" ++ status_text ])
      /\ (status_emoji, status_text)
         = (if forallb succeeded results then (py "✅", py "全部成功")
            else if existsb succeeded results then (py "⚠️", py "部分成功")
            else (py "❌", py "全部失败")).
Proof.
  intros results time total msg H. unfold format_telegram_message in H.
  destruct (count_success results) as [n | e] eqn:Hn; [| discriminate H].
  cbn [bind] in H. apply count_success_filter in Hn.
  pose proof (filter_split_length _ succeeded results) as Hsplit.
  pose proof (all_succeeded_iff results) as Hall.
  pose proof (none_succeeded_iff results) as Hnone.
  rewrite <- Hn in Hall, Hnone, Hsplit.
  assert (Hfail : (List.length results - n)%nat
                  = List.length (filter (fun e => negb (succeeded e)) results))
    by lia.
  destruct (account_lines 1 results) as [lines | e] eqn:Hlines.
  - exists lines.
    destruct (Nat.eqb (List.length results - n) 0) eqn:Hf.
    + apply Nat.eqb_eq in Hf. apply Hall in Hf as Hfa. rewrite Hfa.
      cbn [bind] in H. injection H as <-.
      exists (py "✅"), (py "全部成功").
      split; [reflexivity |].
      split; [exact (account_lines_length _ _ _ Hlines) |].
      split; [| reflexivity].
      rewrite <- Hn, <- Hfail. reflexivity.
    + apply Nat.eqb_neq in Hf.
      assert (Hfa : forallb succeeded results = false).
      { destruct (forallb succeeded results); [| reflexivity].
        exfalso. apply Hf. apply Hall. reflexivity. }
      rewrite Hfa.
      destruct (Nat.eqb n 0) eqn:Hs.
      * apply Nat.eqb_eq in Hs. apply Hnone in Hs as Hex. rewrite Hex.
        cbn [bind] in H. injection H as <-.
        exists (py "❌"), (py "全部失败").
        split; [reflexivity |].
        split; [exact (account_lines_length _ _ _ Hlines) |].
        split; [| reflexivity].
        rewrite <- Hn, <- Hfail. reflexivity.
      * apply Nat.eqb_neq in Hs.
        assert (Hex : existsb succeeded results = true).
        { destruct (existsb succeeded results); [reflexivity |].
          exfalso. apply Hs. apply Hnone. reflexivity. }
        rewrite Hex.
        cbn [bind] in H. injection H as <-.
        exists (py "⚠️"), (py "部分成功").
        split; [reflexivity |].
        split; [exact (account_lines_length _ _ _ Hlines) |].
        split; [| reflexivity].
        rewrite <- Hn, <- Hfail. reflexivity.
  - destruct (Nat.eqb (List.length results - n) 0);
      [| destruct (Nat.eqb n 0)]; discriminate H.
Qed.

(** The report of a run with one success and one failure. *)
Lemma format_telegram_message_mixed :
  exists msg : pystr,
    format_telegram_message
      [ account_result (PStr (py "a")) true (PStr (py "ok"))
                       (PInt 150000) (PInt 3);
        account_result (PStr (py "b")) false (PStr (py "HTTP 503: busy"))
                       PNone PNone ]
      (py "2024-01-01 08:00:00") 2
    = Ok msg
    /\ exists (lines : list pystr) (status_emoji status_text : pystr),
        account_lines 1
          [ account_result (PStr (py "a")) true (PStr (py "ok"))
                           (PInt 150000) (PInt 3);
            account_result (PStr (py "b")) false (PStr (py "HTTP 503: busy"))
                           PNone PNone ]
        = Ok lines
        /\ lines = [ py "✅ *a*: ok \(+150.00K\) 本月已签3天";
                     py "❌ *b*: `HTTP 503: busy`" ]
        /\ status_emoji = py "⚠️"
        /\ status_text = py "部分成功".
Proof.
  eexists. split; [vm_compute; reflexivity |].
  destruct (format_telegram_message_shape
              [ account_result (PStr (py "a")) true (PStr (py "ok"))
                               (PInt 150000) (PInt 3);
                account_result (PStr (py "b")) false
                               (PStr (py "HTTP 503: busy")) PNone PNone ]
              (py "2024-01-01 08:00:00") 2 _ ltac:(vm_compute; reflexivity))
    as (lines & emoji & text & Hlines & _ & _ & Hstatus).
  exists lines, emoji, text.
  split; [exact Hlines |].
  split; [vm_compute in Hlines; injection Hlines as <-; vm_compute;
          reflexivity |].
  vm_compute in Hstatus. injection Hstatus as -> ->.
  split; vm_compute; reflexivity.
Defined.

Lemma shorten_message_text :
  forall m : pystr,
    exists shown : pystr,
      shorten_message (PStr m) = Ok (PStr shown)
      /\ (List.length shown <= 50)%nat
      /\ ((List.length m <= 50)%nat -> shown = m)
      /\ ((50 < List.length m)%nat -> shown = firstn 47 m ++ py "...").
Proof.
  intros m. unfold shorten_message. cbn [py_len bind].
  destruct (Nat.ltb 50 (List.length m)) eqn:Hlen.
  - apply Nat.ltb_lt in Hlen. exists (slice_to 47 m ++ py "...").
    split; [reflexivity |]. split.
    + unfold slice_to. rewrite length_app, length_firstn.
      change (List.length (py "...")) with 3%nat. lia.
    + split; [lia | reflexivity].
  - apply Nat.ltb_ge in Hlen. exists m.
    split; [reflexivity |]. split; [exact Hlen |].
    split; [reflexivity | lia].
Qed.

(** X4.  The line of a failed account whose message is a text: the cross,
    the name in bold and the message in a code span.  The message is
    shown whole when it has at most 50 characters, otherwise as its first
    47 characters followed by three dots; what is shown never exceeds 50
    characters.  Quota and count play no part. *)
Theorem failed_line_message_bounded :
  forall (i : nat) (name quota count : pyval) (m : pystr),
    exists shown : pystr,
      account_line i (account_result name false (PStr m) quota count)
      = Ok (py "❌ *" ++ py_str name ++ py "*: `" ++ shown ++ py "`")
      /\ (List.length shown <= 50)%nat
      /\ ((List.length m <= 50)%nat -> shown = m)
      /\ ((50 < List.length m)%nat -> shown = firstn 47 m ++ py "...").
Proof.
  intros i name quota count m.
  destruct (shorten_message_text m) as (shown & Hs & Hlen & Hshort & Hlong).
  exists shown. split; [| tauto].
  unfold account_line.
  rewrite entry_get_name, entry_get_success. cbn [bind truthy].
  rewrite entry_get_message. cbn [bind]. rewrite Hs. reflexivity.
Qed.

Lemma account_lines_raise :
  forall (pre post : list pyval) (entry : pyval) (i : nat) (e : exn),
    account_line (i + List.length pre) entry = Raise e ->
    exists e' : exn, account_lines i (pre ++ entry :: post) = Raise e'.
Proof.
  induction pre as [| x pre IH]; intros post entry i e H.
  - cbn [List.length] in H. rewrite Nat.add_0_r in H.
    cbn [app account_lines]. rewrite H. exists e. reflexivity.
  - cbn [app account_lines].
    destruct (account_line i x) as [line | e0]; [| exists e0; reflexivity].
    cbn [bind].
    destruct (IH post entry (S i) e) as [e' ->].
    + cbn [List.length] in H. rewrite Nat.add_succ_r in H. exact H.
    + exists e'. reflexivity.
Qed.

(** X5.  A failed entry whose message has no length ([None], a number,
    a boolean: what [checkin] hands on when the service answers a
    refusal with such a [message]) makes [format_telegram_message] raise:
    [len(msg)] is taken before anything else is done with the message,
    and nothing catches the [TypeError].  No report is produced, whatever
    the other entries are. *)
Theorem format_telegram_message_unsized_message :
  forall (pre post : list pyval) (name msg quota count : pyval)
         (time : pystr) (total : nat),
    sized msg = false ->
    exists e : exn,
      format_telegram_message
        (pre ++ account_result name false msg quota count :: post) time total
      = Raise e.
Proof.
  intros pre post name msg quota count time total Hmsg.
  unfold format_telegram_message.
  destruct (count_success _) as [n | e]; [| exists e; reflexivity].
  cbn [bind].
  assert (Hline : exists e,
             account_line (1 + List.length pre)
                          (account_result name false msg quota count)
             = Raise e).
  { unfold account_line.
    rewrite entry_get_name, entry_get_success. cbn [bind truthy].
    rewrite entry_get_message. cbn [bind]. unfold shorten_message.
    destruct msg; try discriminate Hmsg; eexists; reflexivity. }
  destruct Hline as [e Hline].
  destruct (account_lines_raise pre post _ 1 e Hline) as [e' ->].
  exists e'.
  destruct (Nat.eqb _ 0); [| destruct (Nat.eqb n 0)]; reflexivity.
Qed.

(** A refusal whose message is null, as [checkin] reports it, and the
    report that cannot be formatted. *)
Lemma format_telegram_message_null_message :
  message (checkin_result_of
             (Response 200 (quoted "{'success': false, 'message': null}")))
  = PNone
  /\ sized PNone = false
  /\ exists e : exn,
      format_telegram_message
        ([ account_result (PStr (py "a")) true (PStr (py "ok"))
                          (PInt 150000) (PInt 3) ]
         ++ account_result (PStr (py "b")) false PNone PNone PNone :: [])
        (py "2024-01-01 08:00:00") 2
      = Raise e.
Proof.
  split; [vm_compute; reflexivity |].
  split; [reflexivity |].
  apply (format_telegram_message_unsized_message
           [ account_result (PStr (py "a")) true (PStr (py "ok"))
                            (PInt 150000) (PInt 3) ]
           [] (PStr (py "b")) PNone PNone PNone
           (py "2024-01-01 08:00:00") 2).
  reflexivity.
Defined.

(* ================================================================== *)
(** * Theorems: the instance and its three calls *)

Lemma handler_keeps_fields :
  forall (e : exn) (r : checkin_result),
    checkin_date (checkin_handler e r) = checkin_date r
    /\ quota_awarded (checkin_handler e r) = quota_awarded r.
Proof.
  intros e r. unfold checkin_handler.
  destruct (is_timeout e); [split; reflexivity |].
  destruct (is_request_exception e); split; reflexivity.
Qed.

Lemma profile_answer_unclaimed :
  forall (o : http_outcome) (c : client),
    claims_success o = false ->
    match profile_answer o with
    | Ok (v, uid) => (v, adopt c uid)
    | Raise _ => (PNone, c)
    end = (PNone, c).
Proof.
  intros [status text | e] c H; [| reflexivity].
  unfold claims_success in H. unfold profile_answer.
  destruct (status =? 401)%Z; [reflexivity |].
  destruct (response_json text) as [data | e].
  - destruct (status =? 200)%Z.
    + cbn [andb] in H.
      destruct data as [| b | z | x | s | l | d]; try reflexivity.
      cbn [py_get bind].
      destruct (lookup (py "success") d) as [ok |].
      * rewrite H. reflexivity.
      * reflexivity.
    + destruct data as [| b | z | x | s | l | d]; reflexivity.
  - destruct (is_json_decode_error e); reflexivity.
Qed.

(** X6.  [get_user_info] sends one GET to [/api/user/self] and, unless
    the answer is a response with status 200 whose body is a JSON object
    with a truthy [success], returns [None] and leaves the instance as it
    was: so on status 401, on a body that is no JSON or no object, on any
    other status, on a refusal, on a timeout or any other failure of the
    transport.  It does not raise. *)
Theorem get_user_info_none_unless_success :
  forall (c : client) (w : world),
    claims_success
      (respond w (trace w) (api_request c GET "/api/user/self" [])) = false ->
    get_user_info c w
    = (Ok (PNone, c), sent w (api_request c GET "/api/user/self" [])).
Proof.
  intros c w H. rewrite get_user_info_run.
  rewrite (profile_answer_unclaimed _ c H). reflexivity.
Qed.

(** A world in which the session has expired. *)
Lemma get_user_info_expired :
  claims_success
    (respond (mk_world (fun _ _ => Response 401 (quoted "{'success': true}"))
                       (fun _ => py "2024-01") [])
             []
             (api_request (mk_client (py "https://a.example") [] PNone None)
                          GET "/api/user/self" []))
  = false
  /\ get_user_info
       (mk_client (py "https://a.example") [] PNone None)
       (mk_world (fun _ _ => Response 401 (quoted "{'success': true}"))
                 (fun _ => py "2024-01") [])
     = (Ok (PNone, mk_client (py "https://a.example") [] PNone None),
        sent (mk_world (fun _ _ => Response 401 (quoted "{'success': true}"))
                       (fun _ => py "2024-01") [])
             (api_request (mk_client (py "https://a.example") [] PNone None)
                          GET "/api/user/self" [])).
Proof.
  split; [reflexivity |].
  apply (get_user_info_none_unless_success
           (mk_client (py "https://a.example") [] PNone None)
           (mk_world (fun _ _ => Response 401 (quoted "{'success': true}"))
                     (fun _ => py "2024-01") [])).
  reflexivity.
Defined.

(** X7.  When the profile request is answered with status 200 and a JSON
    object with a truthy [success] whose [data] is an object with an
    [id], [get_user_info] returns that object and the instance adopts
    the [id]: it replaces the user id held so far, explicitly given or
    derived from the cookie, and the header of the later requests is
    [str(id)].  Address and cookies stay. *)
Theorem get_user_info_adopts_id :
  forall (c : client) (w : world) (text : pystr)
         (d profile : list (pystr * pyval)) (ok uid : pyval),
    respond w (trace w) (api_request c GET "/api/user/self" [])
    = Response 200 text ->
    response_json text = Ok (PDict d) ->
    lookup (py "success") d = Some ok ->
    truthy ok = true ->
    lookup (py "data") d = Some (PDict profile) ->
    lookup (py "id") profile = Some uid ->
    get_user_info c w
    = (Ok (PDict profile,
           mk_client (base_url c) (cookies c) uid (Some (py_str uid))),
       sent w (api_request c GET "/api/user/self" [])).
Proof.
  intros c w text d profile ok uid Ho Hjson Hok Htrue Hdata Hid.
  rewrite get_user_info_run, Ho. unfold profile_answer.
  change (200 =? 401)%Z with false. change (200 =? 200)%Z with true.
  cbv iota. rewrite Hjson. cbn [py_get bind]. rewrite Hok, Htrue, Hdata.
  assert (Hne : truthy (PDict profile) = true).
  { destruct profile; [discriminate Hid | reflexivity]. }
  rewrite Hne. cbn [py_in bind]. unfold has_key. rewrite Hid.
  cbn [py_item bind]. rewrite Hid. reflexivity.
Qed.

(** The profile of the example world: user 42 replaces a derived 7. *)
Lemma get_user_info_adopts_42 :
  get_user_info
    (mk_client (py "https://a.example") [] (PStr (py "7")) (Some (py "7")))
    mixed_world
  = (Ok (PDict [ (py "id", PInt 42); (py "username", PStr (py "alice")) ],
         mk_client
           (base_url (mk_client (py "https://a.example") [] (PStr (py "7"))
                                (Some (py "7"))))
           (cookies (mk_client (py "https://a.example") [] (PStr (py "7"))
                               (Some (py "7"))))
           (PInt 42) (Some (py_str (PInt 42)))),
     sent mixed_world
          (api_request
             (mk_client (py "https://a.example") [] (PStr (py "7"))
                        (Some (py "7")))
             GET "/api/user/self" [])).
Proof.
  apply (get_user_info_adopts_id
           (mk_client (py "https://a.example") [] (PStr (py "7"))
                      (Some (py "7")))
           mixed_world
           (quoted "{'success': true, 'data': {'id': 42, 'username': 'alice'}}")
           [ (py "success", PBool true);
             (py "data", PDict [ (py "id", PInt 42);
                                 (py "username", PStr (py "alice")) ]) ]
           [ (py "id", PInt 42); (py "username", PStr (py "alice")) ]
           (PBool true) (PInt 42));
    vm_compute; reflexivity.
Defined.

Lemma checkin_success_claimed :
  forall o : http_outcome,
    success (checkin_result_of o) = claims_success o.
Proof.
  intros [status text | e].
  2: { unfold checkin_result_of. apply handler_keeps_success. }
  unfold claims_success, checkin_result_of, checkin_on_response.
  destruct (status =? 401)%Z eqn:H401.
  { assert (H200 : (status =? 200)%Z = false).
    { apply Z.eqb_eq in H401. subst. reflexivity. }
    rewrite H200. reflexivity. }
  destruct (response_json text) as [data | e].
  - destruct (status =? 200)%Z.
    + cbn [andb].
      destruct data as [| b | z | x | s | l | d]; try reflexivity.
      unfold py_get, upd_bind, upd_eval, upd_set.
      destruct (lookup (py "success") d) as [ok |]; [| reflexivity].
      destruct (truthy ok); [| reflexivity].
      destruct (lookup (py "data") d) as [[| b | z | x | s | l | dd] |];
        reflexivity.
    + cbn [andb].
      destruct data as [| b | z | x | s | l | d]; reflexivity.
  - destruct (is_json_decode_error e).
    + destruct (status =? 200)%Z; reflexivity.
    + rewrite handler_keeps_success.
      destruct (status =? 200)%Z; reflexivity.
Qed.

Lemma checkin_failure_empty :
  forall o : http_outcome,
    claims_success o = false ->
    checkin_date (checkin_result_of o) = PNone
    /\ quota_awarded (checkin_result_of o) = PNone.
Proof.
  intros [status text | e] H.
  2: { unfold checkin_result_of.
       destruct (handler_keeps_fields e (mk_result false (PStr []) PNone PNone))
         as [-> ->]. split; reflexivity. }
  unfold claims_success in H. unfold checkin_result_of, checkin_on_response.
  destruct (status =? 401)%Z; [split; reflexivity |].
  destruct (response_json text) as [data | e].
  - destruct (status =? 200)%Z.
    + cbn [andb] in H.
      destruct data as [| b | z | x | s | l | d]; try (split; reflexivity).
      unfold py_get, upd_bind, upd_eval, upd_set.
      destruct (lookup (py "success") d) as [ok |]; [| split; reflexivity].
      rewrite H. split; reflexivity.
    + destruct data as [| b | z | x | s | l | d]; split; reflexivity.
  - destruct (is_json_decode_error e); [split; reflexivity |].
    destruct (handler_keeps_fields e (mk_result false (PStr []) PNone PNone))
      as [-> ->]. split; reflexivity.
Qed.

(** X8.  The result of [checkin] says succeeded exactly when the answer
    is a response with status 200 whose body is a JSON object with a
    truthy [success]; whatever is raised after that point does not take
    it back.  A result that does not say succeeded carries no date and
    no quota. *)
Theorem checkin_success_iff_claimed :
  forall o : http_outcome,
    success (checkin_result_of o) = claims_success o
    /\ (success (checkin_result_of o) = false ->
        checkin_date (checkin_result_of o) = PNone
        /\ quota_awarded (checkin_result_of o) = PNone).
Proof.
  intros o. split; [apply checkin_success_claimed |].
  rewrite checkin_success_claimed. apply checkin_failure_empty.
Qed.

(** X9.  A successful check-in whose [data] is not an object (null, a
    number, a text, a list): the result says succeeded, but its message
    is not the message of the response: it is the text of the
    [AttributeError] that the lookup in [data] raised, behind the words
    of the last [except] clause.  Date and quota are null. *)
Theorem checkin_success_data_not_object :
  forall (text : pystr) (d : list (pystr * pyval)) (ok v : pyval),
    response_json text = Ok (PDict d) ->
    lookup (py "success") d = Some ok ->
    truthy ok = true ->
    lookup (py "data") d = Some v ->
    (forall dd : list (pystr * pyval), v <> PDict dd) ->
    checkin_result_of (Response 200 text)
    = mk_result true
        (PStr (py "未知错误: '" ++ type_name v
                 ++ py "' object has no attribute 'get'"))
        PNone PNone.
Proof.
  intros text d ok v Hjson Hok Htrue Hdata Hshape.
  rewrite (checkin_success_other_data text d ok v Hjson Hok Htrue Hdata).
  - reflexivity.
  - destruct v; try reflexivity. exfalso. exact (Hshape d0 eq_refl).
Qed.

Lemma checkin_success_data_list :
  checkin_result_of
    (Response 200 (quoted "{'success': true, 'message': 'ok', 'data': []}"))
  = mk_result true
      (PStr (py "未知错误: '" ++ type_name (PList [])
               ++ py "' object has no attribute 'get'"))
      PNone PNone.
Proof.
  apply (checkin_success_data_not_object
           (quoted "{'success': true, 'message': 'ok', 'data': []}")
           [ (py "success", PBool true); (py "message", PStr (py "ok"));
             (py "data", PList []) ]
           (PBool true) (PList [])).
  - vm_compute. reflexivity.
  - reflexivity.
  - reflexivity.
  - reflexivity.
  - intros dd H. discriminate H.
Defined.

(** X10.  A successful check-in whose [data] is an object, or that has no
    [data]: the result says succeeded, its message is the [message] of
    the response, or the default text when there is none, and date and
    quota are the entries of [data], null where [data] has none. *)
Theorem checkin_success_fields :
  forall (text : pystr) (d dd : list (pystr * pyval)) (ok : pyval),
    response_json text = Ok (PDict d) ->
    lookup (py "success") d = Some ok ->
    truthy ok = true ->
    py_get (PDict d) (py "data") (PDict []) = Ok (PDict dd) ->
    Ok (checkin_result_of (Response 200 text))
    = bind (py_get (PDict d) (py "message") (PStr (py "签到成功"))) (fun m =>
      bind (py_get (PDict dd) (py "checkin_date") PNone) (fun date =>
      bind (py_get (PDict dd) (py "quota_awarded") PNone) (fun quota =>
      Ok (mk_result true m date quota)))).
Proof.
  intros text d dd ok Hjson Hok Htrue Hdata.
  rewrite (checkin_success_object_data text d ok Hjson Hok Htrue dd).
  - reflexivity.
  - cbn [py_get] in Hdata.
    destruct (lookup (py "data") d); injection Hdata as ->; reflexivity.
Qed.

(** The answer of scenario A. *)
Lemma checkin_success_fields_scenario :
  Ok (checkin_result_of (Response 200 scenario_answer))
  = Ok (mk_result true (PStr (py "ok")) (PStr (py "2024-01-01"))
                  (PInt 150000)).
Proof.
  apply (checkin_success_fields
           scenario_answer
           [ (py "success", PBool true); (py "message", PStr (py "ok"));
             (py "data", PDict [ (py "checkin_date", PStr (py "2024-01-01"));
                                 (py "quota_awarded", PInt 150000) ]) ]
           [ (py "checkin_date", PStr (py "2024-01-01"));
             (py "quota_awarded", PInt 150000) ]
           (PBool true));
    vm_compute; reflexivity.
Defined.

Lemma history_of_unclaimed :
  forall o : http_outcome,
    claims_success o = false ->
    match history_of o with
    | Ok v => v
    | Raise _ => PNone
    end = PNone.
Proof.
  intros [status text | e] H; [| reflexivity].
  unfold claims_success in H. unfold history_of.
  destruct (status =? 200)%Z; [| reflexivity].
  cbn [andb] in H.
  destruct (response_json text) as [[| b | z | x | s | l | d] | e];
    try reflexivity.
  cbn [bind py_get].
  destruct (lookup (py "success") d) as [ok |].
  - rewrite H. reflexivity.
  - reflexivity.
Qed.

(** X11.  [get_checkin_history] sends one GET to [/api/user/checkin]
    with the month the clock shows as its [month] parameter and, unless
    the answer is a response with status 200 whose body is a JSON object
    with a truthy [success], returns [None]; it does not raise, whatever
    the answer. *)
Theorem get_checkin_history_none_unless_success :
  forall (c : client) (w : world),
    claims_success
      (respond w (trace w)
         (api_request c GET "/api/user/checkin"
                      [(py "month", month_now w (trace w))])) = false ->
    get_checkin_history c w
    = (Ok PNone,
       sent w (api_request c GET "/api/user/checkin"
                           [(py "month", month_now w (trace w))])).
Proof.
  intros c w H. rewrite get_checkin_history_run.
  rewrite (history_of_unclaimed _ H). reflexivity.
Qed.

(** A world that answers 500 to everything. *)
Lemma get_checkin_history_server_error :
  claims_success
    (respond (mk_world (fun _ _ => Response 500 (quoted "{'success': true}"))
                       (fun _ => py "2024-01") [])
             []
             (api_request (mk_client (py "https://a.example") [] PNone None)
                          GET "/api/user/checkin"
                          [(py "month", py "2024-01")]))
  = false
  /\ get_checkin_history
       (mk_client (py "https://a.example") [] PNone None)
       (mk_world (fun _ _ => Response 500 (quoted "{'success': true}"))
                 (fun _ => py "2024-01") [])
     = (Ok PNone,
        sent (mk_world (fun _ _ => Response 500 (quoted "{'success': true}"))
                       (fun _ => py "2024-01") [])
             (api_request (mk_client (py "https://a.example") [] PNone None)
                          GET "/api/user/checkin"
                          [(py "month", py "2024-01")])).
Proof.
  split; [reflexivity |].
  apply (get_checkin_history_none_unless_success
           (mk_client (py "https://a.example") [] PNone None)
           (mk_world (fun _ _ => Response 500 (quoted "{'success': true}"))
                     (fun _ => py "2024-01") [])).
  reflexivity.
Defined.

(* ================================================================== *)
(** * Theorems: [__init__] *)

Lemma lstrip_char_spec :
  forall (ch : N) (s : pystr),
    exists k : nat,
      s = repeat ch k ++ lstrip_char ch s
      /\ forall r : pystr, lstrip_char ch s <> ch :: r.
Proof.
  intros ch. induction s as [| c s IH].
  - exists 0%nat. split; [reflexivity | discriminate].
  - cbn [lstrip_char]. destruct (c =? ch) eqn:Hc.
    + apply N.eqb_eq in Hc. subst c. destruct IH as (k & Hs & Hhead).
      exists (S k). split; [cbn [repeat app]; now rewrite <- Hs | exact Hhead].
    + exists 0%nat. split; [reflexivity |].
      intros r H. injection H as H _. subst c. rewrite N.eqb_refl in Hc.
      discriminate Hc.
Qed.

Lemma rev_repeat_char :
  forall (ch : N) (k : nat), rev (repeat ch k) = repeat ch k.
Proof.
  intros ch. induction k as [| k IH]; [reflexivity |].
  cbn [repeat rev]. rewrite IH. symmetry. apply repeat_cons.
Qed.

Lemma rstrip_char_spec :
  forall (ch : N) (s : pystr),
    exists k : nat,
      s = rstrip_char ch s ++ repeat ch k
      /\ ~ ends_with [ch] (rstrip_char ch s).
Proof.
  intros ch s. unfold rstrip_char.
  destruct (lstrip_char_spec ch (rev s)) as (k & Hs & Hhead).
  exists k. split.
  - rewrite <- (rev_involutive s) at 1. rewrite Hs at 1.
    rewrite rev_app_distr, rev_repeat_char. reflexivity.
  - intros [r Hr]. apply (Hhead (rev r)).
    rewrite <- (rev_involutive (lstrip_char ch (rev s))), Hr.
    rewrite rev_app_distr. reflexivity.
Qed.

Lemma new_client_fields :
  forall (url session_cookie uid cf_clearance : pyval) (c : client),
    new_client url session_cookie uid cf_clearance = Ok c ->
    exists (u : pystr) (derived : option pystr),
      url = PStr u
      /\ _extract_user_id_from_session session_cookie = Ok derived
      /\ base_url c = rstrip_char 47 u
      /\ cookies c
         = cookie (py "session") session_cookie
           ++ (if truthy cf_clearance
               then cookie (py "cf_clearance") cf_clearance else [])
      /\ user_id c
         = (if truthy uid then uid
            else match derived with
                 | Some d => PStr d
                 | None => PNone
                 end)
      /\ user_header c
         = (if truthy uid then Some (py_str uid)
            else match derived with
                 | Some d => if truthy (PStr d) then Some d else None
                 | None => None
                 end).
Proof.
  intros url session_cookie uid cf_clearance c H. unfold new_client in H.
  destruct url as [| b | z | x | u | l | d]; try discriminate H.
  destruct (extract_user_id_returns session_cookie) as [derived Hd].
  exists u, derived. split; [reflexivity |]. split; [exact Hd |].
  rewrite Hd in H. cbn [bind] in H.
  destruct (truthy uid).
  - injection H as <-. repeat split.
  - destruct derived as [g |]; [destruct (truthy (PStr g)) |];
      injection H as <-; repeat split.
Qed.

(** X12.  An instance has an address only when the address given is a
    text, and its base address is that text without the slashes at its
    end: the text is the base address followed by slashes only, and the
    base address does not end with a slash.  Every request of the
    instance goes to the base address followed by the path. *)
Theorem new_client_base_url :
  forall (url session_cookie uid cf_clearance : pyval) (c : client),
    new_client url session_cookie uid cf_clearance = Ok c ->
    exists (u : pystr) (k : nat),
      url = PStr u
      /\ u = base_url c ++ repeat 47 k
      /\ ~ ends_with [47] (base_url c)
      /\ forall (m : http_method) (path : string)
                (params : list (pystr * pystr)),
          req_url (api_request c m path params) = base_url c ++ py path.
Proof.
  intros url session_cookie uid cf_clearance c H.
  destruct (new_client_fields _ _ _ _ _ H)
    as (u & derived & -> & _ & Hbase & _).
  destruct (rstrip_char_spec 47 u) as (k & Hu & Hend).
  exists u, k. split; [reflexivity |].
  split; [rewrite Hbase; exact Hu |].
  split; [rewrite Hbase; exact Hend |].
  reflexivity.
Qed.

(** An address written with two slashes at its end. *)
Lemma new_client_base_url_slashes :
  exists c : client,
    new_client (PStr (py "https://a.example//")) (PStr (py "token-a"))
               PNone PNone
    = Ok c
    /\ base_url c = py "https://a.example"
    /\ exists (u : pystr) (k : nat),
        PStr (py "https://a.example//") = PStr u
        /\ u = base_url c ++ repeat 47 k.
Proof.
  eexists. split; [vm_compute; reflexivity |].
  split; [vm_compute; reflexivity |].
  destruct (new_client_base_url
              (PStr (py "https://a.example//")) (PStr (py "token-a"))
              PNone PNone _ ltac:(vm_compute; reflexivity))
    as (u & k & Hu & Hk & _).
  exists u, k. split; [exact Hu | exact Hk].
Defined.



(* ================================================================== *)
(** * Theorems: the session token as base64 *)

Lemma in_first_64 :
  forall v : N, v < 64 -> In v (map N.of_nat (seq 0 64)).
Proof.
  intros v Hv. apply in_map_iff. exists (N.to_nat v). split.
  - apply N2Nat.id.
  - apply in_seq. lia.
Qed.

Lemma b64_char_spec :
  forall v : N, v < 64 ->
    b64_index (b64_char v) = Some v
    /\ (b64_char v =? 61) = false
    /\ (b64_char v <? 128) = true.
Proof.
  intros v Hv.
  assert (Hall : forallb (fun v => match b64_index (b64_char v) with
                                   | Some v' => v' =? v
                                   | None => false
                                   end
                                   && negb (b64_char v =? 61)
                                   && (b64_char v <? 128))
                         (map N.of_nat (seq 0 64)) = true)
    by (vm_compute; reflexivity).
  rewrite forallb_forall in Hall. specialize (Hall v (in_first_64 v Hv)).
  apply andb_prop in Hall as [Hall H128].
  apply andb_prop in Hall as [Hidx H61].
  destruct (b64_index (b64_char v)) as [v' |]; [| discriminate Hidx].
  apply N.eqb_eq in Hidx. subst v'.
  apply negb_true_iff in H61. repeat split; assumption.
Qed.

(** One character of the alphabet, read by the decoder. *)
Lemma a2b_base64_char :
  forall (v : N) (r : pystr) (quad_pos leftchar pads : N),
    v < 64 ->
    a2b_base64 (b64_char v :: r) quad_pos leftchar pads
    = if quad_pos =? 0 then a2b_base64 r 1 v 0
      else if quad_pos =? 1
      then cons_byte (leftchar * 4 + v / 16) (a2b_base64 r 2 (v mod 16) 0)
      else if quad_pos =? 2
      then cons_byte (leftchar * 16 + v / 4) (a2b_base64 r 3 (v mod 4) 0)
      else cons_byte (leftchar * 64 + v) (a2b_base64 r 0 0 0).
Proof.
  intros v r quad_pos leftchar pads Hv.
  destruct (b64_char_spec v Hv) as (Hidx & H61 & _).
  cbn [a2b_base64]. rewrite H61, Hidx. reflexivity.
Qed.

Lemma triples_ind :
  forall P : pybytes -> Prop,
    P [] ->
    (forall a, P [a]) ->
    (forall a b, P [a; b]) ->
    (forall a b c r, P r -> P (a :: b :: c :: r)) ->
    forall bs, P bs.
Proof.
  intros P H0 H1 H2 H3.
  assert (H : forall (n : nat) (bs : pybytes),
             (List.length bs <= n)%nat -> P bs).
  { induction n as [| n IH]; intros bs Hlen.
    - destruct bs; [exact H0 | cbn in Hlen; lia].
    - destruct bs as [| a [| b [| c r]]]; auto.
      apply H3. apply IH. cbn [List.length] in Hlen. lia. }
  intros bs. apply (H (List.length bs)). lia.
Qed.

Lemma sextet_1 :
  forall a : N, a < 256 ->
    a / 4 < 64.
Proof.
  intros a Ha. apply N.Div0.div_lt_upper_bound. lia.
Qed.

Lemma sextet_2 :
  forall a b : N, b < 256 ->
    (a mod 4) * 16 + b / 16 < 64.
Proof.
  intros a b Hb. pose proof (N.mod_lt a 4 ltac:(lia)).
  assert (b / 16 < 16) by (apply N.Div0.div_lt_upper_bound; lia). lia.
Qed.

Lemma sextet_3 :
  forall b c : N, c < 256 ->
    (b mod 16) * 4 + c / 64 < 64.
Proof.
  intros b c Hc. pose proof (N.mod_lt b 16 ltac:(lia)).
  assert (c / 64 < 4) by (apply N.Div0.div_lt_upper_bound; lia). lia.
Qed.

Lemma sextet_4 :
  forall c : N,
    c mod 64 < 64.
Proof.
  intros c. apply N.mod_lt. lia.
Qed.

Lemma octet_1 :
  forall a b : N, b < 256 ->
    a / 4 * 4 + ((a mod 4) * 16 + b / 16) / 16 = a.
Proof.
  intros a b Hb.
  assert (Hq : b / 16 < 16) by (apply N.Div0.div_lt_upper_bound; lia).
  rewrite N.div_add_l by lia. rewrite (N.div_small (b / 16) 16 Hq).
  pose proof (N.div_mod a 4 ltac:(lia)). lia.
Qed.

Lemma octet_2 :
  forall a b c : N, b < 256 -> c < 256 ->
    ((a mod 4) * 16 + b / 16) mod 16 * 16 + ((b mod 16) * 4 + c / 64) / 4 = b.
Proof.
  intros a b c Hb Hc.
  assert (Hq : b / 16 < 16) by (apply N.Div0.div_lt_upper_bound; lia).
  assert (Hr : c / 64 < 4) by (apply N.Div0.div_lt_upper_bound; lia).
  rewrite (N.add_comm ((a mod 4) * 16) (b / 16)).
  rewrite N.Div0.mod_add, (N.mod_small _ _ Hq).
  rewrite N.div_add_l by lia. rewrite (N.div_small _ _ Hr).
  pose proof (N.div_mod b 16 ltac:(lia)). lia.
Qed.

Lemma octet_3 :
  forall b c : N, c < 256 ->
    ((b mod 16) * 4 + c / 64) mod 4 * 64 + c mod 64 = c.
Proof.
  intros b c Hc.
  assert (Hr : c / 64 < 4) by (apply N.Div0.div_lt_upper_bound; lia).
  rewrite (N.add_comm ((b mod 16) * 4) (c / 64)).
  rewrite N.Div0.mod_add, (N.mod_small _ _ Hr).
  pose proof (N.div_mod c 64 ltac:(lia)). lia.
Qed.

Lemma octet_1_last :
  forall a : N,
    a / 4 * 4 + (a mod 4) * 16 / 16 = a.
Proof.
  intros a. rewrite N.div_mul by lia.
  pose proof (N.div_mod a 4 ltac:(lia)). lia.
Qed.

Lemma octet_2_last :
  forall a b : N, b < 256 ->
    ((a mod 4) * 16 + b / 16) mod 16 * 16 + (b mod 16) * 4 / 4 = b.
Proof.
  intros a b Hb.
  assert (Hq : b / 16 < 16) by (apply N.Div0.div_lt_upper_bound; lia).
  rewrite (N.add_comm ((a mod 4) * 16) (b / 16)).
  rewrite N.Div0.mod_add, (N.mod_small _ _ Hq).
  rewrite N.div_mul by lia.
  pose proof (N.div_mod b 16 ltac:(lia)). lia.
Qed.

Lemma sextet_2_last :
  forall a : N,
    (a mod 4) * 16 < 64.
Proof.
  intros a. pose proof (N.mod_lt a 4 ltac:(lia)). lia.
Qed.

Lemma sextet_3_last :
  forall b : N,
    (b mod 16) * 4 < 64.
Proof.
  intros b. pose proof (N.mod_lt b 16 ltac:(lia)). lia.
Qed.

Ltac sextet :=
  solve [ apply sextet_1; assumption | apply sextet_2; assumption
        | apply sextet_3; assumption | apply sextet_4
        | apply sextet_2_last | apply sextet_3_last ].

Lemma a2b_base64_encode :
  forall bs : pybytes,
    octets bs -> a2b_base64 (b64_encode bs ++ py "==") 0 0 0 = Ok bs.
Proof.
  induction bs as [| a | a b | a b c r IH] using triples_ind; intros H.
  - reflexivity.
  - inversion H as [| ? ? Ha _]; subst.
    cbn [b64_encode app].
    rewrite a2b_base64_char by sextet. cbn [N.eqb Pos.eqb].
    rewrite a2b_base64_char by sextet. cbn [N.eqb Pos.eqb].
    rewrite octet_1_last. reflexivity.
  - inversion H as [| ? ? Ha H']; subst.
    inversion H' as [| ? ? Hb _]; subst.
    cbn [b64_encode app].
    rewrite a2b_base64_char by sextet. cbn [N.eqb Pos.eqb].
    rewrite a2b_base64_char by sextet. cbn [N.eqb Pos.eqb].
    rewrite a2b_base64_char by sextet. cbn [N.eqb Pos.eqb].
    rewrite octet_1, octet_2_last by assumption. reflexivity.
  - inversion H as [| ? ? Ha H']; subst.
    inversion H' as [| ? ? Hb H'']; subst.
    inversion H'' as [| ? ? Hc Hr]; subst.
    cbn [b64_encode app].
    rewrite a2b_base64_char by sextet. cbn [N.eqb Pos.eqb].
    rewrite a2b_base64_char by sextet. cbn [N.eqb Pos.eqb].
    rewrite a2b_base64_char by sextet. cbn [N.eqb Pos.eqb].
    rewrite a2b_base64_char by sextet. cbn [N.eqb Pos.eqb].
    rewrite octet_1, octet_2, octet_3 by assumption.
    rewrite (IH Hr). reflexivity.
Qed.

Lemma b64_char_ascii :
  forall v : N, v < 64 -> (b64_char v <? 128) = true.
Proof. intros v Hv. apply (b64_char_spec v Hv). Qed.

Lemma b64_encode_ascii :
  forall bs : pybytes,
    octets bs -> forallb (fun c => c <? 128) (b64_encode bs) = true.
Proof.
  induction bs as [| a | a b | a b c r IH] using triples_ind; intros H.
  - reflexivity.
  - inversion H as [| ? ? Ha _]; subst. cbn [b64_encode forallb].
    rewrite !b64_char_ascii by sextet. reflexivity.
  - inversion H as [| ? ? Ha H']; subst.
    inversion H' as [| ? ? Hb _]; subst. cbn [b64_encode forallb].
    rewrite !b64_char_ascii by sextet. reflexivity.
  - inversion H as [| ? ? Ha H']; subst.
    inversion H' as [| ? ? Hb H'']; subst.
    inversion H'' as [| ? ? Hc Hr]; subst. cbn [b64_encode forallb].
    rewrite !b64_char_ascii by sextet. rewrite (IH Hr). reflexivity.
Qed.

(** X14.  The two [=] that the method appends make any standard base64
    token decode, padded at its end or not: for a token that is the
    base64 of a byte string without its padding, the decoding gives the
    byte string back, and the user id the method returns is the first
    match of the patterns in the text of those bytes. *)
Theorem extract_user_id_of_encoded :
  forall bs : pybytes,
    octets bs ->
    b64decode (b64_encode bs ++ py "==") = Ok bs
    /\ _extract_user_id_from_session (PStr (b64_encode bs))
       = Ok (first_match patterns (utf8_decode_ignore bs)).
Proof.
  intros bs H.
  assert (Hdec : b64decode (b64_encode bs ++ py "==") = Ok bs).
  { unfold b64decode. rewrite forallb_app, (b64_encode_ascii bs H).
    change (forallb (fun c => c <? 128) (py "==")) with true. cbn [andb].
    apply (a2b_base64_encode bs H). }
  split; [exact Hdec |].
  unfold _extract_user_id_from_session, extract_user_id_body.
  cbn [add_padding bind]. rewrite Hdec. reflexivity.
Qed.

(** The token of the eleven bytes [linuxdo_988]: its last group has
    three characters, and the padding is missing. *)
Lemma extract_user_id_of_encoded_988 :
  octets (bytes_of_string "linuxdo_988")
  /\ b64_encode (bytes_of_string "linuxdo_988") = py "bGludXhkb185ODg"
  /\ _extract_user_id_from_session
       (PStr (b64_encode (bytes_of_string "linuxdo_988")))
     = Ok (first_match patterns
             (utf8_decode_ignore (bytes_of_string "linuxdo_988")))
  /\ first_match patterns (utf8_decode_ignore (bytes_of_string "linuxdo_988"))
     = Some (py "988").
Proof.
  assert (H : octets (bytes_of_string "linuxdo_988")).
  { unfold octets. apply Forall_forall. intros x Hin.
    assert (Hall : forallb (fun b => b <? 256)
                           (bytes_of_string "linuxdo_988") = true)
      by (vm_compute; reflexivity).
    rewrite forallb_forall in Hall. apply N.ltb_lt. exact (Hall x Hin). }
  split; [exact H |].
  split; [vm_compute; reflexivity |].
  split; [exact (proj2 (extract_user_id_of_encoded _ H)) |].
  vm_compute. reflexivity.
Defined.

(* ================================================================== *)
(** * Theorems: [parse_accounts], further *)

Lemma structured_account_carries :
  forall item : pyval,
    match structured_account item with
    | Some acc => usable item = true /\ carries item acc /\ complete acc = true
    | None => usable item = false
    end.
Proof.
  intros [| b | z | x | s | l | d]; try reflexivity.
  cbn [structured_account usable]. unfold has_key.
  destruct (lookup (py "url") d) as [u |] eqn:Hu; [| reflexivity].
  destruct (lookup (py "session") d) as [k |] eqn:Hk; [| reflexivity].
  split; [reflexivity |]. split.
  - exists d. split; [reflexivity |]. rewrite Hu, Hk. unfold optional_key.
    destruct (lookup (py "user_id") d) as [uid |];
      destruct (lookup (py "cf_clearance") d) as [cf |];
      repeat split.
  - reflexivity.
Qed.

Lemma structured_accounts_carry :
  forall items : list pyval,
    Forall2 carries (filter usable items) (structured_accounts items)
    /\ forallb complete (structured_accounts items) = true.
Proof.
  induction items as [| item rest [IH1 IH2]];
    [split; [constructor | reflexivity] |].
  unfold structured_accounts in *. cbn [filter keep].
  pose proof (structured_account_carries item) as H.
  destruct (structured_account item) as [acc |].
  - destruct H as (-> & Hc & Hk). split.
    + constructor; assumption.
    + cbn [forallb]. rewrite Hk. exact IH2.
  - rewrite H. split; assumption.
Qed.

(** X15.  The structured form: when the configuration decodes to a JSON
    list, the accounts are those of its usable elements (the objects
    with [url] and [session]), one account per usable element, in the
    order of the list; the other elements are passed over without an
    error.  Each account carries the [url] and [session] of its
    element, its [name] or the empty text, and [user_id] and
    [cf_clearance] exactly when the element has them. *)
Theorem parse_accounts_structured :
  forall (s : pystr) (items : list pyval),
    json_loads s = Ok (PList items) ->
    exists accounts : list account,
      parse_accounts s = Ok accounts
      /\ Forall2 carries (filter usable items) accounts.
Proof.
  intros s items H. exists (structured_accounts items).
  split; [| apply structured_accounts_carry].
  rewrite (parse_accounts_json_list s items H).
  destruct s as [| c r]; [vm_compute in H; discriminate H | reflexivity].
Qed.

(** A list of four elements, two of them usable. *)
Lemma parse_accounts_structured_list :
  exists accounts : list account,
    json_loads structured_config
    = Ok (PList
            [ PDict [ (py "url", PStr (py "https://a.example"));
                      (py "session", PStr (py "ta"));
                      (py "name", PStr (py "A"));
                      (py "user_id", PInt 7) ];
              PInt 5;
              PDict [ (py "url", PStr (py "https://c.example")) ];
              PDict [ (py "session", PStr (py "tb"));
                      (py "url", PStr (py "https://b.example")) ] ])
    /\ parse_accounts structured_config = Ok accounts
    /\ accounts
       = [ [ (py "url", PStr (py "https://a.example"));
             (py "session", PStr (py "ta"));
             (py "name", PStr (py "A"));
             (py "user_id", PInt 7) ];
           [ (py "url", PStr (py "https://b.example"));
             (py "session", PStr (py "tb"));
             (py "name", PStr []) ] ].
Proof.
  destruct (parse_accounts_structured
              structured_config
              [ PDict [ (py "url", PStr (py "https://a.example"));
                        (py "session", PStr (py "ta"));
                        (py "name", PStr (py "A"));
                        (py "user_id", PInt 7) ];
                PInt 5;
                PDict [ (py "url", PStr (py "https://c.example")) ];
                PDict [ (py "session", PStr (py "tb"));
                        (py "url", PStr (py "https://b.example")) ] ]
              ltac:(vm_compute; reflexivity))
    as (accounts & Hp & _).
  exists accounts. split; [vm_compute; reflexivity |].
  split; [exact Hp |].
  vm_compute in Hp. injection Hp as <-. vm_compute. reflexivity.
Defined.

Lemma delimited_account_complete :
  forall (part : pystr) (acc : account),
    delimited_account part = Some acc -> complete acc = true.
Proof.
  intros part acc H. unfold delimited_account in H.
  destruct (has_char 35 (strip part)); [| discriminate H].
  destruct (split_first 35 (strip part)) as [[u k] |]; [| discriminate H].
  injection H as <-. reflexivity.
Qed.

Lemma delimited_accounts_complete :
  forall s : pystr, forallb complete (delimited_accounts s) = true.
Proof.
  intros s. unfold delimited_accounts.
  induction (split_on 44 s) as [| part rest IH]; [reflexivity |].
  cbn [keep]. destruct (delimited_account part) as [acc |] eqn:Hacc.
  - cbn [forallb]. rewrite (delimited_account_complete part acc Hacc).
    exact IH.
  - exact IH.
Qed.


Lemma split_first_spec :
  forall (c : N) (s a b : pystr),
    split_first c s = Some (a, b) ->
    s = a ++ c :: b /\ has_char c a = false.
Proof.
  intros c. induction s as [| x r IH]; intros a b H; [discriminate H |].
  cbn [split_first] in H. destruct (x =? c) eqn:Hx.
  - injection H as <- <-. apply N.eqb_eq in Hx. subst x.
    split; reflexivity.
  - destruct (split_first c r) as [[a' b'] |]; [| discriminate H].
    injection H as <- <-. destruct (IH a' b' eq_refl) as [-> Ha].
    split; [reflexivity |].
    cbn [has_char existsb]. rewrite N.eqb_sym, Hx. exact Ha.
Qed.

Lemma keep_In :
  forall (A B : Type) (f : A -> option B) (l : list A) (y : B),
    In y (keep f l) <-> exists x : A, In x l /\ f x = Some y.
Proof.
  intros A B f l y. induction l as [| x r IH].
  - split; [contradiction | intros (x & [] & _)].
  - cbn [keep]. destruct (f x) as [z |] eqn:Hx.
    + split.
      * intros [<- | Hin].
        -- exists x. split; [left; reflexivity | exact Hx].
        -- apply IH in Hin as (x' & Hin & Hx'). exists x'.
           split; [right; exact Hin | exact Hx'].
      * intros (x' & [<- | Hin] & Hx').
        -- left. congruence.
        -- right. apply IH. exists x'. split; assumption.
    + rewrite IH. split.
      * intros (x' & Hin & Hx'). exists x'. split; [right |]; assumption.
      * intros (x' & [<- | Hin] & Hx'); [congruence |].
        exists x'. split; assumption.
Qed.

(** X17.  The accounts of the delimited form come from the pieces
    between the commas and from nowhere else: each is made from one
    piece that, stripped, has a [#], with the text before the first [#]
    as its address and everything after it, further [#] included, as its
    session, both stripped.  Its name is empty and it has neither
    [user_id] nor [cf_clearance]. *)
Theorem delimited_accounts_origin :
  forall (s : pystr) (acc : account),
    In acc (delimited_accounts s) ->
    exists part u k : pystr,
      In part (split_on 44 s)
      /\ strip part = u ++ 35 :: k
      /\ has_char 35 u = false
      /\ acc = pair_account (strip u) (strip k).
Proof.
  intros s acc H. unfold delimited_accounts in H.
  apply keep_In in H as (part & Hin & Hacc).
  unfold delimited_account in Hacc.
  destruct (has_char 35 (strip part)); [| discriminate Hacc].
  destruct (split_first 35 (strip part)) as [[u k] |] eqn:Hsplit;
    [| discriminate Hacc].
  injection Hacc as <-.
  destruct (split_first_spec 35 _ _ _ Hsplit) as [Hpart Hu].
  exists part, u, k. repeat split; assumption.
Qed.

(** Three pieces, one of them an account whose session holds a [#]. *)
Lemma delimited_accounts_origin_example :
  delimited_accounts (py "x, https://a.example # tok#en ,y")
  = [ pair_account (py "https://a.example") (py "tok#en") ]
  /\ exists part u k : pystr,
      In part (split_on 44 (py "x, https://a.example # tok#en ,y"))
      /\ strip part = u ++ 35 :: k
      /\ has_char 35 u = false
      /\ pair_account (py "https://a.example") (py "tok#en")
         = pair_account (strip u) (strip k).
Proof.
  split; [vm_compute; reflexivity |].
  apply (delimited_accounts_origin (py "x, https://a.example # tok#en ,y")).
  vm_compute. left. reflexivity.
Defined.

Lemma has_char_lstrip_kept :
  forall (c : N) (s : pystr),
    is_space c = false -> has_char c (lstrip s) = has_char c s.
Proof.
  intros c s Hc. induction s as [| x r IH]; [reflexivity |].
  cbn [lstrip]. destruct (is_space x) eqn:Hx; [| reflexivity].
  rewrite IH. cbn [has_char existsb].
  destruct (c =? x) eqn:Hcx; [| reflexivity].
  apply N.eqb_eq in Hcx. subst x. congruence.
Qed.

Lemma has_char_strip_kept :
  forall (c : N) (s : pystr),
    is_space c = false -> has_char c (strip s) = has_char c s.
Proof.
  intros c s Hc. unfold strip, rstrip.
  rewrite has_char_rev, (has_char_lstrip_kept c _ Hc), has_char_rev.
  apply (has_char_lstrip_kept c s Hc).
Qed.

Lemma split_first_found :
  forall (c : N) (s : pystr),
    has_char c s = true -> exists a b, split_first c s = Some (a, b).
Proof.
  intros c. induction s as [| x r IH]; intros H; [discriminate H |].
  cbn [split_first].
  destruct (x =? c) eqn:Hx; [eexists; eexists; reflexivity |].
  cbn [has_char existsb] in H. rewrite N.eqb_sym, Hx in H.
  destruct (IH H) as (a & b & ->). eexists. eexists. reflexivity.
Qed.

Lemma split_on_keeps_char :
  forall (c sep : N) (s : pystr),
    (c =? sep) = false ->
    has_char c s = true ->
    exists part : pystr, In part (split_on sep s) /\ has_char c part = true.
Proof.
  intros c sep s Hsep. induction s as [| x r IH]; intros H; [discriminate H |].
  cbn [has_char existsb] in H. cbn [split_on].
  destruct (x =? sep) eqn:Hx.
  - assert (Hcx : (c =? x) = false).
    { apply N.eqb_eq in Hx. subst x. exact Hsep. }
    rewrite Hcx in H. destruct (IH H) as (part & Hin & Hp).
    exists part. split; [right; exact Hin | exact Hp].
  - destruct (split_on sep r) as [| p ps] eqn:Hr; rewrite ?Hr in IH.
    + exists [x]. split; [left; reflexivity |].
      destruct (c =? x) eqn:Hcx.
      * cbn [has_char existsb]. now rewrite Hcx.
      * destruct (IH H) as (part & [] & _).
    + destruct (c =? x) eqn:Hcx.
      * exists (x :: p). split; [left; reflexivity |].
        cbn [has_char existsb]. now rewrite Hcx.
      * destruct (IH H) as (part & [<- | Hin] & Hp).
        -- exists (x :: p). split; [left; reflexivity |].
           cbn [has_char existsb]. rewrite Hcx. exact Hp.
        -- exists part. split; [right; exact Hin | exact Hp].
Qed.

(** X18.  The delimited form finds no account exactly when the text has
    no [#]: a text with a [#] always gives at least one account, whatever
    stands around the [#], even nothing. *)
Theorem delimited_accounts_empty_iff :
  forall s : pystr,
    delimited_accounts s = [] <-> has_char 35 s = false.
Proof.
  intros s. split; [| apply delimited_accounts_no_hash].
  intros Hnil. destruct (has_char 35 s) eqn:Hs; [| reflexivity].
  exfalso.
  destruct (split_on_keeps_char 35 44 s eq_refl Hs) as (part & Hin & Hp).
  rewrite <- (has_char_strip_kept 35 part eq_refl) in Hp.
  destruct (split_first_found 35 _ Hp) as (u & k & Hsplit).
  assert (Hacc : In (pair_account (strip u) (strip k)) (delimited_accounts s)).
  { unfold delimited_accounts. apply keep_In. exists part.
    split; [exact Hin |]. unfold delimited_account.
    rewrite Hp, Hsplit. reflexivity. }
  rewrite Hnil in Hacc. contradiction.
Qed.

(* ================================================================== *)
(** * Theorems: the requests of a run *)

Lemma adopt_keeps_address :
  forall (c : client) (uid : option pyval),
    base_url (adopt c uid) = base_url c /\ cookies (adopt c uid) = cookies c.
Proof. intros c [u |]; split; reflexivity. Qed.

(** One iteration that completes, step by step. *)
Lemma process_account_steps :
  forall (i : nat) (acc : account) (st st' : run_state) (w w' : world),
    process_account i acc st w = (Ok st', w') ->
    exists (c c' : client) (ok : bool) (month : pystr),
      client_of acc = Ok c
      /\ base_url c' = base_url c
      /\ cookies c' = cookies c
      /\ ok = success
                (checkin_result_of
                   (respond w (trace w ++ [api_request c GET "/api/user/self" []])
                            (checkin_request c')))
      /\ respond w' = respond w
      /\ month_now w' = month_now w
      /\ trace w' = trace w ++ account_requests c c' ok month
      /\ success_count st'
         = (if ok then S (success_count st) else success_count st)
      /\ fail_count st'
         = (if ok then fail_count st else S (fail_count st)).
Proof.
  intros i acc st st' w w' H.
  assert (Hclient : forall c,
             new_client
               match lookup (py "url") acc with
               | Some x => x
               | None => PNone
               end
               match lookup (py "session") acc with
               | Some x => x
               | None => PNone
               end
               match lookup (py "user_id") acc with
               | Some x => x
               | None => PNone
               end
               match lookup (py "cf_clearance") acc with
               | Some x => x
               | None => PNone
               end = Ok c ->
             lookup (py "url") acc <> None ->
             lookup (py "session") acc <> None ->
             client_of acc = Ok c).
  { intros c Hc Hu Hk. unfold client_of. cbn [py_item py_get].
    destruct (lookup (py "url") acc); [| congruence].
    destruct (lookup (py "session") acc); [| congruence].
    exact Hc. }
  unfold process_account in H.
  io_inv H. io_inv H. io_inv H. io_inv H. io_inv H.
  lift_inv Hstep. lift_inv Hstep0. lift_inv Hstep1. lift_inv Hstep2.
  lift_inv Hstep3.
  io_inv H. lift_inv Hstep4.
  destruct (lookup (py "url") acc) as [u |] eqn:Hu; [| discriminate Hstep].
  destruct (lookup (py "session") acc) as [k |] eqn:Hk;
    [| discriminate Hstep0].
  injection Hstep as <-. injection Hstep0 as <-. subst a1 a2.
  specialize (Hclient _ Hstep4 ltac:(discriminate) ltac:(discriminate)).
  io_inv H. rewrite get_user_info_run in Hstep. injection Hstep as <- <-.
  set (c := a4) in *.
  set (uc := match profile_answer _ with
             | Ok (v, uid) => (v, adopt c uid)
             | Raise _ => (PNone, c)
             end) in H.
  assert (Hc' : base_url (snd uc) = base_url c /\ cookies (snd uc) = cookies c).
  { subst uc. destruct (profile_answer _) as [[v uid] | e];
      [apply adopt_keeps_address | split; reflexivity]. }
  destruct uc as [user_info c']. cbn [snd] in Hc'. destruct Hc' as [Hb Hj].
  io_inv H. lift_inv Hstep.
  io_inv H. rewrite checkin_run in Hstep0. injection Hstep0 as <- <-.
  destruct (success (checkin_result_of _)) eqn:Hok.
  - io_inv H. lift_inv Hstep0.
    io_inv H. rewrite get_checkin_history_run in Hstep1.
    injection Hstep1 as <- <-.
    io_inv H. lift_inv Hstep1.
    unfold io_ret in H. injection H as <- <-.
    exists c, c', true. eexists.
    split; [exact Hclient |]. split; [exact Hb |]. split; [exact Hj |].
    split; [symmetry; exact Hok |].
    split; [reflexivity |]. split; [reflexivity |].
    split; [| split; reflexivity].
    cbn [trace sent account_requests]. rewrite <- !app_assoc. reflexivity.
  - unfold io_ret in H. injection H as <- <-.
    exists c, c', false, [].
    split; [exact Hclient |]. split; [exact Hb |]. split; [exact Hj |].
    split; [symmetry; exact Hok |].
    split; [reflexivity |]. split; [reflexivity |].
    split; [| split; reflexivity].
    cbn [trace sent account_requests]. rewrite <- !app_assoc. reflexivity.
Qed.

(** The requests of one iteration that completes. *)
Lemma process_account_trace :
  forall (i : nat) (acc : account) (st st' : run_state) (w w' : world),
    process_account i acc st w = (Ok st', w') ->
    exists group : list request,
      requests_of acc group
      /\ respond w' = respond w
      /\ month_now w' = month_now w
      /\ trace w' = trace w ++ group
      /\ List.length group
         = (2 + (success_count st' - success_count st))%nat.
Proof.
  intros i acc st st' w w' H.
  destruct (process_account_steps _ _ _ _ _ _ H)
    as (c & c' & ok & month & Hc & Hb & Hj & _ & Hr & Hm & Ht & Hs & _).
  exists (account_requests c c' ok month).
  split; [exists c, c', ok, month; repeat split; assumption |].
  split; [exact Hr |]. split; [exact Hm |]. split; [exact Ht |].
  rewrite Hs. destruct ok; cbn [account_requests List.length app]; lia.
Qed.

(** X19.  The requests of a run over the accounts that completes: for
    each account in turn the profile request, the check-in request and,
    only after a check-in that succeeded, the history request, all made
    by the instance of that account.  No request is repeated and none is
    made in between: the run makes two requests per account and one more
    per success. *)
Theorem run_accounts_requests :
  forall (accounts : list account) (i : nat) (st st' : run_state)
         (w w' : world),
    run_accounts i accounts st w = (Ok st', w') ->
    exists groups : list (list request),
      trace w' = trace w ++ List.concat groups
      /\ Forall2 requests_of accounts groups
      /\ List.length (List.concat groups)
         = (2 * List.length accounts
            + (success_count st' - success_count st))%nat.
Proof.
  induction accounts as [| acc rest IH]; intros i st st' w w' H.
  - cbn [run_accounts] in H. unfold io_ret in H. injection H as <- <-.
    exists []. cbn [List.concat]. rewrite app_nil_r.
    split; [reflexivity |]. split; [constructor |]. cbn. lia.
  - cbn [run_accounts] in H. io_inv H.
    destruct (process_account_shape _ _ _ _ _ _ Hstep)
      as (ok & msg & quota & count & Hst).
    destruct (process_account_trace _ _ _ _ _ _ Hstep)
      as (group & Hgroup & _ & _ & Htrace & Hlen).
    destruct (run_accounts_entries _ _ _ _ _ _ H)
      as (entries & _ & _ & Hmono & _).
    destruct (IH _ _ _ _ _ H) as (groups & Hrest & Hall & Hcount).
    exists (group :: groups). cbn [List.concat].
    split; [rewrite Hrest, Htrace, <- app_assoc; reflexivity |].
    split; [constructor; assumption |].
    rewrite length_app, Hlen, Hcount. cbn [List.length].
    subst a. cbn [success_count] in *. destruct ok; lia.
Qed.

(** The run over the three accounts of the example: seven requests. *)
Lemma run_accounts_requests_mixed :
  exists (st : run_state) (w' : world) (groups : list (list request)),
    run_accounts 1 mixed_accounts (mk_state 0 0 []) mixed_world = (Ok st, w')
    /\ success_count st = 1%nat
    /\ trace w' = trace mixed_world ++ List.concat groups
    /\ Forall2 requests_of mixed_accounts groups
    /\ List.length (List.concat groups)
       = (2 * List.length mixed_accounts
          + (success_count st - success_count (mk_state 0 0 [])))%nat.
Proof.
  destruct (run_accounts 1 mixed_accounts (mk_state 0 0 []) mixed_world)
    as [[st | e] w'] eqn:Hrun; [| vm_compute in Hrun; discriminate Hrun].
  exists st, w'.
  destruct (run_accounts_requests _ _ _ _ _ _ Hrun) as (groups & H).
  exists groups. split; [reflexivity |].
  split; [| exact H].
  vm_compute in Hrun. injection Hrun as <- _. reflexivity.
Defined.

(* ================================================================== *)
(** * Theorems: the notification of a run *)

Lemma send_telegram_notification_run :
  forall (bot_token chat_id message : pystr) (w : world),
    truthy (PStr bot_token) && truthy (PStr chat_id) = true ->
    exists delivered : bool,
      send_telegram_notification bot_token chat_id message w
      = (Ok delivered, sent w (telegram_request bot_token chat_id message)).
Proof.
  intros bot_token chat_id message w H.
  destruct bot_token as [| t bot_token]; [discriminate H |].
  destruct chat_id as [| c chat_id]; [discriminate H |].
  unfold send_telegram_notification, io_bind, http, io_ret.
  eexists. reflexivity.
Qed.

(** X20.  A run of [main] that ends by [sys.exit] or by returning, when
    no DingTalk notifier is installed.  Either no account was configured:
    the status is 1 and nothing was sent.  Or the loop ran over all the
    accounts; then, when both Telegram variables are set, the report of
    the results was formatted and sent, once, after the last account,
    and otherwise nothing more was sent.  The status is 1 when every
    account failed and 0 otherwise: the report goes out before the
    status is decided, and its delivery has no part in the status. *)
Theorem main_body_report :
  forall (env : environ) (w w' : world) (code : Z),
    send_dingtalk_notification env = None ->
    main_body env w = (Ok code, w') ->
    (code = 1%Z /\ w' = w
     /\ parse_accounts (env_text (NEWAPI_ACCOUNTS env)) = Ok [])
    \/ exists (accounts : list account) (st : run_state) (w1 : world),
        parse_accounts (env_text (NEWAPI_ACCOUNTS env)) = Ok accounts
        /\ run_accounts 1 accounts (mk_state 0 0 []) w = (Ok st, w1)
        /\ code = (if Nat.eqb (fail_count st) (List.length accounts)
                   then 1%Z else 0%Z)
        /\ if truthy (PStr (env_text (TELEGRAM_BOT_TOKEN env)))
              && truthy (PStr (env_text (TELEGRAM_CHAT_ID env)))
           then exists msg : pystr,
               format_telegram_message (checkin_results st)
                                       (execution_time env)
                                       (List.length accounts) = Ok msg
               /\ w' = sent w1 (telegram_request
                                  (env_text (TELEGRAM_BOT_TOKEN env))
                                  (env_text (TELEGRAM_CHAT_ID env)) msg)
           else w' = w1.
Proof.
  intros env w w' code Hding H. unfold main_body in H.
  destruct (negb (truthy (PStr (env_text (NEWAPI_ACCOUNTS env))))) eqn:Hempty.
  { unfold io_ret in H. injection H as <- <-. left.
    repeat split. unfold parse_accounts. rewrite Hempty. reflexivity. }
  io_inv H. lift_inv Hstep.
  destruct a as [| acc rest].
  { unfold io_ret in H. injection H as <- <-. left.
    repeat split. exact Hstep. }
  right. io_inv H. io_inv H.
  exists (acc :: rest), a, w0.
  split; [exact Hstep |]. split; [exact Hstep0 |].
  split.
  { destruct (Nat.eqb _ _); unfold io_ret in H; injection H as <- _;
      reflexivity. }
  assert (Hw : w1 = w').
  { destruct (Nat.eqb _ _); unfold io_ret in H; injection H as _ <-;
      reflexivity. }
  subst w1. clear H. unfold notify in Hstep1. rewrite Hding in Hstep1.
  io_inv Hstep1. unfold io_ret in Hstep1. injection Hstep1 as _ <-.
  destruct (truthy (PStr (env_text (TELEGRAM_BOT_TOKEN env)))
            && truthy (PStr (env_text (TELEGRAM_CHAT_ID env)))) eqn:Hboth.
  - io_inv Hstep2. lift_inv Hstep1. io_inv Hstep2.
    unfold io_ret in Hstep2. injection Hstep2 as _ <-.
    match goal with
    | Hs : send_telegram_notification _ _ ?m ?w0 = _ |- _ =>
      destruct (send_telegram_notification_run _ _ m w0 Hboth) as [b Hsend];
        rewrite Hsend in Hs; injection Hs as _ <-; exists m
    end.
    split; [exact Hstep1 | reflexivity].
  - unfold io_ret in Hstep2. injection Hstep2 as _ <-. reflexivity.
Qed.

(** The run over the three accounts of the example with both Telegram
    variables set: status 0, and the report is the last thing sent. *)
Lemma main_body_report_mixed :
  exists (w' : world) (accounts : list account) (st : run_state)
         (w1 : world) (msg : pystr),
    main_body (telegram_environ mixed_config) mixed_world = (Ok 0%Z, w')
    /\ run_accounts 1 accounts (mk_state 0 0 []) mixed_world = (Ok st, w1)
    /\ format_telegram_message
         (checkin_results st) (execution_time (telegram_environ mixed_config))
         (List.length accounts)
       = Ok msg
    /\ w' = sent w1 (telegram_request (py "123:abc") (py "42") msg).
Proof.
  destruct (main_body (telegram_environ mixed_config) mixed_world)
    as [[code | e] w'] eqn:Hm; [| vm_compute in Hm; discriminate Hm].
  assert (Hcode : code = 0%Z).
  { pose proof Hm as Hm'. vm_compute in Hm'. injection Hm' as <- _.
    reflexivity. }
  subst code.
  destruct (main_body_report (telegram_environ mixed_config) mixed_world w'
              0%Z eq_refl Hm)
    as [(Hone & _) | (accounts & st & w1 & _ & Hrun & _ & Hsent)];
    [discriminate Hone |].
  assert (Hboth :
            truthy (PStr (env_text
                            (TELEGRAM_BOT_TOKEN (telegram_environ mixed_config))))
            && truthy (PStr (env_text
                               (TELEGRAM_CHAT_ID (telegram_environ mixed_config))))
            = true) by (vm_compute; reflexivity).
  rewrite Hboth in Hsent. destruct Hsent as (msg & Hmsg & Hw).
  exists w', accounts, st, w1, msg.
  split; [reflexivity |]. split; [exact Hrun |].
  split; [exact Hmsg | exact Hw].
Defined.

(* ================================================================== *)
(** * Theorems: a run without a success *)

(** When no answer claims success, the loop completes whatever the
    answers are, and counts every account as failed after two requests. *)
Lemma run_accounts_without_success :
  forall (accounts : list account) (i : nat) (st : run_state) (w : world),
    forallb addressable accounts = true ->
    (forall tr rq, claims_success (respond w tr rq) = false) ->
    exists (st' : run_state) (w' : world),
      run_accounts i accounts st w = (Ok st', w')
      /\ respond w' = respond w
      /\ success_count st' = success_count st
      /\ fail_count st' = (fail_count st + List.length accounts)%nat
      /\ List.length (trace w')
         = (List.length (trace w) + 2 * List.length accounts)%nat.
Proof.
  induction accounts as [| acc rest IH]; intros i st w Hacc Hnet.
  - exists st, w. cbn [List.length]. repeat split; lia.
  - cbn [forallb] in Hacc. apply andb_prop in Hacc as [Ha Hrest].
    assert (Hbenign : forall tr rq, benign (respond w tr rq) = true).
    { intros tr rq. apply benign_unless_success, Hnet. }
    destruct (process_account_total i acc st w Ha Hbenign)
      as (st1 & w1 & Hstep & Hw1).
    destruct (process_account_steps _ _ _ _ _ _ Hstep)
      as (c & c' & ok & month & _ & _ & _ & Hok & _ & _ & Ht & Hs & Hf).
    rewrite checkin_success_claimed, Hnet in Hok. subst ok.
    destruct (IH (S i) st1 w1 Hrest)
      as (st' & w' & Hrun & Hw' & Hs' & Hf' & Ht').
    { intros tr rq. rewrite Hw1. apply Hnet. }
    exists st', w'.
    split; [cbn [run_accounts];
            rewrite (io_bind_ok _ _ _ _ _ _ _ Hstep); exact Hrun |].
    split; [congruence |].
    split; [congruence |].
    rewrite Hf', Hf, Ht', Ht, length_app.
    cbn [account_requests List.length app]. split; lia.
Qed.



(* ================================================================== *)
(** * Theorems: what a failure says, and what the display can break *)

(** X22.  Whenever the check-in is not answered with status 200, the
    result carries an explanation: its message is a text, and not the
    empty one.  So it is after any failure of the transport and after a
    response with any other status, whatever its body.  (After status
    200 the message is whatever the service put under [message].) *)
Theorem checkin_failure_explained :
  (forall e : exn,
      exists m : pystr,
        message (checkin_result_of (Failure e)) = PStr m /\ m <> [])
  /\ (forall (status : Z) (text : pystr),
         (status =? 200)%Z = false ->
         exists m : pystr,
           message (checkin_result_of (Response status text)) = PStr m
           /\ m <> []).
Proof.
  assert (Hhandler : forall (e : exn) (r : checkin_result),
             exists m : pystr,
               message (checkin_handler e r) = PStr m /\ m <> []).
  { intros e r. unfold checkin_handler.
    destruct (is_timeout e); [eexists; split; [reflexivity | discriminate] |].
    destruct (is_request_exception e);
      eexists; (split; [reflexivity | discriminate]). }
  split; [intros e; apply Hhandler |].
  intros status text H200. unfold checkin_result_of, checkin_on_response.
  destruct (status =? 401)%Z.
  { eexists. split; [reflexivity | discriminate]. }
  destruct (response_json text) as [data | e].
  - rewrite H200.
    destruct data as [| b | z | x | s | l | d];
      try (eexists; split; [reflexivity | discriminate]).
  - destruct (is_json_decode_error e); [| apply Hhandler].
    eexists. split; [reflexivity | discriminate].
Qed.

Lemma masked_username_unsized :
  forall (profile : list (pystr * pyval)) (v : pyval),
    lookup (py "username") profile = Some v ->
    sized v = false ->
    exists e : exn, masked_username (PDict profile) = Raise e.
Proof.
  intros profile v Hv Hsized. unfold masked_username.
  cbn [py_get bind]. rewrite Hv.
  destruct v; try discriminate Hsized; eexists; reflexivity.
Qed.

(** X23.  The display of the user name is outside every [try]: when the
    profile that [get_user_info] returns has a [username] without a
    length (null, a number, a boolean), [len(username)] raises, and the
    iteration ends there, after the profile request and before any
    check-in; the exception leaves the loop and [main]. *)
Theorem process_account_unsized_username :
  forall (i : nat) (acc : account) (st : run_state) (w : world) (c : client)
         (text : pystr) (d profile : list (pystr * pyval)) (ok v : pyval),
    client_of acc = Ok c ->
    respond w (trace w) (api_request c GET "/api/user/self" [])
    = Response 200 text ->
    response_json text = Ok (PDict d) ->
    lookup (py "success") d = Some ok ->
    truthy ok = true ->
    lookup (py "data") d = Some (PDict profile) ->
    lookup (py "username") profile = Some v ->
    sized v = false ->
    exists e : exn,
      process_account i acc st w
      = (Raise e, sent w (api_request c GET "/api/user/self" [])).
Proof.
  intros i acc st w c text d profile ok v Hc Ho Hjson Hok Htrue Hdata Hv Hs.
  destruct (masked_username_unsized profile v Hv Hs) as [e He].
  exists e.
  assert (Hne : truthy (PDict profile) = true).
  { destruct profile; [discriminate Hv | reflexivity]. }
  unfold client_of in Hc. unfold process_account.
  destruct (py_item (PDict acc) (py "url")) as [url | e0];
    [| discriminate Hc].
  destruct (py_item (PDict acc) (py "session")) as [session_cookie | e0];
    [| discriminate Hc].
  cbn [bind] in Hc. cbn [py_get] in Hc |- *. cbn [bind] in Hc.
  unfold io_bind at 1. unfold io_lift at 1.
  unfold io_bind at 1. unfold io_lift at 1.
  unfold io_bind at 1. unfold io_lift at 1.
  unfold io_bind at 1. unfold io_lift at 1.
  unfold io_bind at 1. unfold io_lift at 1.
  unfold io_bind at 1. unfold io_lift at 1. rewrite Hc.
  unfold io_bind at 1. rewrite get_user_info_run, Ho.
  unfold profile_answer.
  change (200 =? 401)%Z with false. change (200 =? 200)%Z with true.
  cbv iota. rewrite Hjson. cbn [py_get bind]. rewrite Hok, Htrue, Hdata, Hne.
  cbn [py_in bind].
  destruct (has_key (py "id") profile) eqn:Hid.
  - unfold has_key in Hid. cbn [py_item].
    destruct (lookup (py "id") profile) as [uid |]; [| discriminate Hid].
    cbn [bind]. unfold io_bind at 1. unfold io_lift at 1.
    rewrite Hne, He. reflexivity.
  - unfold io_bind at 1. unfold io_lift at 1.
    rewrite Hne, He. reflexivity.
Qed.

(** An account whose profile has a null user name. *)
Lemma process_account_unsized_username_null :
  exists e : exn,
    process_account 1 (pair_account (py "https://a.example") (py "token-a"))
                    (mk_state 0 0 []) nameless_world
    = (Raise e,
       sent nameless_world (api_request example_client GET "/api/user/self" [])).
Proof.
  apply (process_account_unsized_username
           1 (pair_account (py "https://a.example") (py "token-a"))
           (mk_state 0 0 []) nameless_world example_client
           (quoted "{'success': true, 'data': {'id': 42, 'username': null}}")
           [ (py "success", PBool true);
             (py "data", PDict [ (py "id", PInt 42);
                                 (py "username", PNone) ]) ]
           [ (py "id", PInt 42); (py "username", PNone) ]
           (PBool true) PNone);
    vm_compute; reflexivity.
Defined.

(* ================================================================== *)
(** * Theorems: the patterns find what they look for *)

Lemma separator_not_decimal :
  forall c : N, colon_or_space c = true -> is_decimal c = false.
Proof.
  intros c H.
  assert (Hc : c = 58 \/ c = 9 \/ c = 10 \/ c = 11 \/ c = 12 \/ c = 13
               \/ c = 28 \/ c = 29 \/ c = 30 \/ c = 31 \/ c = 32
               \/ c = 133 \/ c = 160 \/ c = 5760
               \/ c = 8192 \/ c = 8193 \/ c = 8194 \/ c = 8195 \/ c = 8196
               \/ c = 8197 \/ c = 8198 \/ c = 8199 \/ c = 8200 \/ c = 8201
               \/ c = 8202 \/ c = 8232 \/ c = 8233 \/ c = 8239 \/ c = 8287
               \/ c = 12288).
  { unfold colon_or_space, is_space in H.
    rewrite !orb_true_iff, !andb_true_iff, !N.leb_le, !N.eqb_eq in H. lia. }
  repeat (destruct Hc as [-> | Hc]; [vm_compute; reflexivity |]).
  subst c. vm_compute. reflexivity.
Qed.

Lemma not_separator :
  forall d : N, is_decimal d = true -> colon_or_space d = false.
Proof.
  intros d Hd. destruct (colon_or_space d) eqn:Hs; [| reflexivity].
  rewrite (separator_not_decimal d Hs) in Hd. discriminate Hd.
Qed.

Section Completeness.

Context {A : Type}.

Lemma match_items_literal :
  forall (l : pystr) (items : list regex_item) (s : pystr)
         (k : pystr -> option A),
    forallb (fun c => matches_ignore_case c c) l = true ->
    match_items (map RLit l ++ items) (l ++ s) k = match_items items s k.
Proof.
  induction l as [| c l IH]; intros items s k H; [reflexivity |].
  cbn [forallb] in H. apply andb_prop in H as [Hc Hl].
  cbn [map app match_items]. rewrite Hc. apply IH. exact Hl.
Qed.

Lemma match_items_nil :
  forall (s : pystr) (k : pystr -> option A), match_items [] s k = k s.
Proof. reflexivity. Qed.

Lemma match_items_set :
  forall (f : N -> bool) (items : list regex_item) (x : N) (s : pystr)
         (k : pystr -> option A),
    f x = true ->
    match_items (RSet f :: items) (x :: s) k = match_items items s k.
Proof. intros f items x s k H. cbn [match_items]. now rewrite H. Qed.

(** One character of the class and then a character outside it. *)
Lemma match_items_plus_one :
  forall (f : N -> bool) (items : list regex_item) (x y : N) (s : pystr)
         (k : pystr -> option A),
    f x = true -> f y = false ->
    match_items (RPlus f :: items) (x :: y :: s) k
    = match_items items (y :: s) k.
Proof.
  intros f items x y s k Hx Hy. cbn [match_items plus_more].
  now rewrite Hx, Hy.
Qed.

Lemma plus_more_total :
  forall (f : N -> bool) (s : pystr) (k : pystr -> option A),
    (forall r, k r <> None) -> plus_more f s k <> None.
Proof.
  intros f. induction s as [| x r IH]; intros k Hk; [apply Hk |].
  cbn [plus_more]. destruct (f x); [| apply Hk].
  destruct (plus_more f r k); [discriminate | apply Hk].
Qed.

End Completeness.

(** The group of digits, at a digit. *)
Lemma match_group_digit :
  forall (d : N) (post s1 : pystr),
    is_decimal d = true ->
    match_items [RPlus is_decimal] (d :: post)
      (fun s2 => Some (firstn (List.length s1 - List.length s2) s1))
    <> None.
Proof.
  intros d post s1 Hd. cbn [match_items]. rewrite Hd.
  apply plus_more_total. intros r. discriminate.
Qed.

Lemma match_at_prefix :
  forall prefix : pystr,
    In prefix id_prefixes ->
    exists p : pattern,
      In p patterns
      /\ forall (d : N) (post : pystr),
          is_decimal d = true -> match_at p (prefix ++ d :: post) <> None.
Proof.
  intros prefix Hin. unfold id_prefixes in Hin. cbn [In] in Hin.
  destruct Hin as [<- | [<- | [<- | [<- | [<- | [<- | [<- | [<- | []]]]]]]]].
  - exists (nth 0 patterns (mk_pattern [] [])).
    split; [cbn; tauto |]. intros d post Hd.
    unfold match_at. cbn [nth patterns pat_prefix pat_group]. unfold literal.
    replace (py "linuxdo_" ++ d :: post)
      with (py "linuxdo" ++ 95 :: d :: post) by (vm_compute; reflexivity).
    rewrite match_items_literal by (vm_compute; reflexivity).
    rewrite match_items_set by reflexivity.
    rewrite match_items_nil. apply match_group_digit. exact Hd.
  - exists (nth 0 patterns (mk_pattern [] [])).
    split; [cbn; tauto |]. intros d post Hd.
    unfold match_at. cbn [nth patterns pat_prefix pat_group]. unfold literal.
    replace (py "linuxdo-" ++ d :: post)
      with (py "linuxdo" ++ 45 :: d :: post) by (vm_compute; reflexivity).
    rewrite match_items_literal by (vm_compute; reflexivity).
    rewrite match_items_set by reflexivity.
    rewrite match_items_nil. apply match_group_digit. exact Hd.
  - exists (nth 1 patterns (mk_pattern [] [])).
    split; [cbn; tauto |]. intros d post Hd.
    unfold match_at. cbn [nth patterns pat_prefix pat_group]. unfold literal.
    replace (quoted "'id':" ++ d :: post)
      with ([dquote] ++ py "id" ++ [dquote] ++ 58 :: d :: post)
      by (vm_compute; reflexivity).
    change [RLit dquote] with (map RLit [dquote]).
    rewrite !match_items_literal by (vm_compute; reflexivity).
    rewrite match_items_plus_one
      by (first [ reflexivity | apply (not_separator d Hd) ]).
    rewrite match_items_nil. apply match_group_digit. exact Hd.
  - exists (nth 1 patterns (mk_pattern [] [])).
    split; [cbn; tauto |]. intros d post Hd.
    unfold match_at. cbn [nth patterns pat_prefix pat_group]. unfold literal.
    replace (quoted "'id' " ++ d :: post)
      with ([dquote] ++ py "id" ++ [dquote] ++ 32 :: d :: post)
      by (vm_compute; reflexivity).
    change [RLit dquote] with (map RLit [dquote]).
    rewrite !match_items_literal by (vm_compute; reflexivity).
    rewrite match_items_plus_one
      by (first [ reflexivity | apply (not_separator d Hd) ]).
    rewrite match_items_nil. apply match_group_digit. exact Hd.
  - exists (nth 2 patterns (mk_pattern [] [])).
    split; [cbn; tauto |]. intros d post Hd.
    unfold match_at. cbn [nth patterns pat_prefix pat_group]. unfold literal.
    replace (py "user_" ++ d :: post)
      with (py "user" ++ 95 :: d :: post) by (vm_compute; reflexivity).
    rewrite match_items_literal by (vm_compute; reflexivity).
    rewrite match_items_set by reflexivity.
    rewrite match_items_nil. apply match_group_digit. exact Hd.
  - exists (nth 2 patterns (mk_pattern [] [])).
    split; [cbn; tauto |]. intros d post Hd.
    unfold match_at. cbn [nth patterns pat_prefix pat_group]. unfold literal.
    replace (py "user-" ++ d :: post)
      with (py "user" ++ 45 :: d :: post) by (vm_compute; reflexivity).
    rewrite match_items_literal by (vm_compute; reflexivity).
    rewrite match_items_set by reflexivity.
    rewrite match_items_nil. apply match_group_digit. exact Hd.
  - exists (nth 3 patterns (mk_pattern [] [])).
    split; [cbn; tauto |]. intros d post Hd.
    unfold match_at. cbn [nth patterns pat_prefix pat_group]. unfold literal.
    replace (py "userid:" ++ d :: post)
      with (py "userid" ++ 58 :: d :: post) by (vm_compute; reflexivity).
    rewrite match_items_literal by (vm_compute; reflexivity).
    rewrite match_items_plus_one
      by (first [ reflexivity | apply (not_separator d Hd) ]).
    rewrite match_items_nil. apply match_group_digit. exact Hd.
  - exists (nth 3 patterns (mk_pattern [] [])).
    split; [cbn; tauto |]. intros d post Hd.
    unfold match_at. cbn [nth patterns pat_prefix pat_group]. unfold literal.
    replace (py "userid " ++ d :: post)
      with (py "userid" ++ 32 :: d :: post) by (vm_compute; reflexivity).
    rewrite match_items_literal by (vm_compute; reflexivity).
    rewrite match_items_plus_one
      by (first [ reflexivity | apply (not_separator d Hd) ]).
    rewrite match_items_nil. apply match_group_digit. exact Hd.
Qed.

Lemma re_search_finds :
  forall (p : pattern) (pre s : pystr),
    match_at p s <> None -> re_search p (pre ++ s) <> None.
Proof.
  intros p. induction pre as [| x pre IH]; intros s H.
  - cbn [app]. destruct s as [| y r]; cbn [re_search];
      destruct (match_at p _); congruence.
  - cbn [app re_search].
    destruct (match_at p (x :: pre ++ s)); [discriminate | apply IH, H].
Qed.

Lemma first_match_finds :
  forall (ps : list pattern) (p : pattern) (text : pystr),
    In p ps -> re_search p text <> None -> first_match ps text <> None.
Proof.
  induction ps as [| q ps IH]; intros p text Hin H; [contradiction |].
  cbn [first_match]. destruct (re_search q text) eqn:Hq; [discriminate |].
  destruct Hin as [-> | Hin]; [congruence | exact (IH p text Hin H)].
Qed.

(** X24.  The search for a user id does not miss: when the decoded text
    holds, anywhere, one of the beginnings the patterns look for
    ([linuxdo_], [linuxdo-], ["id":], ["id" ], [user_], [user-],
    [userid:], [userid ]) followed by a decimal digit, the loop over the
    patterns returns an id, and that id is a non-empty text of digits
    taken from the text. *)
Theorem first_match_complete :
  forall (prefix pre post : pystr) (d : N),
    In prefix id_prefixes ->
    is_decimal d = true ->
    exists g : pystr,
      first_match patterns (pre ++ prefix ++ d :: post) = Some g
      /\ numeric g
      /\ includes g (pre ++ prefix ++ d :: post).
Proof.
  intros prefix pre post d Hin Hd.
  destruct (match_at_prefix prefix Hin) as (p & Hp & Hmatch).
  pose proof (first_match_finds patterns p _ Hp
                (re_search_finds p pre _ (Hmatch d post Hd))) as Hfound.
  destruct (first_match patterns (pre ++ prefix ++ d :: post)) as [g |] eqn:Hg;
    [| congruence].
  exists g. split; [reflexivity |].
  exact (first_match_numeric _ g Hg).
Qed.

(** A text that holds [user_42]. *)
Lemma first_match_complete_user :
  exists g : pystr,
    first_match patterns (py "{name: " ++ py "user_" ++ 52 :: py "2}")
    = Some g
    /\ numeric g
    /\ includes g (py "{name: " ++ py "user_" ++ 52 :: py "2}").
Proof.
  apply (first_match_complete (py "user_") (py "{name: ") (py "2}") 52).
  - unfold id_prefixes. cbn [In]. tauto.
  - vm_compute. reflexivity.
Defined.
